(** * Google Maps MCP server: the adapter (maps_tools.py) and the tool
      gateway (server.py), embedded as Rocq functions.

    The Python code is dynamically typed and works on JSON-like provider
    responses, so the embedding has three layers:

    - [Py]: the Python values the code handles, the exceptions it raises
      and catches, and the interpreter operations it uses (subscripting,
      [dict.get], truthiness, iteration, [float], [str.split], ...);
    - [GoogleMapsTools]: the methods of the class of that name;
    - [Server]: the seven tools registered with [@mcp.tool()].

    The mapping provider ([googlemaps.Client]) is an external collaborator:
    it is a stub, a function from the request to a response or an
    exception, and every request is recorded in a log. *)

From Stdlib Require Import ZArith QArith Qround List String Ascii Bool Lia.
Import ListNotations.

Set Warnings "-register-all".

Open Scope string_scope.
Open Scope Z_scope.

Module Py.

(** ** Values *)

(** A Python [float].  Finite values are kept as exact rationals: the
    rounding of a literal to binary64 is not part of the model.  Infinities
    and NaN are kept because [float()] and the JSON decoder produce them and
    comparisons treat them specially. *)
Inductive pyfloat : Type :=
| FNum (q : Q)
| FInf (negative : bool)
| FNan.

(** A [datetime.datetime]: broken-down fields and, for an aware value, the
    offset from UTC in seconds. *)
Record datetime : Type := mkDatetime {
  dt_year : Z; dt_month : Z; dt_day : Z;
  dt_hour : Z; dt_minute : Z; dt_second : Z;
  dt_utcoffset : option Z
}.

(** Dictionaries keep insertion order, as Python's do; keys are strings
    (JSON objects and keyword arguments), each at most once. *)
Inductive pyval : Type :=
| VNone
| VBool (b : bool)
| VInt (z : Z)
| VFloat (f : pyfloat)
| VStr (s : string)
| VList (l : list pyval)
| VTuple (l : list pyval)
| VDict (d : list (string * pyval))
| VDatetime (d : datetime).

Definition pydict : Type := list (string * pyval).

Fixpoint dict_get (d : pydict) (k : string) : option pyval :=
  match d with
  | [] => None
  | (k', v) :: d' => if String.eqb k k' then Some v else dict_get d' k
  end.

(** [d[k] = v]: overwrite in place, or append a new key at the end. *)
Fixpoint dict_set (d : pydict) (k : string) (v : pyval) : pydict :=
  match d with
  | [] => [(k, v)]
  | (k', v') :: d' =>
      if String.eqb k k' then (k', v) :: d' else (k', v') :: dict_set d' k v
  end.

Definition type_name (v : pyval) : string :=
  match v with
  | VNone => "NoneType"
  | VBool _ => "bool"
  | VInt _ => "int"
  | VFloat _ => "float"
  | VStr _ => "str"
  | VList _ => "list"
  | VTuple _ => "tuple"
  | VDict _ => "dict"
  | VDatetime _ => "datetime.datetime"
  end.

(** ** Floats *)

Definition float_le (a b : pyfloat) : bool :=
  match a, b with
  | FNan, _ | _, FNan => false
  | FNum p, FNum q => Qle_bool p q
  | FInf true, _ => true
  | _, FInf false => true
  | FInf false, _ => false
  | _, FInf true => false
  end.

Definition float_lt (a b : pyfloat) : bool :=
  match a, b with
  | FNan, _ | _, FNan => false
  | _, _ => negb (float_le b a)
  end.

Definition float_truthy (a : pyfloat) : bool :=
  match a with
  | FNum q => negb (Qeq_bool q 0)
  | FInf _ => true
  | FNan => true
  end.

Definition float_of_Z (z : Z) : pyfloat := FNum (inject_Z z).

(** The numeric view of a value: [bool] is a subclass of [int], and
    comparisons between [int] and [float] are exact in Python. *)
Definition as_number (v : pyval) : option pyfloat :=
  match v with
  | VBool b => Some (float_of_Z (if b then 1 else 0))
  | VInt z => Some (float_of_Z z)
  | VFloat f => Some f
  | _ => None
  end.

(** [bool(v)] *)
Definition truthy (v : pyval) : bool :=
  match v with
  | VNone => false
  | VBool b => b
  | VInt z => negb (z =? 0)
  | VFloat f => float_truthy f
  | VStr s => negb (String.eqb s "")
  | VList l | VTuple l => match l with [] => false | _ => true end
  | VDict d => match d with [] => false | _ => true end
  | VDatetime _ => true
  end.

(** ** Messages and exceptions *)

(** The text of a message.  [str(v)] and [repr(v)] of a value that is not
    a string stay symbolic: the server only ever concatenates them. *)
Inductive piece : Type :=
| Lit (s : string)
| StrOf (v : pyval)
| ReprOf (v : pyval).

Definition text : Type := list piece.

(** Literal text in front of a message; adjacent literals are merged. *)
Definition lit_cons (s : string) (t : text) : text :=
  match t with
  | Lit s' :: t' => Lit (s ++ s') :: t'
  | _ => Lit s :: t
  end.

(** [str(v)] *)
Definition py_str (v : pyval) : text :=
  match v with
  | VStr s => [Lit s]
  | _ => [StrOf v]
  end.

Inductive exc_class : Type :=
| ValueError
| KeyError
| IndexError
| TypeError
| AttributeError
| OverflowError
| OSError
| RuntimeError
| OtherException (name : string).

Definition exc_class_eqb (a b : exc_class) : bool :=
  match a, b with
  | ValueError, ValueError | KeyError, KeyError | IndexError, IndexError
  | TypeError, TypeError | AttributeError, AttributeError
  | OverflowError, OverflowError | OSError, OSError
  | RuntimeError, RuntimeError => true
  | OtherException n, OtherException m => String.eqb n m
  | _, _ => false
  end.

(** An exception object: its class, [str(e)], the [__cause__] set by
    [raise ... from e], and the [__context__] the interpreter sets on an
    exception raised while another one is being handled.  All of these
    classes derive from [Exception]. *)
Inductive exn : Type :=
| Exn (cls : exc_class) (msg : text) (cause context : option exn).

Definition exc_cls (e : exn) : exc_class := let 'Exn c _ _ _ := e in c.
Definition exc_str (e : exn) : text := let 'Exn _ m _ _ := e in m.
Definition exc_cause (e : exn) : option exn := let 'Exn _ _ c _ := e in c.
Definition exc_context (e : exn) : option exn := let 'Exn _ _ _ c := e in c.

(** f"{prefix}{str(e)}" *)
Definition fstr (prefix : string) (t : text) : text := lit_cons prefix t.

(** ** Results and the request log *)

Inductive result (A : Type) : Type :=
| Ok (a : A)
| Err (e : exn).
Arguments Ok {A} a.
Arguments Err {A} e.

Inductive endpoint : Type :=
| geocode_ep | reverse_geocode_ep | places_nearby_ep | place_ep
| distance_matrix_ep | directions_ep | elevation_ep.

(** One request to the provider: the client method and its arguments by
    name. *)
Definition call : Type := (endpoint * pydict)%type.

(** A computation that may raise and that may send requests; the log keeps
    the requests sent so far, oldest first, also when the computation
    raises. *)
Definition M (A : Type) : Type := list call -> result A * list call.

Definition ret {A} (a : A) : M A := fun log => (Ok a, log).
Definition raise {A} (e : exn) : M A := fun log => (Err e, log).
Definition lift {A} (r : result A) : M A := fun log => (r, log).

Definition bind {A B} (m : M A) (k : A -> M B) : M B :=
  fun log =>
    match m log with
    | (Ok a, log') => k a log'
    | (Err e, log') => (Err e, log')
    end.

(** [try: body / except Exception as e: handler e] *)
Definition try_except {A} (body : M A) (handler : exn -> M A) : M A :=
  fun log =>
    match body log with
    | (Ok a, log') => (Ok a, log')
    | (Err e, log') => handler e log'
    end.

(** [try: body / except (c1, c2, ...) as e: handler e] *)
Definition try_except_in {A} (classes : list exc_class)
    (body : M A) (handler : exn -> M A) : M A :=
  fun log =>
    match body log with
    | (Ok a, log') => (Ok a, log')
    | (Err e, log') =>
        if existsb (exc_class_eqb (exc_cls e)) classes
        then handler e log' else (Err e, log')
    end.

Notation "x <- c ;; k" := (bind c (fun x => k))
  (at level 61, c at next level, right associativity).

(** [C(msg)] raised while no exception is being handled. *)
Definition exception (c : exc_class) (m : text) : exn := Exn c m None None.

(** [raise C(msg) from e] in the handler of [e]: [e] is both the
    [__cause__] and the [__context__] of the new exception. *)
Definition exception_from (c : exc_class) (m : text) (e : exn) : exn :=
  Exn c m (Some e) (Some e).

(** [raise C(msg)], without [from], in the handler of [e]: the new
    exception has no [__cause__], and [e] is its [__context__]. *)
Definition exception_handling (c : exc_class) (m : text) (e : exn) : exn :=
  Exn c m None (Some e).

(** The outcome of a call made in the handler of [e]: an exception it
    raises gets [e] as its [__context__]. *)
Definition while_handling {A} (e : exn) (r : result A) : result A :=
  match r with
  | Ok a => Ok a
  | Err (Exn c m cause _) => Err (Exn c m cause (Some e))
  end.

(** ** Interpreter operations on values *)

Definition not_subscriptable (v : pyval) : exn :=
  exception TypeError
    [Lit ("'" ++ type_name v ++ "' object is not subscriptable")].

Definition no_attribute (v : pyval) (attr : string) : exn :=
  exception AttributeError
    [Lit ("'" ++ type_name v ++ "' object has no attribute '" ++ attr ++ "'")].

(** [v[k]] for a string key [k].  A missing key raises [KeyError(k)], whose
    [str] is [repr(k)]. *)
Definition getitem (v : pyval) (k : string) : result pyval :=
  match v with
  | VDict d =>
      match dict_get d k with
      | Some x => Ok x
      | None => Err (exception KeyError [ReprOf (VStr k)])
      end
  | VList _ =>
      Err (exception TypeError
             [Lit "list indices must be integers or slices, not str"])
  | VTuple _ =>
      Err (exception TypeError
             [Lit "tuple indices must be integers or slices, not str"])
  | VStr _ =>
      Err (exception TypeError [Lit "string indices must be integers, not 'str'"])
  | _ => Err (not_subscriptable v)
  end.

Definition seq_index {A} (l : list A) (i : Z) : option A :=
  let n := Z.of_nat (List.length l) in
  let j := if i <? 0 then i + n else i in
  if (0 <=? j) && (j <? n) then nth_error l (Z.to_nat j) else None.

Definition string_chars (s : string) : list pyval :=
  map (fun c => VStr (String c EmptyString)) (list_ascii_of_string s).

(** [v[i]] for an integer index [i]. *)
Definition getitem_int (v : pyval) (i : Z) : result pyval :=
  match v with
  | VList l =>
      match seq_index l i with
      | Some x => Ok x
      | None => Err (exception IndexError [Lit "list index out of range"])
      end
  | VTuple l =>
      match seq_index l i with
      | Some x => Ok x
      | None => Err (exception IndexError [Lit "tuple index out of range"])
      end
  | VStr s =>
      match seq_index (string_chars s) i with
      | Some x => Ok x
      | None => Err (exception IndexError [Lit "string index out of range"])
      end
  | VDict _ => Err (exception KeyError [ReprOf (VInt i)])
  | _ => Err (not_subscriptable v)
  end.

(** [v.get(k, default)] *)
Definition py_get (v : pyval) (k : string) (default : pyval) : result pyval :=
  match v with
  | VDict d =>
      match dict_get d k with
      | Some x => Ok x
      | None => Ok default
      end
  | _ => Err (no_attribute v "get")
  end.

(** The elements a [for] loop or a comprehension visits. *)
Definition py_iter (v : pyval) : result (list pyval) :=
  match v with
  | VList l | VTuple l => Ok l
  | VDict d => Ok (map (fun kv => VStr (fst kv)) d)
  | VStr s => Ok (string_chars s)
  | _ =>
      Err (exception TypeError
             [Lit ("'" ++ type_name v ++ "' object is not iterable")])
  end.

Fixpoint contains (needle s : string) : bool :=
  if prefix needle s then true
  else match s with
       | EmptyString => false
       | String _ s' => contains needle s'
       end.

Definition is_str (k : string) (v : pyval) : bool :=
  match v with
  | VStr s => String.eqb s k
  | _ => false
  end.

(** [k in v] for a string [k]: a key of a dict, an element of a list or
    tuple, a substring of a string. *)
Definition py_in (k : string) (v : pyval) : result bool :=
  match v with
  | VDict d => Ok (match dict_get d k with Some _ => true | None => false end)
  | VList l | VTuple l => Ok (existsb (is_str k) l)
  | VStr s => Ok (contains k s)
  | _ =>
      Err (exception TypeError
             [Lit ("argument of type '" ++ type_name v ++ "' is not iterable")])
  end.

(** [a >= b].  Numbers compare by value and strings by code point; any
    other pair met in this program (a number against [None], a string, a
    list or a dict) is a [TypeError].  Two lists or two tuples, which
    Python orders lexicographically, are never compared by the server:
    the threshold it passes is a [float] or [None]. *)
Definition py_ge (a b : pyval) : result bool :=
  match as_number a, as_number b with
  | Some x, Some y => Ok (float_le y x)
  | _, _ =>
      match a, b with
      | VStr s, VStr t => Ok (String.leb t s)
      | _, _ =>
          Err (exception TypeError
                 [Lit ("'>=' not supported between instances of '"
                       ++ type_name a ++ "' and '" ++ type_name b ++ "'")])
      end
  end.

(** Bind for computations that send no request. *)
Definition rbind {A B} (r : result A) (k : A -> result B) : result B :=
  match r with
  | Ok a => k a
  | Err e => Err e
  end.

Notation "x <~ r ;; k" := (rbind r (fun x => k))
  (at level 61, r at next level, right associativity).

(** [try: r / except (c1, c2, ...) as e: handler e], without requests. *)
Definition catch_in {A} (classes : list exc_class)
    (r : result A) (handler : exn -> result A) : result A :=
  match r with
  | Ok a => Ok a
  | Err e =>
      if existsb (exc_class_eqb (exc_cls e)) classes then handler e else Err e
  end.

(** [l[i]] on a list built by the program itself. *)
Definition list_index {A} (l : list A) (i : Z) : result A :=
  match seq_index l i with
  | Some x => Ok x
  | None => Err (exception IndexError [Lit "list index out of range"])
  end.

(** [v[k1][k2]] *)
Definition getitem2 (v : pyval) (k1 k2 : string) : result pyval :=
  x <~ getitem v k1 ;;
  getitem x k2.

(** [[f(x) for x in l]], left to right, stopping at the first exception. *)
Fixpoint map_result {A B} (f : A -> result B) (l : list A) : result (list B) :=
  match l with
  | [] => Ok []
  | x :: l' =>
      y <~ f x ;;
      ys <~ map_result f l' ;;
      Ok (y :: ys)
  end.

(** [[x for x in l if p(x)]] *)
Fixpoint filter_result {A} (p : A -> result bool) (l : list A)
  : result (list A) :=
  match l with
  | [] => Ok []
  | x :: l' =>
      b <~ p x ;;
      ys <~ filter_result p l' ;;
      Ok (if b then x :: ys else ys)
  end.

(** ** Strings *)

(** Strings are sequences of code points below 256, one [ascii] each. *)
Definition code (c : ascii) : Z := Z.of_N (N_of_ascii c).

(** [c.isspace()], which decides what [str.strip()] removes. *)
Definition is_space (c : ascii) : bool :=
  let n := code c in
  ((9 <=? n) && (n <=? 13)) || ((28 <=? n) && (n <=? 32))
  || (n =? 133) || (n =? 160).

Fixpoint lstrip (s : string) : string :=
  match s with
  | EmptyString => EmptyString
  | String c s' => if is_space c then lstrip s' else s
  end.

Fixpoint rstrip (s : string) : string :=
  match s with
  | EmptyString => EmptyString
  | String c s' =>
      let r := rstrip s' in
      if is_space c && String.eqb r "" then EmptyString else String c r
  end.

(** [s.strip()] *)
Definition strip (s : string) : string := rstrip (lstrip s).

(** [s.split(sep)] for a separator of one character. *)
Fixpoint split (sep : ascii) (s : string) : list string :=
  match s with
  | EmptyString => [EmptyString]
  | String c s' =>
      if Ascii.eqb c sep then EmptyString :: split sep s'
      else match split sep s' with
           | h :: t => String c h :: t
           | [] => [String c EmptyString]
           end
  end.

(** [s.replace(old, new)] for [old] of one character. *)
Fixpoint replace (old : ascii) (new : string) (s : string) : string :=
  match s with
  | EmptyString => EmptyString
  | String c s' =>
      if Ascii.eqb c old then new ++ replace old new s'
      else String c (replace old new s')
  end.

(** ** [float(s)] *)

Definition is_digit (c : ascii) : bool :=
  (48 <=? code c) && (code c <=? 57).

Definition digit_val (c : ascii) : Z := code c - 48.

Definition to_lower (c : ascii) : ascii :=
  if (65 <=? code c) && (code c <=? 90)
  then ascii_of_N (Z.to_N (code c + 32)) else c.

Fixpoint lower (s : string) : string :=
  match s with
  | EmptyString => EmptyString
  | String c s' => String (to_lower c) (lower s')
  end.

(** The rest of a [digitpart] after its first digit: digits, each
    optionally preceded by one underscore.  Returns the value read so
    far, the number of digits, and the unread suffix. *)
Fixpoint digits_rest (s : string) (acc cnt : Z) : Z * Z * string :=
  match s with
  | EmptyString => (acc, cnt, s)
  | String c s' =>
      if is_digit c then digits_rest s' (10 * acc + digit_val c) (cnt + 1)
      else if Ascii.eqb c "_" then
        match s' with
        | String d s'' =>
            if is_digit d
            then digits_rest s'' (10 * acc + digit_val d) (cnt + 1)
            else (acc, cnt, s)
        | EmptyString => (acc, cnt, s)
        end
      else (acc, cnt, s)
  end.

(** digitpart ::= digit (["_"] digit)*, continuing the value [acc]. *)
Definition digitpart (s : string) (acc : Z) : option (Z * Z * string) :=
  match s with
  | String c s' =>
      if is_digit c then Some (digits_rest s' (10 * acc + digit_val c) 1)
      else None
  | EmptyString => None
  end.

(** number ::= [digitpart] "." digitpart | digitpart ["."]
    Returns the digits read as one integer, how many of them follow the
    point, and the unread suffix. *)
Definition number (s : string) : option (Z * Z * string) :=
  match digitpart s 0 with
  | Some (m, _, rest) =>
      match rest with
      | String "." rest' =>
          match digitpart rest' m with
          | Some (m', k, rest'') => Some (m', k, rest'')
          | None => Some (m, 0, rest')
          end
      | _ => Some (m, 0, rest)
      end
  | None =>
      match s with
      | String "." rest' => digitpart rest' 0
      | _ => None
      end
  end.

(** [sign] : true when the text starts with a minus sign. *)
Definition sign (s : string) : bool * string :=
  match s with
  | String "-" s' => (true, s')
  | String "+" s' => (false, s')
  | _ => (false, s)
  end.

(** exponent ::= ("e" | "E") [sign] digitpart, up to the end of the text. *)
Definition exponent (s : string) : option Z :=
  match s with
  | EmptyString => Some 0
  | String c s' =>
      if Ascii.eqb (to_lower c) "e" then
        let '(neg, s'') := sign s' in
        match digitpart s'' 0 with
        | Some (e, _, EmptyString) => Some (if neg then - e else e)
        | _ => None
        end
      else None
  end.

(** [m * 10 ^ e] as an exact rational. *)
Definition decimal (m e : Z) : Q :=
  if 0 <=? e then inject_Z (m * 10 ^ e)
  else Qmake m (Z.to_pos (10 ^ (- e))).

(** The grammar of [float()]'s argument: surrounding whitespace, a sign,
    then [inf], [infinity] or [nan] in any case, or a decimal number. *)
Definition float_of_string (s : string) : option pyfloat :=
  let '(neg, body) := sign (strip s) in
  let word := lower body in
  if String.eqb word "inf" || String.eqb word "infinity" then Some (FInf neg)
  else if String.eqb word "nan" then Some FNan
  else
    match number body with
    | Some (m, k, rest) =>
        match exponent rest with
        | Some e =>
            let q := decimal m (e - k) in
            Some (FNum (if neg then Qopp q else q))
        | None => None
        end
    | None => None
    end.

Definition py_float (s : string) : result pyfloat :=
  match float_of_string s with
  | Some f => Ok f
  | None =>
      Err (exception ValueError
             [Lit "could not convert string to float: "; ReprOf (VStr s)])
  end.

(** ** [datetime.fromtimestamp(t).strftime('%Y-%m-%d %H:%M:%S')] *)

Definition days_in_month (month : Z) : Z :=
  match month with
  | 1 => 31 | 2 => 28 | 3 => 31 | 4 => 30 | 5 => 31 | 6 => 30
  | 7 => 31 | 8 => 31 | 9 => 30 | 10 => 31 | 11 => 30 | 12 => 31
  | _ => -1
  end.

Definition days_before_month (month : Z) : Z :=
  match month with
  | 1 => 0 | 2 => 31 | 3 => 59 | 4 => 90 | 5 => 120 | 6 => 151
  | 7 => 181 | 8 => 212 | 9 => 243 | 10 => 273 | 11 => 304 | 12 => 334
  | _ => -1
  end.

(** The date of a proleptic Gregorian ordinal (1 is 0001-01-01), computed
    as the [datetime] module does. *)
Definition ord2ymd (ordinal : Z) : Z * Z * Z :=
  let n := ordinal - 1 in
  let n400 := n / 146097 in
  let n := n mod 146097 in
  let n100 := n / 36524 in
  let n := n mod 36524 in
  let n4 := n / 1461 in
  let n := n mod 1461 in
  let n1 := n / 365 in
  let n := n mod 365 in
  let year := n400 * 400 + 1 + n100 * 100 + n4 * 4 + n1 in
  if (n1 =? 4) || (n100 =? 4) then (year - 1, 12, 31)
  else
    let leapyear := (n1 =? 3) && (negb (n4 =? 24) || (n100 =? 3)) in
    let month := Z.shiftr (n + 50) 5 in
    let preceding :=
      days_before_month month
      + (if (2 <? month) && leapyear then 1 else 0) in
    if n <? preceding then
      let month' := month - 1 in
      let preceding' :=
        preceding
        - (days_in_month month'
           + (if (month' =? 2) && leapyear then 1 else 0)) in
      (year, month', n - preceding' + 1)
    else (year, month, n - preceding + 1).

(** The ordinal of 1970-01-01. *)
Definition epoch_ordinal : Z := 719163.

(** The broken-down local time, [local] seconds after local midnight of
    1970-01-01, in the proleptic Gregorian calendar. *)
Definition civil (local : Z) : datetime :=
  let '(y, m, d) := ord2ymd (local / 86400 + epoch_ordinal) in
  let secs := local mod 86400 in
  mkDatetime y m d (secs / 3600) (secs mod 3600 / 60) (secs mod 60) None.

(** The day number of a date, as the [datetime] module computes it. *)
Definition is_leap (year : Z) : bool :=
  (year mod 4 =? 0) && (negb (year mod 100 =? 0) || (year mod 400 =? 0)).

Definition days_before_year (year : Z) : Z :=
  let y := year - 1 in
  y * 365 + y / 4 - y / 100 + y / 400.

Definition ymd_to_ord (year month day : Z) : Z :=
  days_before_year year
  + (days_before_month month
     + (if (2 <? month) && is_leap year then 1 else 0))
  + day.

(** Round to the nearest integer, ties to the even one. *)
Definition round_half_even (q : Q) : Z :=
  let f := Qfloor q in
  match Qcompare (Qminus q (inject_Z f)) (Qmake 1 2) with
  | Lt => f
  | Gt => f + 1
  | Eq => if Z.even f then f else f + 1
  end.

(** The platform: a [time_t] of 64 bits and an [int] of 32, as on Linux
    with the GNU C library. *)
Definition fits_time_t (z : Z) : bool :=
  (-9223372036854775808 <=? z) && (z <=? 9223372036854775807).

Definition fits_int (z : Z) : bool :=
  (-2147483648 <=? z) && (z <=? 2147483647).

(** The value of an [int] sum that leaves the range of [int]. *)
Definition int_wrap (z : Z) : Z :=
  (z + 2147483648) mod 4294967296 - 2147483648.

Definition time_t_overflow : exn :=
  exception OverflowError [Lit "timestamp out of range for platform time_t"].

(** The whole seconds [fromtimestamp] keeps of its argument: an [int] as
    it is, a [float] rounded to microseconds, ties to even; either must fit
    [time_t]. *)
Definition timestamp_seconds (v : pyval) : result Z :=
  match v with
  | VInt z => if fits_time_t z then Ok z else Err time_t_overflow
  | VBool b => Ok (if b then 1 else 0)
  | VFloat (FNum q) =>
      let sec := round_half_even (Qmult q (inject_Z 1000000)) / 1000000 in
      if fits_time_t sec then Ok sec else Err time_t_overflow
  | VFloat FNan =>
      Err (exception ValueError [Lit "Invalid value NaN (not a number)"])
  | VFloat (FInf _) => Err time_t_overflow
  | _ =>
      Err (exception TypeError
             [Lit ("'" ++ type_name v
                   ++ "' object cannot be interpreted as an integer")])
  end.

Section LocalZone.

(** The time zone of the process: the seconds east of UTC in force at an
    instant. *)
Variable utcoffset : Z -> Z.

(** [localtime_r]: it fails when the year, counted from 1900, does not fit
    an [int]. *)
Definition localtime (t : Z) : result datetime :=
  let tm := civil (t + utcoffset t) in
  if fits_int (dt_year tm - 1900) then Ok tm
  else Err (exception OSError
              [Lit "[Errno 75] Value too large for defined data type"]).

(** [tm.tm_year + 1900], a sum of [int]s. *)
Definition tm_year_1900 (tm : datetime) : Z := int_wrap (dt_year tm).

(** The seconds from 0001-01-01 00:00:00 to a broken-down time, for the
    years a [datetime] can hold. *)
Definition utc_to_seconds (tm : datetime) : result Z :=
  let year := tm_year_1900 tm in
  if (year <? 1) || (9999 <? year)
  then Err (exception ValueError
              [Lit "year "; StrOf (VInt year); Lit " is out of range"])
  else
    Ok (((ymd_to_ord year (dt_month tm) (dt_day tm) * 24 + dt_hour tm) * 60
         + dt_minute tm) * 60 + dt_second tm).

(** The local time at an instant, in seconds from 0001-01-01 00:00:00. *)
Definition local_seconds (t : Z) : result Z :=
  tm <~ localtime t ;;
  utc_to_seconds tm.

Definition max_fold_seconds : Z := 86400.

(** [datetime.fromtimestamp(v)], the naive local time of the process.
    After the conversion itself the local time a day earlier is computed
    too, to tell the two readings of a repeated hour apart, and a third
    time when the offset went down in that day: each of the three must lie
    in the years 1..9999. *)
Definition fromtimestamp (v : pyval) : result datetime :=
  timet <~ timestamp_seconds v ;;
  tm <~ localtime timet ;;
  result_seconds <~ utc_to_seconds tm ;;
  probe_seconds <~ local_seconds (timet - max_fold_seconds) ;;
  let transition := result_seconds - probe_seconds - max_fold_seconds in
  _ <~ (if transition <? 0 then local_seconds (timet + transition)
        else Ok probe_seconds) ;;
  Ok tm.

End LocalZone.

Definition digit_char (d : Z) : ascii := ascii_of_N (Z.to_N (48 + d)).

Definition pad2 (n : Z) : string :=
  String (digit_char (n / 10)) (String (digit_char (n mod 10)) EmptyString).

Definition pad4 (n : Z) : string :=
  String (digit_char (n / 1000))
    (String (digit_char (n / 100 mod 10)) (pad2 (n mod 100))).

(** The year as [%Y] prints it with the GNU C library: in decimal, without
    padding.  The year of a [datetime] is between 1 and 9999. *)
Definition year_digits (year : Z) : string :=
  if year <? 10 then String (digit_char year) EmptyString
  else if year <? 100 then pad2 year
  else if year <? 1000
       then String (digit_char (year / 100)) (pad2 (year mod 100))
       else pad4 year.

(** [d.strftime('%Y-%m-%d %H:%M:%S')] *)
Definition strftime (d : datetime) : string :=
  year_digits (dt_year d) ++ "-" ++ pad2 (dt_month d) ++ "-"
  ++ pad2 (dt_day d) ++ " " ++ pad2 (dt_hour d) ++ ":"
  ++ pad2 (dt_minute d) ++ ":" ++ pad2 (dt_second d).

End Py.

(** * maps_tools.py *)

Module maps_tools.
Import Py.

(** The state of a [GoogleMapsTools] object: the provider client and the
    default language.  The client is a stub: its answer, a value or an
    exception, is a function of the method called and of its arguments. *)
Record GoogleMapsTools : Type := mkGoogleMapsTools {
  client : endpoint -> pydict -> result pyval;
  default_language : string
}.

(** A call of a client method with keyword arguments [args]: the request
    is logged, then answered. *)
Definition request (self : GoogleMapsTools) (ep : endpoint) (args : pydict)
  : M pyval :=
  fun log => (client self ep args, (log ++ [(ep, args)])%list).

Definition parse_coordinates (coord_string : pyval) : result pyval :=
  catch_in [ValueError; IndexError]
    (match coord_string with
     | VStr s =>
         coords <~ map_result (fun c => py_float (strip c)) (split "," s) ;;
         if negb (Z.of_nat (List.length coords) =? 2)
         then Err (exception ValueError [Lit "Invalid coordinate format"])
         else
           lat <~ list_index coords 0 ;;
           lng <~ list_index coords 1 ;;
           Ok (VDict [("lat", VFloat lat); ("lng", VFloat lng)])
     | _ => Err (no_attribute coord_string "split")
     end)
    (fun e =>
       Err (exception_from ValueError
              [Lit "Invalid coorindate format, please use 'latitude, longitude' format"]
              e)).

Definition geocode_address (self : GoogleMapsTools) (address : pyval)
  : M pyval :=
  try_except
    (result <- request self geocode_ep
                 [("address", address);
                  ("language", VStr (default_language self))] ;;
     if negb (truthy result)
     then raise (exception ValueError [Lit "Address not found"])
     else
       location_data <- lift (getitem_int result 0) ;;
       location <- lift (getitem2 location_data "geometry" "location") ;;
       lat <- lift (getitem location "lat") ;;
       lng <- lift (getitem location "lng") ;;
       formatted_address <-
         lift (py_get location_data "formatted_address" (VStr "")) ;;
       place_id <- lift (py_get location_data "place_id" (VStr "")) ;;
       ret (VDict [("lat", lat); ("lng", lng);
                   ("formatted_address", formatted_address);
                   ("place_id", place_id)]))
    (fun e =>
       raise (exception_from ValueError
                (fstr "Error geocoding address: " (exc_str e)) e)).

Definition get_location (self : GoogleMapsTools) (center : pyval) : M pyval :=
  is_coordinates <- lift (py_get center "isCoordinates" (VBool false)) ;;
  if truthy is_coordinates
  then
    value <- lift (getitem center "value") ;;
    lift (parse_coordinates value)
  else
    value <- lift (getitem center "value") ;;
    geocode_address self value.

(** The test of the comprehension that filters by rating:
    [place.get("rating", 0) >= min_rating]. *)
Definition rating_at_least (min_rating place : pyval) : result bool :=
  rating <~ py_get place "rating" (VInt 0) ;;
  py_ge rating min_rating.

Definition search_nearby_places (self : GoogleMapsTools) (params : pyval)
  : M pyval :=
  try_except
    (location <- lift (getitem params "location") ;;
     lat <- lift (getitem location "lat") ;;
     lng <- lift (getitem location "lng") ;;
     radius <- lift (py_get params "radius" (VInt 1000)) ;;
     let search_params :=
       [("location", VTuple [lat; lng]);
        ("radius", radius);
        ("language", VStr (default_language self))] in
     keyword <- lift (py_get params "keyword" VNone) ;;
     search_params <-
       (if truthy keyword
        then k <- lift (getitem params "keyword") ;;
             ret (dict_set search_params "keyword" k)
        else ret search_params) ;;
     open_now <- lift (py_get params "openNow" VNone) ;;
     let search_params :=
       if truthy open_now
       then dict_set search_params "openNow" (VBool true)
       else search_params in
     result <- request self places_nearby_ep search_params ;;
     places <- lift (py_get result "results" (VList [])) ;;
     supplied <- lift (py_get params "minRating" VNone) ;;
     if truthy supplied
     then
       min_rating <- lift (getitem params "minRating") ;;
       candidates <- lift (py_iter places) ;;
       kept <- lift (filter_result (rating_at_least min_rating) candidates) ;;
       ret (VList kept)
     else ret places)
    (fun e =>
       raise (exception_from ValueError
                (fstr "Error searching nearby places: " (exc_str e)) e)).

Definition place_fields : list pyval :=
  map VStr
    ["name"; "rating"; "formatted_address"; "opening_hours";
     "reviews"; "geometry"; "formatted_phone_number"; "website";
     "price_level"; "photos"; "user_ratings_total"].

Definition get_place_details (self : GoogleMapsTools) (place_id : pyval)
  : M pyval :=
  try_except
    (result <- request self place_ep
                 [("place_id", place_id);
                  ("fields", VList place_fields);
                  ("language", VStr (default_language self))] ;;
     lift (py_get result "result" (VDict [])))
    (fun e =>
       raise (exception_from ValueError
                (fstr "Error getting place details: " (exc_str e)) e)).

Definition geocode (self : GoogleMapsTools) (address : pyval) : M pyval :=
  try_except
    (result <- geocode_address self address ;;
     lat <- lift (getitem result "lat") ;;
     lng <- lift (getitem result "lng") ;;
     formatted_address <- lift (getitem result "formatted_address") ;;
     place_id <- lift (getitem result "place_id") ;;
     ret (VDict [("location", VDict [("lat", lat); ("lng", lng)]);
                 ("formatted_address", formatted_address);
                 ("place_id", place_id)]))
    (fun e =>
       raise (exception_from ValueError
                (fstr "Error geocoding: " (exc_str e)) e)).

Definition reverse_geocode (self : GoogleMapsTools) (latitude longitude : pyval)
  : M pyval :=
  try_except
    (result <- request self reverse_geocode_ep
                 [("latlng", VTuple [latitude; longitude]);
                  ("language", VStr (default_language self))] ;;
     if negb (truthy result)
     then raise (exception ValueError [Lit "No address found for coordinates"])
     else
       location_data <- lift (getitem_int result 0) ;;
       formatted_address <-
         lift (py_get location_data "formatted_address" (VStr "")) ;;
       place_id <- lift (py_get location_data "place_id" (VStr "")) ;;
       address_components <-
         lift (py_get location_data "address_components" (VList [])) ;;
       ret (VDict [("formatted_address", formatted_address);
                   ("place_id", place_id);
                   ("address_components", address_components)]))
    (fun e =>
       raise (exception_from ValueError
                (fstr "Error reverse geocoding: " (exc_str e)) e)).

(** The two cells an element of the provider's matrix contributes, one to
    the row of distances and one to the row of durations. *)
Definition matrix_cells (element : pyval) : result (pyval * pyval) :=
  status <~ getitem element "status" ;;
  if is_str "OK" status
  then
    distance_value <~ getitem2 element "distance" "value" ;;
    distance_text <~ getitem2 element "distance" "text" ;;
    duration_value <~ getitem2 element "duration" "value" ;;
    duration_text <~ getitem2 element "duration" "text" ;;
    Ok (VDict [("value", distance_value); ("text", distance_text)],
        VDict [("value", duration_value); ("text", duration_text)])
  else Ok (VNone, VNone).

(** The body of the outer loop: one row of each output array. *)
Definition matrix_row (row : pyval) : result (pyval * pyval) :=
  elements <~ getitem row "elements" ;;
  elements <~ py_iter elements ;;
  cells <~ map_result matrix_cells elements ;;
  Ok (VList (map fst cells), VList (map snd cells)).

Definition calculate_distance_matrix (self : GoogleMapsTools)
    (origins destinations mode : pyval) : M pyval :=
  try_except
    (result <- request self distance_matrix_ep
                 [("origins", origins);
                  ("destinations", destinations);
                  ("mode", mode);
                  ("language", VStr (default_language self))] ;;
     status <- lift (getitem result "status") ;;
     if negb (is_str "OK" status)
     then
       status <- lift (getitem result "status") ;;
       raise (exception ValueError
                (fstr "Distance matrix calculation failed: " (py_str status)))
     else
       rows <- lift (getitem result "rows") ;;
       rows <- lift (py_iter rows) ;;
       rows <- lift (map_result matrix_row rows) ;;
       origin_addresses <- lift (getitem result "origin_addresses") ;;
       destination_addresses <- lift (getitem result "destination_addresses") ;;
       ret (VDict [("distances", VList (map fst rows));
                   ("durations", VList (map snd rows));
                   ("origin_addresses", origin_addresses);
                   ("destination_addresses", destination_addresses)]))
    (fun e =>
       raise (exception_from ValueError
                (fstr "Error calculating distance matrix: " (exc_str e)) e)).

Section LocalTime.

(** The time zone of the process: seconds east of UTC at an instant. *)
Variable utcoffset : Z -> Z.

(** The function nested in [get_directions]. *)
Definition format_time (time_info : pyval) : result pyval :=
  if negb (truthy time_info) then Ok (VStr "")
  else
    has_value <~ py_in "value" time_info ;;
    if negb has_value then Ok (VStr "")
    else
      value <~ getitem time_info "value" ;;
      d <~ fromtimestamp utcoffset value ;;
      Ok (VStr (strftime d)).

(** The keyword arguments of the request [get_directions] sends. *)
Definition directions_params (self : GoogleMapsTools)
    (origin destination mode departure_time arrival_time : pyval) : pydict :=
  let params :=
    [("origin", origin);
     ("destination", destination);
     ("mode", mode);
     ("language", VStr (default_language self))] in
  if truthy arrival_time
  then dict_set params "arrival_time" arrival_time
  else if truthy departure_time
  then dict_set params "departure_time" departure_time
  else dict_set params "departure_time" departure_time.

Definition get_directions (self : GoogleMapsTools)
    (origin destination mode departure_time arrival_time : pyval) : M pyval :=
  try_except
    (let params :=
       directions_params self origin destination mode
         departure_time arrival_time in
     result <- request self directions_ep params ;;
     if negb (truthy result)
     then raise (exception ValueError [Lit "No route found"])
     else
       route <- lift (getitem_int result 0) ;;
       legs <- lift (getitem route "legs") ;;
       leg <- lift (getitem_int legs 0) ;;
       summary <- lift (py_get route "summary" (VStr "")) ;;
       distance_value <- lift (getitem2 leg "distance" "value") ;;
       distance_text <- lift (getitem2 leg "distance" "text") ;;
       duration_value <- lift (getitem2 leg "duration" "value") ;;
       duration_text <- lift (getitem2 leg "duration" "text") ;;
       arrival_info <- lift (py_get leg "arrival_time" VNone) ;;
       arrival <- lift (format_time arrival_info) ;;
       departure_info <- lift (py_get leg "departure_time" VNone) ;;
       departure <- lift (format_time departure_info) ;;
       ret (VDict
              [("routes", result);
               ("summary", summary);
               ("total_distance",
                VDict [("value", distance_value); ("text", distance_text)]);
               ("total_duration",
                VDict [("value", duration_value); ("text", duration_text)]);
               ("arrival_time", arrival);
               ("departure_time", departure)]))
    (fun e =>
       raise (exception_from ValueError
                (fstr "Error getting directions: " (exc_str e)) e)).

End LocalTime.

(** [(loc["latitude"], loc["longitude"])] *)
Definition formatted_location (loc : pyval) : result pyval :=
  latitude <~ getitem loc "latitude" ;;
  longitude <~ getitem loc "longitude" ;;
  Ok (VTuple [latitude; longitude]).

(** The dictionary built for one item of the provider's answer. *)
Definition elevation_sample (item : pyval) : result pyval :=
  elevation <~ getitem item "elevation" ;;
  lat <~ getitem2 item "location" "lat" ;;
  lng <~ getitem2 item "location" "lng" ;;
  Ok (VDict [("elevation", elevation);
             ("location", VDict [("lat", lat); ("lng", lng)])]).

Definition get_elevation (self : GoogleMapsTools) (locations : pyval)
  : M pyval :=
  try_except
    (locations <- lift (py_iter locations) ;;
     formatted_locations <- lift (map_result formatted_location locations) ;;
     result <- request self elevation_ep
                 [("locations", VList formatted_locations)] ;;
     items <- lift (py_iter result) ;;
     samples <- lift (map_result elevation_sample items) ;;
     ret (VList samples))
    (fun e =>
       raise (exception_from ValueError
                (fstr "Error getting elevation data: " (exc_str e)) e)).

Section Construction.

(** [os.getenv], and the constructor [googlemaps.Client(key=...)], which
    may refuse a key by raising. *)
Variable getenv : string -> option string.
Variable Client : string -> result (endpoint -> pydict -> result pyval).

Definition api_key_required : exn :=
  exception ValueError
    [Lit "Google Maps API Key is required. Set GOOGLE_MAPS_API_KEY environment variable or pass api_key parameter."].

(** [api_key or os.getenv('GOOGLE_MAPS_API_KEY')]: the environment is read
    only when the argument is [None] or empty. *)
Definition effective_api_key (api_key : option string) : option string :=
  match api_key with
  | Some k =>
      if truthy (VStr k) then Some k else getenv "GOOGLE_MAPS_API_KEY"
  | None => getenv "GOOGLE_MAPS_API_KEY"
  end.

(** [GoogleMapsTools.__init__]; the default [language] is ['zh-TW']. *)
Definition init (api_key : option string) (language : string)
  : result GoogleMapsTools :=
  match effective_api_key api_key with
  | Some k =>
      if negb (truthy (VStr k)) then Err api_key_required
      else
        c <~ Client k ;;
        Ok (mkGoogleMapsTools c language)
  | None => Err api_key_required
  end.

End Construction.

End maps_tools.

(** * server.py *)

Module server.
Import Py.
Import maps_tools.

(** Arguments as the tool signatures type them. *)
Definition of_option {A} (inj : A -> pyval) (o : option A) : pyval :=
  match o with
  | Some a => inj a
  | None => VNone
  end.

Definition of_float_dict (d : list (string * pyfloat)) : pyval :=
  VDict (map (fun kv => (fst kv, VFloat (snd kv))) d).

(** [raise RuntimeError(f"{prefix}{str(e)}")]: the handler every tool ends
    with.  There is no [from e]: the signal has no [__cause__], and [e]
    stays on it as its [__context__]. *)
Definition tool_failure {A} (prefix : string) (e : exn) : M A :=
  raise (exception_handling RuntimeError (fstr prefix (exc_str e)) e).

Definition not_initialized : exn :=
  exception RuntimeError [Lit "Google Maps tools not initialized"].

Definition formatted_place (place : pyval) : result pyval :=
  name <~ py_get place "name" VNone ;;
  place_id <~ py_get place "place_id" VNone ;;
  address <~ py_get place "formatted_address" VNone ;;
  geometry <~ py_get place "geometry" (VDict []) ;;
  location <~ py_get geometry "location" VNone ;;
  rating <~ py_get place "rating" VNone ;;
  total_ratings <~ py_get place "user_ratings_total" VNone ;;
  opening_hours <~ py_get place "opening_hours" (VDict []) ;;
  open_now <~ py_get opening_hours "open_now" VNone ;;
  types <~ py_get place "types" (VList []) ;;
  price_level <~ py_get place "price_level" VNone ;;
  vicinity <~ py_get place "vicinity" VNone ;;
  Ok (VDict [("name", name);
             ("place_id", place_id);
             ("address", address);
             ("location", location);
             ("rating", rating);
             ("total_ratings", total_ratings);
             ("open_now", open_now);
             ("types", types);
             ("price_level", price_level);
             ("vicinity", vicinity)]).

Definition search_nearby (maps_tools : option GoogleMapsTools)
    (center : pydict) (keyword : option string) (radius : Z)
    (openNow : bool) (minRating : option pyfloat) : M pyval :=
  match maps_tools with
  | None =>
      raise (exception RuntimeError [Lit "Google Map Tools not initialized"])
  | Some tools =>
      try_except
        (location <- get_location tools (VDict center) ;;
         places <- search_nearby_places tools
                     (VDict [("location", location);
                             ("keyword", of_option VStr keyword);
                             ("radius", VInt radius);
                             ("openNow", VBool openNow);
                             ("minRating", of_option VFloat minRating)]) ;;
         places <- lift (py_iter places) ;;
         formatted_places <- lift (map_result formatted_place places) ;;
         ret (VDict
                [("location", location);
                 ("places", VList formatted_places);
                 ("total_results",
                  VInt (Z.of_nat (List.length formatted_places)))]))
        (tool_failure "Search failed: ")
  end.

Definition formatted_photo (photo : pyval) : result pyval :=
  photo_reference <~ py_get photo "photo_reference" VNone ;;
  height <~ py_get photo "height" VNone ;;
  width <~ py_get photo "width" VNone ;;
  Ok (VDict [("photo_reference", photo_reference);
             ("height", height);
             ("width", width)]).

Definition formatted_review (review : pyval) : result pyval :=
  rating <~ py_get review "rating" VNone ;;
  text <~ py_get review "text" VNone ;;
  time <~ py_get review "time" VNone ;;
  author_name <~ py_get review "author_name" VNone ;;
  author_url <~ py_get review "author_url" VNone ;;
  language <~ py_get review "language" VNone ;;
  profile_photo_url <~ py_get review "profile_photo_url" VNone ;;
  relative <~ py_get review "relative_time_description" VNone ;;
  Ok (VDict [("rating", rating);
             ("text", text);
             ("time", time);
             ("author_name", author_name);
             ("author_url", author_url);
             ("language", language);
             ("profile_photo_url", profile_photo_url);
             ("relative_time_description", relative)]).

(** [details.get(k, {}).get(k')] and the comprehension sources. *)
Definition get_in (v : pyval) (k k' : string) (default : pyval)
  : result pyval :=
  inner <~ py_get v k (VDict []) ;;
  py_get inner k' default.

Definition formatted_details (placeId : string) (details : pyval)
  : result pyval :=
  name <~ py_get details "name" VNone ;;
  address <~ py_get details "formatted_address" VNone ;;
  location <~ get_in details "geometry" "location" VNone ;;
  rating <~ py_get details "rating" VNone ;;
  total_ratings <~ py_get details "user_ratings_total" VNone ;;
  open_now <~ get_in details "opening_hours" "open_now" VNone ;;
  opening_hours <~ get_in details "opening_hours" "weekday_text" (VList []) ;;
  phone <~ py_get details "formatted_phone_number" VNone ;;
  international_phone <~ py_get details "international_phone_number" VNone ;;
  website <~ py_get details "website" VNone ;;
  url <~ py_get details "url" VNone ;;
  price_level <~ py_get details "price_level" VNone ;;
  types <~ py_get details "types" (VList []) ;;
  photos <~ py_get details "photos" (VList []) ;;
  photos <~ py_iter photos ;;
  photos <~ map_result formatted_photo photos ;;
  reviews <~ py_get details "reviews" (VList []) ;;
  reviews <~ py_iter reviews ;;
  reviews <~ map_result formatted_review reviews ;;
  Ok (VDict [("name", name);
             ("place_id", VStr placeId);
             ("address", address);
             ("location", location);
             ("rating", rating);
             ("total_ratings", total_ratings);
             ("open_now", open_now);
             ("opening_hours", opening_hours);
             ("phone", phone);
             ("international_phone", international_phone);
             ("website", website);
             ("url", url);
             ("price_level", price_level);
             ("types", types);
             ("photos", VList photos);
             ("reviews", VList reviews)]).

Definition get_place_details (maps_tools : option GoogleMapsTools)
    (placeId : string) : M pyval :=
  match maps_tools with
  | None => raise not_initialized
  | Some tools =>
      try_except
        (details <- maps_tools.get_place_details tools (VStr placeId) ;;
         lift (formatted_details placeId details))
        (tool_failure "Failed to get place details: ")
  end.

Definition maps_geocode (maps_tools : option GoogleMapsTools)
    (address : string) : M pyval :=
  match maps_tools with
  | None => raise not_initialized
  | Some tools =>
      try_except
        (geocode tools (VStr address))
        (tool_failure "Geocoding failed: ")
  end.

Definition maps_reverse_geocode (maps_tools : option GoogleMapsTools)
    (latitude longitude : pyfloat) : M pyval :=
  match maps_tools with
  | None => raise not_initialized
  | Some tools =>
      try_except
        (reverse_geocode tools (VFloat latitude) (VFloat longitude))
        (tool_failure "Reverse geocoding failed: ")
  end.

Definition maps_distance_matrix (maps_tools : option GoogleMapsTools)
    (origins destinations : list string) (mode : string) : M pyval :=
  match maps_tools with
  | None => raise not_initialized
  | Some tools =>
      try_except
        (calculate_distance_matrix tools
           (VList (map VStr origins)) (VList (map VStr destinations))
           (VStr mode))
        (tool_failure "Distance matrix calculation failed: ")
  end.

Section Host.

(** The time zone of the process and [datetime.fromisoformat], which
    answers the date and time a text stands for, or the message of the
    [ValueError] it raises for a text it refuses. *)
Variable utcoffset : Z -> Z.
Variable fromisoformat : string -> datetime + text.

Definition py_fromisoformat (s : string) : result pyval :=
  match fromisoformat s with
  | inl d => Ok (VDatetime d)
  | inr message => Err (exception ValueError message)
  end.

(** The parsing of one optional time argument of [maps_directions].  The
    second attempt is made in the handler of the first failure. *)
Definition parse_time (time : option string) : result pyval :=
  match time with
  | Some s =>
      if truthy (VStr s)
      then catch_in [ValueError]
             (py_fromisoformat (replace "Z" "+00:00" s))
             (fun e => while_handling e (py_fromisoformat s))
      else Ok VNone
  | None => Ok VNone
  end.

Definition maps_directions (maps_tools : option GoogleMapsTools)
    (origin destination mode : string)
    (departure_time arrival_time : option string) : M pyval :=
  match maps_tools with
  | None => raise not_initialized
  | Some tools =>
      try_except
        (dept_time <- lift (parse_time departure_time) ;;
         arr_time <- lift (parse_time arrival_time) ;;
         get_directions utcoffset tools
           (VStr origin) (VStr destination) (VStr mode) dept_time arr_time)
        (tool_failure "Failed to get directions: ")
  end.

End Host.

Definition maps_elevation (maps_tools : option GoogleMapsTools)
    (locations : list (list (string * pyfloat))) : M pyval :=
  match maps_tools with
  | None => raise not_initialized
  | Some tools =>
      try_except
        (get_elevation tools (VList (map of_float_dict locations)))
        (tool_failure "Failed to get elevation data: ")
  end.

(** A tool invocation: the tool and its arguments. *)
Inductive tool_call : Type :=
| SearchNearby (center : pydict) (keyword : option string) (radius : Z)
    (openNow : bool) (minRating : option pyfloat)
| GetPlaceDetails (placeId : string)
| MapsGeocode (address : string)
| MapsReverseGeocode (latitude longitude : pyfloat)
| MapsDistanceMatrix (origins destinations : list string) (mode : string)
| MapsDirections (origin destination mode : string)
    (departure_time arrival_time : option string)
| MapsElevation (locations : list (list (string * pyfloat))).

(** The text each tool puts in front of the message of the failure it
    reports. *)
Definition failure_prefix (c : tool_call) : string :=
  match c with
  | SearchNearby _ _ _ _ _ => "Search failed: "
  | GetPlaceDetails _ => "Failed to get place details: "
  | MapsGeocode _ => "Geocoding failed: "
  | MapsReverseGeocode _ _ => "Reverse geocoding failed: "
  | MapsDistanceMatrix _ _ _ => "Distance matrix calculation failed: "
  | MapsDirections _ _ _ _ _ => "Failed to get directions: "
  | MapsElevation _ => "Failed to get elevation data: "
  end.

(** The message of the failure a tool reports when [maps_tools] is [None]. *)
Definition uninitialized_message (c : tool_call) : string :=
  match c with
  | SearchNearby _ _ _ _ _ => "Google Map Tools not initialized"
  | _ => "Google Maps tools not initialized"
  end.

(** The dispatch the MCP host performs on the registered tools. *)
Definition invoke (utcoffset : Z -> Z)
    (fromisoformat : string -> datetime + text)
    (maps_tools : option GoogleMapsTools) (c : tool_call) : M pyval :=
  match c with
  | SearchNearby center keyword radius openNow minRating =>
      search_nearby maps_tools center keyword radius openNow minRating
  | GetPlaceDetails placeId => get_place_details maps_tools placeId
  | MapsGeocode address => maps_geocode maps_tools address
  | MapsReverseGeocode latitude longitude =>
      maps_reverse_geocode maps_tools latitude longitude
  | MapsDistanceMatrix origins destinations mode =>
      maps_distance_matrix maps_tools origins destinations mode
  | MapsDirections origin destination mode departure_time arrival_time =>
      maps_directions utcoffset fromisoformat maps_tools
        origin destination mode departure_time arrival_time
  | MapsElevation locations => maps_elevation maps_tools locations
  end.

(** The resource [google-maps://status]. *)
Definition get_server_status (maps_tools : option GoogleMapsTools) : M text :=
  match maps_tools with
  | None => ret [Lit "Google Maps tools not initialized"]
  | Some tools =>
      try_except
        (_ <- geocode tools (VStr "Google") ;;
         ret [Lit "Google Maps API is working correctly"])
        (fun e => ret (fstr "Google Maps API error: " (exc_str e)))
  end.

Definition validate_api_key (maps_tools : option GoogleMapsTools) : M bool :=
  match maps_tools with
  | None => ret false
  | Some tools =>
      try_except
        (_ <- geocode tools (VStr "Google") ;;
         ret true)
        (fun _ => ret false)
  end.

End server.

(** * Definitions used by the statements *)

Import Py maps_tools server.

(** A text of the form [YYYY-MM-DD HH:MM:SS]: in the template, [d] stands
    for a decimal digit and any other character for itself. *)
Fixpoint matches (template s : string) : bool :=
  match template, s with
  | EmptyString, EmptyString => true
  | String t template', String c s' =>
      (if Ascii.eqb t "d" then is_digit c else Ascii.eqb c t)
      && matches template' s'
  | _, _ => false
  end.

Definition is_timestamp_text (s : string) : bool :=
  matches "dddd-dd-dd dd:dd:dd" s.

(** The message of the failure [parse_coordinates] reports. *)
Definition invalid_coordinate_format : text :=
  [Lit "Invalid coorindate format, please use 'latitude, longitude' format"].

(** The rating the filter of [search_nearby_places] compares: the number
    under [rating], and 0 for a place that has no such field. *)
Definition rating_or_zero (place : pyval) : option pyfloat :=
  match py_get place "rating" (VInt 0) with
  | Ok rating => as_number rating
  | Err _ => None
  end.

(** The place has a rating, or none and then 0, that is at least [q]. *)
Definition meets (q : pyfloat) (place : pyval) : bool :=
  match rating_or_zero place with
  | Some r => float_le q r
  | None => false
  end.

(** A place as the provider describes it: its rating, when it has one, is
    a number that is not negative.  The provider rates from 1.0 to 5.0. *)
Definition rated (place : pyval) : Prop :=
  exists r, rating_or_zero place = Some r
            /\ float_le (float_of_Z 0) r = true.

(** The request [get_place_details] sends for a place id. *)
Definition place_request (self : GoogleMapsTools) (place_id : pyval) : call :=
  (place_ep,
   [("place_id", place_id);
    ("fields", VList place_fields);
    ("language", VStr (default_language self))]).

(** What the [get_place_details] tool answers for a place the provider
    gave no detail about. *)
Definition empty_details (placeId : string) : pyval :=
  VDict [("name", VNone);
         ("place_id", VStr placeId);
         ("address", VNone);
         ("location", VNone);
         ("rating", VNone);
         ("total_ratings", VNone);
         ("open_now", VNone);
         ("opening_hours", VList []);
         ("phone", VNone);
         ("international_phone", VNone);
         ("website", VNone);
         ("url", VNone);
         ("price_level", VNone);
         ("types", VList []);
         ("photos", VList []);
         ("reviews", VList [])].

(** ** Reading a timestamp text back *)

(** The number two decimal digits stand for. *)
Definition two_digits (a b : ascii) : Z := 10 * digit_val a + digit_val b.

(** The year, month, day, hour, minute and second written in a text of
    the form YYYY-MM-DD HH:MM:SS. *)
Definition fields_of_text (s : string) : option (Z * Z * Z * Z * Z * Z) :=
  if is_timestamp_text s then
    match list_ascii_of_string s with
    | [y1; y2; y3; y4; _; m1; m2; _; d1; d2; _; h1; h2; _; n1; n2; _; s1; s2] =>
        Some (100 * two_digits y1 y2 + two_digits y3 y4,
              two_digits m1 m2, two_digits d1 d2,
              two_digits h1 h2, two_digits n1 n2, two_digits s1 s2)
    | _ => None
    end
  else None.

(** The number of days of a month. *)
Definition month_length (year month : Z) : Z :=
  if (month =? 2) && is_leap year then 29 else days_in_month month.

(** The local time a text of that form stands for, in seconds after
    1970-01-01 00:00:00; there is none unless the text names a day of the
    calendar and a time of the day. *)
Definition seconds_of_text (s : string) : option Z :=
  match fields_of_text s with
  | Some (year, month, day, hour, minute, second) =>
      if (1 <=? year) && (1 <=? month) && (month <=? 12)
         && (1 <=? day) && (day <=? month_length year month)
         && (hour <? 24) && (minute <? 60) && (second <? 60)
      then Some ((ymd_to_ord year month day - epoch_ordinal) * 86400
                 + hour * 3600 + minute * 60 + second)
      else None
  | None => None
  end.

(** The last step of [ord2ymd]: the month and the day of the month of
    the day number [n] of a year, counted from 0. *)
Definition month_and_day (leapyear : bool) (n : Z) : Z * Z :=
  let month := Z.shiftr (n + 50) 5 in
  let preceding :=
    days_before_month month
    + (if (2 <? month) && leapyear then 1 else 0) in
  if n <? preceding then
    let month' := month - 1 in
    let preceding' :=
      preceding
      - (days_in_month month'
         + (if (month' =? 2) && leapyear then 1 else 0)) in
    (month', n - preceding' + 1)
  else (month, n - preceding + 1).

(** The first instant of year 1, the first instant of year 1000 and the
    last instant of year 9999, in seconds after 1970-01-01 00:00:00. *)
Definition first_local_seconds : Z := -62135596800.
Definition min_local_seconds : Z := -30610224000.
Definition last_local_seconds : Z := 253402300799.

(** The first instant of 0001-01-05 and the last instant of 9999-12-29.
    On the four days before and on the two days after, [fromtimestamp]
    may fail even though the local time is in the years 1..9999, because
    it also computes the local time a day earlier, and once more when the
    offset of the zone went down during that day. *)
Definition early_local_seconds : Z := -62135251200.
Definition max_local_seconds : Z := 253402127999.

(** The offsets of a time zone are less than a day. *)
Definition zone (utcoffset : Z -> Z) : Prop :=
  forall t, -86400 < utcoffset t < 86400.

(** [value] is the whole number [t], as an [int] or as a [float]. *)
Definition whole_number (value : pyval) (t : Z) : Prop :=
  value = VInt t \/ value = VFloat (float_of_Z t).

(** What the first leg may hold under [key] for the statement below:
    nothing, or a dictionary whose [value] is a whole number of epoch
    seconds with a local time from year 1000 to 9999-12-29. *)
Definition epoch_field (utcoffset : Z -> Z) (leg : pydict) (key : string)
  : Prop :=
  dict_get leg key = None
  \/ exists info value t,
       dict_get leg key = Some (VDict info)
       /\ dict_get info "value" = Some value
       /\ whole_number value t
       /\ min_local_seconds <= t + utcoffset t <= max_local_seconds.

(** What the result holds for that field: the empty text when the field
    is absent, and otherwise a text of the form YYYY-MM-DD HH:MM:SS that
    names the local time of the epoch seconds of the field. *)
Definition time_text (utcoffset : Z -> Z) (leg : pydict) (key : string)
    (out : string) : Prop :=
  match dict_get leg key with
  | None => out = ""
  | Some info =>
      exists value t,
        getitem info "value" = Ok value
        /\ whole_number value t
        /\ is_timestamp_text out = true
        /\ seconds_of_text out = Some (t + utcoffset t)
  end.

(** How one element of the provider's matrix and the two cells made from
    it are related. *)
Definition cell_of (element : pyval) (cells : pyval * pyval) : Prop :=
  exists status,
    getitem element "status" = Ok status
    /\ ((is_str "OK" status = true
         /\ exists dv dt uv ut,
              getitem2 element "distance" "value" = Ok dv
              /\ getitem2 element "distance" "text" = Ok dt
              /\ getitem2 element "duration" "value" = Ok uv
              /\ getitem2 element "duration" "text" = Ok ut
              /\ cells = (VDict [("value", dv); ("text", dt)],
                          VDict [("value", uv); ("text", ut)]))
        \/ (is_str "OK" status = false /\ cells = (VNone, VNone))).

(** How one row of the provider's matrix and the two output rows made from
    it are related: cell by cell, in order. *)
Definition row_of (row : pyval) (rows : pyval * pyval) : Prop :=
  exists elements cells,
    rbind (getitem row "elements") py_iter = Ok elements
    /\ Forall2 cell_of elements cells
    /\ rows = (VList (map fst cells), VList (map snd cells)).

(** The provider's row has [m] elements. *)
Definition row_width (m : nat) (row : pyval) : Prop :=
  exists elements,
    rbind (getitem row "elements") py_iter = Ok elements
    /\ List.length elements = m.

(** [v] is a list of [n] lists of [m] cells each. *)
Definition has_dimensions (n m : nat) (v : pyval) : Prop :=
  exists rows,
    v = VList rows
    /\ List.length rows = n
    /\ Forall (fun row => exists cells,
                   row = VList cells /\ List.length cells = m) rows.

(** The provider's answer to a request for [n] origins and [m]
    destinations: a matrix with one row per origin and, in each row, one
    element per destination. *)
Definition matrix_of (n m : nat) (response : pyval) (rows : list pyval)
  : Prop :=
  rbind (getitem response "rows") py_iter = Ok rows
  /\ List.length rows = n
  /\ Forall (row_width m) rows.

(** The request [calculate_distance_matrix] sends. *)
Definition matrix_request (self : GoogleMapsTools)
    (origins destinations mode : pyval) : call :=
  (distance_matrix_ep,
   [("origins", origins);
    ("destinations", destinations);
    ("mode", mode);
    ("language", VStr (default_language self))]).

(** The point sent to the provider for a requested location. *)
Definition point_of (loc point : pyval) : Prop :=
  exists latitude longitude,
    getitem loc "latitude" = Ok latitude
    /\ getitem loc "longitude" = Ok longitude
    /\ point = VTuple [latitude; longitude].

(** The sample returned for an item of the provider's answer. *)
Definition sample_of (item sample : pyval) : Prop :=
  exists elevation lat lng,
    getitem item "elevation" = Ok elevation
    /\ getitem2 item "location" "lat" = Ok lat
    /\ getitem2 item "location" "lng" = Ok lng
    /\ sample = VDict [("elevation", elevation);
                       ("location", VDict [("lat", lat); ("lng", lng)])].

(** An item of the provider's answer that lies at a requested point. *)
Definition located_at (point item : pyval) : Prop :=
  exists lat lng,
    point = VTuple [lat; lng]
    /\ getitem2 item "location" "lat" = Ok lat
    /\ getitem2 item "location" "lng" = Ok lng.

(** The places where a tool can fail, in the order in which it goes
    through them: [inner] is the exception raised there, and [l] the log
    of requests at that moment.  For [search_nearby] these are resolving
    the centre, the nearby search and reshaping the places; for
    [get_place_details] the adapter and reshaping its answer; for
    [maps_directions] reading the departure time, reading the arrival time
    and the adapter; for the other tools the adapter alone. *)
Definition stage_failure (utcoffset : Z -> Z)
    (fromisoformat : string -> datetime + text)
    (tools : GoogleMapsTools) (c : tool_call) (log : list call)
    (inner : exn) (l : list call) : Prop :=
  match c with
  | SearchNearby center keyword radius openNow minRating =>
      get_location tools (VDict center) log = (Err inner, l)
      \/ exists location l1,
           get_location tools (VDict center) log = (Ok location, l1)
           /\ let params :=
                VDict [("location", location);
                       ("keyword", of_option VStr keyword);
                       ("radius", VInt radius);
                       ("openNow", VBool openNow);
                       ("minRating", of_option VFloat minRating)] in
              search_nearby_places tools params l1 = (Err inner, l)
              \/ exists places,
                   search_nearby_places tools params l1 = (Ok places, l)
                   /\ rbind (py_iter places) (map_result formatted_place)
                      = Err inner
  | GetPlaceDetails placeId =>
      maps_tools.get_place_details tools (VStr placeId) log = (Err inner, l)
      \/ exists details,
           maps_tools.get_place_details tools (VStr placeId) log
           = (Ok details, l)
           /\ formatted_details placeId details = Err inner
  | MapsGeocode address => geocode tools (VStr address) log = (Err inner, l)
  | MapsReverseGeocode latitude longitude =>
      reverse_geocode tools (VFloat latitude) (VFloat longitude) log
      = (Err inner, l)
  | MapsDistanceMatrix origins destinations mode =>
      calculate_distance_matrix tools (VList (map VStr origins))
        (VList (map VStr destinations)) (VStr mode) log
      = (Err inner, l)
  | MapsDirections origin destination mode departure_time arrival_time =>
      (parse_time fromisoformat departure_time = Err inner /\ l = log)
      \/ exists dept_time,
           parse_time fromisoformat departure_time = Ok dept_time
           /\ ((parse_time fromisoformat arrival_time = Err inner /\ l = log)
               \/ exists arr_time,
                    parse_time fromisoformat arrival_time = Ok arr_time
                    /\ get_directions utcoffset tools (VStr origin)
                         (VStr destination) (VStr mode) dept_time arr_time
                         log
                       = (Err inner, l))
  | MapsElevation locations =>
      get_elevation tools (VList (map of_float_dict locations)) log
      = (Err inner, l)
  end.

(** ** Provider stubs and inputs for the examples *)

Definition api_error : exn :=
  exception_from (OtherException "googlemaps.exceptions.ApiError")
    [Lit "REQUEST_DENIED (The provided API key is invalid.)"]
    (exception (OtherException "requests.exceptions.HTTPError")
       [Lit "403 Client Error"]).

Definition leg_example : pyval :=
  VDict [("distance", VDict [("value", VInt 1200); ("text", VStr "1.2 km")]);
         ("duration", VDict [("value", VInt 300); ("text", VStr "5 mins")]);
         ("arrival_time", VDict [("value", VInt 1709164800);
                                 ("text", VStr "8:00")])].

Definition leg_example_fields : pydict :=
  match leg_example with
  | VDict fields => fields
  | _ => []
  end.

Definition leg_other : pyval :=
  VDict [("distance", VDict [("value", VInt 9); ("text", VStr "9 m")]);
         ("duration", VDict [("value", VInt 7); ("text", VStr "7 secs")])].

Definition place_low : pyval :=
  VDict [("name", VStr "Low"); ("rating", VFloat (FNum (Qmake 12 10)))].
Definition place_unrated : pyval := VDict [("name", VStr "Unrated")].
Definition place_good : pyval :=
  VDict [("name", VStr "Good"); ("rating", VFloat (FNum (Qmake 47 10)))].
Definition place_fair : pyval :=
  VDict [("name", VStr "Fair"); ("rating", VInt 3)].

Definition element_ok : pyval :=
  VDict [("status", VStr "OK");
         ("distance", VDict [("value", VInt 1200); ("text", VStr "1.2 km")]);
         ("duration", VDict [("value", VInt 300); ("text", VStr "5 mins")])].
Definition element_failed : pyval := VDict [("status", VStr "ZERO_RESULTS")].

(** A provider that answers as the real one does. *)
Definition provider (ep : endpoint) (args : pydict) : result pyval :=
  match ep with
  | geocode_ep =>
      Ok (VList
            [VDict [("geometry",
                     VDict [("location",
                             VDict [("lat", VFloat (FNum (Qmake 514 10)));
                                    ("lng", VFloat (FNum (Qmake 55 10)))])]);
                    ("formatted_address", VStr "Eindhoven");
                    ("place_id", VStr "abc")]])
  | reverse_geocode_ep =>
      Ok (VList [VDict [("formatted_address", VStr "Eindhoven");
                        ("place_id", VStr "abc")]])
  | places_nearby_ep =>
      Ok (VDict [("results",
                  VList [place_low; place_unrated; place_good; place_fair])])
  | place_ep => Ok (VDict [("status", VStr "OK")])
  | distance_matrix_ep =>
      Ok (VDict [("status", VStr "OK");
                 ("rows",
                  VList [VDict [("elements",
                                 VList [element_ok; element_failed])]]);
                 ("origin_addresses", VList [VStr "A"]);
                 ("destination_addresses", VList [VStr "B"; VStr "C"])])
  | directions_ep =>
      Ok (VList [VDict [("summary", VStr "A2");
                        ("legs", VList [leg_example; leg_other])];
                 VDict [("summary", VStr "N69");
                        ("legs", VList [leg_other])]])
  | elevation_ep =>
      Ok (VList [VDict [("elevation", VFloat (FNum (Qmake 175 10)));
                        ("location",
                         VDict [("lat", VInt 1); ("lng", VInt 2)])];
                 VDict [("elevation", VInt 3);
                        ("location",
                         VDict [("lat", VInt 3); ("lng", VInt 4)])]])
  end.

(** A provider with nothing to report: empty result sets, an empty matrix,
    no elevation items. *)
Definition provider_empty (ep : endpoint) (args : pydict) : result pyval :=
  match ep with
  | places_nearby_ep =>
      Ok (VDict [("results", VList []); ("status", VStr "ZERO_RESULTS")])
  | place_ep => Ok (VDict [("status", VStr "NOT_FOUND")])
  | distance_matrix_ep =>
      Ok (VDict [("status", VStr "OK");
                 ("rows", VList []);
                 ("origin_addresses", VList []);
                 ("destination_addresses", VList [])])
  | _ => Ok (VList [])
  end.

(** A provider whose answers carry a status other than OK. *)
Definition provider_denied (ep : endpoint) (args : pydict) : result pyval :=
  Ok (VDict [("status", VStr "REQUEST_DENIED");
             ("rows", VList []);
             ("results", VList [])]).

(** A provider that refuses every request. *)
Definition provider_down (ep : endpoint) (args : pydict) : result pyval :=
  Err api_error.

Definition tools_example : GoogleMapsTools := mkGoogleMapsTools provider "zh-TW".
Definition tools_empty : GoogleMapsTools :=
  mkGoogleMapsTools provider_empty "zh-TW".
Definition tools_denied : GoogleMapsTools :=
  mkGoogleMapsTools provider_denied "zh-TW".
Definition tools_down : GoogleMapsTools :=
  mkGoogleMapsTools provider_down "zh-TW".

Definition utc (t : Z) : Z := 0.

(** A stand-in for [datetime.fromisoformat] that knows two instants and
    refuses a month 13 as Python does. *)
Definition iso_example (s : string) : datetime + text :=
  if String.eqb s "2024-03-01T08:00:00" then
    inl (mkDatetime 2024 3 1 8 0 0 None)
  else if String.eqb s "2024-03-01T09:30:00+00:00" then
    inl (mkDatetime 2024 3 1 9 30 0 (Some 0))
  else if String.eqb s "2024-13-01T00:00:00" then
    inr [Lit "month must be in 1..12"]
  else inr [Lit "Invalid isoformat string: "; ReprOf (VStr s)].

Definition departure_example : datetime := mkDatetime 2024 3 1 8 0 0 None.
Definition arrival_example : datetime := mkDatetime 2024 3 1 9 30 0 (Some 0).

Definition coordinates_center (value : string) : pydict :=
  [("value", VStr value); ("isCoordinates", VBool true)].

(** ** Further definitions used by the statements *)

(** [d.get(k, default)] on a dictionary. *)
Definition get_or (d : pydict) (k : string) (default : pyval) : pyval :=
  match dict_get d k with
  | Some v => v
  | None => default
  end.

(** The requests [geocode_address] and [reverse_geocode] send. *)
Definition geocode_request (self : GoogleMapsTools) (address : pyval) : call :=
  (geocode_ep,
   [("address", address); ("language", VStr (default_language self))]).

Definition reverse_geocode_request (self : GoogleMapsTools)
    (latitude longitude : pyval) : call :=
  (reverse_geocode_ep,
   [("latlng", VTuple [latitude; longitude]);
    ("language", VStr (default_language self))]).

(** Whatever the outcome [r] raises is a [ValueError] raised from its
    cause, whose message is [prefix] followed by the text of the cause. *)
Definition wrapped {A} (prefix : string) (r : result A * list call) : Prop :=
  forall e l,
    r = (Err e, l) ->
    exists cause,
      e = exception_from ValueError (fstr prefix (exc_str cause)) cause.


(** The computation sends, after the requests of [log], requests to the
    endpoints [eps], in this order, and nothing else. *)
Definition requests_of {A} (m : M A) (log : list call) (eps : list endpoint)
  : Prop :=
  exists sent, snd (m log) = (log ++ sent)%list /\ map fst sent = eps.

(** The sequences of endpoints a tool invocation may reach. *)
Definition allowed_requests (c : tool_call) : list (list endpoint) :=
  match c with
  | SearchNearby _ _ _ _ _ =>
      [[]; [geocode_ep]; [places_nearby_ep]; [geocode_ep; places_nearby_ep]]
  | GetPlaceDetails _ => [[]; [place_ep]]
  | MapsGeocode _ => [[]; [geocode_ep]]
  | MapsReverseGeocode _ _ => [[]; [reverse_geocode_ep]]
  | MapsDistanceMatrix _ _ _ => [[]; [distance_matrix_ep]]
  | MapsDirections _ _ _ _ _ => [[]; [directions_ep]]
  | MapsElevation _ => [[]; [elevation_ep]]
  end.


(** The keys of the dictionaries the gateway builds, in order. *)
Definition place_keys : list string :=
  ["name"; "place_id"; "address"; "location"; "rating"; "total_ratings";
   "open_now"; "types"; "price_level"; "vicinity"].

Definition detail_keys : list string :=
  ["name"; "place_id"; "address"; "location"; "rating"; "total_ratings";
   "open_now"; "opening_hours"; "phone"; "international_phone"; "website";
   "url"; "price_level"; "types"; "photos"; "reviews"].

Definition photo_keys : list string := ["photo_reference"; "height"; "width"].

Definition review_keys : list string :=
  ["rating"; "text"; "time"; "author_name"; "author_url"; "language";
   "profile_photo_url"; "relative_time_description"].

(** What [search_nearby] answers for a place of which the provider gave
    the name and the rating only. *)
Definition place_summary (name rating : pyval) : pyval :=
  VDict [("name", name); ("place_id", VNone); ("address", VNone);
         ("location", VNone); ("rating", rating); ("total_ratings", VNone);
         ("open_now", VNone); ("types", VList []); ("price_level", VNone);
         ("vicinity", VNone)].

(** [v] is a dictionary with exactly the keys [keys], in this order. *)
Definition has_keys (keys : list string) (v : pyval) : Prop :=
  exists d, v = VDict d /\ map fst d = keys.


(** ** Environments and constructors for the examples *)

Definition getenv_example (name : string) : option string :=
  if String.eqb name "GOOGLE_MAPS_API_KEY" then Some "AIza-env" else None.

Definition getenv_unset (name : string) : option string := None.

(** A constructor that accepts the keys that start with [AIza], as the
    provider's client does. *)
Definition Client_example (key : string)
  : result (endpoint -> pydict -> result pyval) :=
  if prefix "AIza" key then Ok provider
  else Err (exception ValueError [Lit "Invalid API key provided."]).


(** A provider that knows one place in detail. *)
Definition place_detail_example : pyval :=
  VDict [("name", VStr "Cafe Centraal");
         ("place_id", VStr "from-provider");
         ("rating", VFloat (FNum (Qmake 43 10)));
         ("geometry",
          VDict [("location", VDict [("lat", VInt 51); ("lng", VInt 5)])]);
         ("photos",
          VList [VDict [("photo_reference", VStr "ref");
                        ("height", VInt 600);
                        ("width", VInt 800);
                        ("html_attributions", VList [])]]);
         ("reviews",
          VList [VDict [("rating", VInt 5); ("text", VStr "Great")];
                 VDict [("rating", VInt 2)]])].

Definition provider_detail (ep : endpoint) (args : pydict) : result pyval :=
  match ep with
  | place_ep => Ok (VDict [("result", place_detail_example);
                           ("status", VStr "OK")])
  | _ => provider ep args
  end.

Definition tools_detail : GoogleMapsTools :=
  mkGoogleMapsTools provider_detail "zh-TW".

(** What the [get_place_details] tool answers for that place. *)
Definition details_example : pyval :=
  VDict [("name", VStr "Cafe Centraal");
         ("place_id", VStr "asked-for");
         ("address", VNone);
         ("location", VDict [("lat", VInt 51); ("lng", VInt 5)]);
         ("rating", VFloat (FNum (Qmake 43 10)));
         ("total_ratings", VNone);
         ("open_now", VNone);
         ("opening_hours", VList []);
         ("phone", VNone);
         ("international_phone", VNone);
         ("website", VNone);
         ("url", VNone);
         ("price_level", VNone);
         ("types", VList []);
         ("photos",
          VList [VDict [("photo_reference", VStr "ref");
                        ("height", VInt 600);
                        ("width", VInt 800)]]);
         ("reviews",
          VList [VDict [("rating", VInt 5); ("text", VStr "Great");
                        ("time", VNone); ("author_name", VNone);
                        ("author_url", VNone); ("language", VNone);
                        ("profile_photo_url", VNone);
                        ("relative_time_description", VNone)];
                 VDict [("rating", VInt 2); ("text", VNone);
                        ("time", VNone); ("author_name", VNone);
                        ("author_url", VNone); ("language", VNone);
                        ("profile_photo_url", VNone);
                        ("relative_time_description", VNone)]])].


(** A location given to the elevation tool without one of its two keys,
    and an element of a distance matrix marked [OK] without a distance. *)
Definition location_without_longitude : pyval :=
  VDict [("latitude", VFloat (FNum (Qmake 5144 100)))].

Definition location_complete : pyval :=
  VDict [("latitude", VFloat (FNum (Qmake 5144 100)));
         ("longitude", VFloat (FNum (Qmake 548 100)))].

Definition element_without_distance : pyval :=
  VDict [("status", VStr "OK");
         ("duration", VDict [("value", VInt 600); ("text", VStr "10 mins")])].

Definition provider_partial (ep : endpoint) (args : pydict) : result pyval :=
  match ep with
  | distance_matrix_ep =>
      Ok (VDict [("status", VStr "OK");
                 ("rows",
                  VList [VDict [("elements",
                                 VList [element_ok;
                                        element_without_distance])]]);
                 ("origin_addresses", VList [VStr "Eindhoven"]);
                 ("destination_addresses",
                  VList [VStr "Utrecht"; VStr "Delft"])])
  | places_nearby_ep =>
      Ok (VDict [("results",
                  VList [place_good;
                         VDict [("name", VStr "Null rating");
                                ("rating", VNone)]])])
  | _ => provider ep args
  end.

Definition tools_partial : GoogleMapsTools :=
  mkGoogleMapsTools provider_partial "zh-TW".

(** * Properties *)

(** Case analysis on the innermost scrutinee of the goal. *)
Ltac case_inner :=
  match goal with
  | |- context [match ?x with _ => _ end] =>
      lazymatch x with
      | context [match _ with _ => _ end] => fail
      | _ => destruct x eqn:?
      end
  end.

(** ** The interpreter operations on examples *)

Example split_examples :
  split "," "52.1, 4.3" = ["52.1"; " 4.3"]
  /\ split "," "" = [""]
  /\ split "," "1,,2" = ["1"; ""; "2"].
Proof. repeat split. Qed.

Example strip_examples :
  strip "  4.3 " = "4.3" /\ strip "   " = "" /\ strip "a b" = "a b".
Proof. repeat split. Qed.

Example float_accepts :
  float_of_string "52.1" = Some (FNum (Qmake 521 10))
  /\ float_of_string " -1_0.5e1 " = Some (FNum (Qopp (inject_Z 105)))
  /\ float_of_string ".5" = Some (FNum (Qmake 5 10))
  /\ float_of_string "5." = Some (FNum (inject_Z 5))
  /\ float_of_string "-Infinity" = Some (FInf true)
  /\ float_of_string "NaN" = Some FNan.
Proof. repeat split. Qed.

Example float_refuses :
  map float_of_string [""; "."; "abc"; "1e"; "1__0"; "_1"; "1_"; "1 2"; "0x10"]
  = [None; None; None; None; None; None; None; None; None].
Proof. reflexivity. Qed.

Example strftime_examples :
  map (fun t => strftime (civil t)) [0; 951782400; 1709251199; 253402300799]
  = ["1970-01-01 00:00:00"; "2000-02-29 00:00:00";
     "2024-02-29 23:59:59"; "9999-12-31 23:59:59"].
Proof. reflexivity. Qed.

(** ** The gateway *)

Lemma invoke_uninitialized :
  forall utcoffset fromisoformat (c : tool_call) (log : list call),
    invoke utcoffset fromisoformat None c log
    = (Err (exception RuntimeError [Lit (uninitialized_message c)]), log).
Proof.
  intros utcoffset fromisoformat c log. destruct c; reflexivity.
Qed.

(** C8. Every tool invoked while the adapter handle is still [None] fails
    with a [RuntimeError] that says the tools are not initialized; the
    request log is unchanged, so no adapter call was attempted, and the
    failure is not an [AttributeError] or [TypeError] on [None]. *)
Theorem uninitialized_tools_fail_fast :
  forall utcoffset fromisoformat (c : tool_call) (log : list call),
  exists msg,
    invoke utcoffset fromisoformat None c log
    = (Err (exception RuntimeError [Lit msg]), log)
    /\ contains "not initialized" msg = true.
Proof.
  intros utcoffset fromisoformat c log.
  exists (uninitialized_message c). split.
  - apply invoke_uninitialized.
  - destruct c; reflexivity.
Qed.

(** A tool is [try: body / except Exception as e: raise RuntimeError(...)]:
    it raises exactly when its body does, and then what its handler
    built. *)
Lemma try_except_tool_failure {A} (body : M A) (prefix : string)
    (log log' : list call) (e : exn) :
  try_except body (tool_failure prefix) log = (Err e, log')
  <-> exists inner,
        body log = (Err inner, log')
        /\ e = exception_handling RuntimeError
                 (fstr prefix (exc_str inner)) inner.
Proof.
  unfold try_except, tool_failure, raise. split.
  - destruct (body log) as [[v | inner] l]; intros H; inversion H; subst.
    exists inner. split; reflexivity.
  - intros (inner & -> & ->). reflexivity.
Qed.

Lemma bind_raises {A B} (m : M A) (k : A -> M B) (log l : list call)
    (e : exn) :
  bind m k log = (Err e, l)
  <-> m log = (Err e, l)
      \/ exists a l1, m log = (Ok a, l1) /\ k a l1 = (Err e, l).
Proof.
  unfold bind. destruct (m log) as [[a | e'] l1]; split.
  - intros H. right. exists a, l1. split; [reflexivity | exact H].
  - intros [H | (a' & l' & H & Hk)]; [discriminate H | ].
    inversion H; subst. exact Hk.
  - intros H. left. inversion H. reflexivity.
  - intros [H | (a' & l' & H & _)]; [ | discriminate H].
    inversion H. reflexivity.
Qed.

Lemma lift_raises_ok {A} (r : result A) (log l : list call) (a : A) :
  lift r log = (Ok a, l) <-> r = Ok a /\ l = log.
Proof.
  unfold lift. split.
  - intros H. inversion H. split; reflexivity.
  - intros [-> ->]. reflexivity.
Qed.

Lemma lift_raises {A} (r : result A) (log l : list call) (e : exn) :
  lift r log = (Err e, l) <-> r = Err e /\ l = log.
Proof.
  unfold lift. split.
  - intros H. inversion H. split; reflexivity.
  - intros [-> ->]. reflexivity.
Qed.

(** C5, the claim as stated, fails: the signal of a failed [maps_geocode]
    does not carry a message only.  The exception that was being handled
    is on it as its [__context__], and behind that one, cause by cause,
    the provider's own [ApiError] and the HTTP error it was raised
    from. *)
Lemma tool_failure_keeps_handled_exception :
  exists e inner first,
    invoke utc iso_example (Some tools_down) (MapsGeocode "Eindhoven") []
    = (Err e, [(geocode_ep, [("address", VStr "Eindhoven");
                             ("language", VStr "zh-TW")])])
    /\ exc_str e
       = [Lit "Geocoding failed: Error geocoding: Error geocoding address: REQUEST_DENIED (The provided API key is invalid.)"]
    /\ exc_context e = Some inner
    /\ exc_cls inner = ValueError
    /\ exc_cause inner = Some first
    /\ exc_cause first = Some api_error
    /\ exc_cls api_error = OtherException "googlemaps.exceptions.ApiError"
    /\ exc_cause api_error
       = Some (exception (OtherException "requests.exceptions.HTTPError")
                 [Lit "403 Client Error"]).
Proof.
  do 3 eexists. repeat split.
Qed.

(** C5 (amended). A tool that has its tools raises exactly when one of its
    stages does (resolving the location, the adapter with the provider
    behind it, reshaping the answer, reading a time), and what it raises
    is then always of one shape: a [RuntimeError] whose message is the
    tool's fixed prefix followed by the text of the failure, without a
    [__cause__].  The failure itself is not dropped: it is the
    [__context__] of the signal. *)
Theorem tool_failures_are_uniform :
  forall utcoffset fromisoformat (tools : GoogleMapsTools)
         (c : tool_call) (log l : list call) (e : exn),
    invoke utcoffset fromisoformat (Some tools) c log = (Err e, l)
    <-> exists inner,
          stage_failure utcoffset fromisoformat tools c log inner l
          /\ e = exception_handling RuntimeError
                   (fstr (failure_prefix c) (exc_str inner)) inner
          /\ exc_cls e = RuntimeError
          /\ exc_str e = fstr (failure_prefix c) (exc_str inner)
          /\ exc_cause e = None
          /\ exc_context e = Some inner.
Proof.
  intros utcoffset fromisoformat tools c log l e.
  assert (forall inner,
             e = exception_handling RuntimeError
                   (fstr (failure_prefix c) (exc_str inner)) inner
             <-> e = exception_handling RuntimeError
                       (fstr (failure_prefix c) (exc_str inner)) inner
                 /\ exc_cls e = RuntimeError
                 /\ exc_str e = fstr (failure_prefix c) (exc_str inner)
                 /\ exc_cause e = None
                 /\ exc_context e = Some inner) as Hshape.
  { intros inner. split; [ | tauto]. intros ->. repeat split. }
  assert (invoke utcoffset fromisoformat (Some tools) c log = (Err e, l)
          <-> exists inner,
                stage_failure utcoffset fromisoformat tools c log inner l
                /\ e = exception_handling RuntimeError
                         (fstr (failure_prefix c) (exc_str inner)) inner)
    as Hstages.
  { destruct c as [center keyword radius openNow minRating | placeId
                  | address | latitude longitude
                  | origins destinations mode
                  | origin destination mode departure_time arrival_time
                  | locations];
      cbn [invoke stage_failure failure_prefix];
      unfold search_nearby, server.get_place_details, maps_geocode,
        maps_reverse_geocode, maps_distance_matrix, maps_directions,
        maps_elevation;
      rewrite try_except_tool_failure;
      try reflexivity.
    - (* search_nearby *)
      split.
      + intros (inner & Hbody & ->). exists inner. split; [ | reflexivity].
        apply bind_raises in Hbody.
        destruct Hbody as [H | (location & l1 & Hloc & Hbody)]; [left; exact H | ].
        right. exists location, l1. split; [exact Hloc | ]. cbv zeta.
        apply bind_raises in Hbody.
        destruct Hbody as [H | (places & l2 & Hplaces & Hbody)];
          [left; exact H | ].
        right. exists places. unfold bind, lift, ret in Hbody.
        destruct (py_iter places) as [candidates | e1]; cbn [rbind].
        * destruct (map_result formatted_place candidates) as [out | e2];
            inversion Hbody; subst. split; [exact Hplaces | reflexivity].
        * inversion Hbody; subst. split; [exact Hplaces | reflexivity].
      + intros (inner & Hstage & ->). exists inner. split; [ | reflexivity].
        apply bind_raises.
        destruct Hstage as [H | (location & l1 & Hloc & Hstage)];
          [left; exact H | ].
        right. exists location, l1. split; [exact Hloc | ]. cbv zeta in Hstage.
        apply bind_raises.
        destruct Hstage as [H | (places & Hplaces & Hshape')];
          [left; exact H | ].
        right. exists places, l. split; [exact Hplaces | ].
        unfold bind, lift, ret.
        destruct (py_iter places) as [candidates | e1]; cbn [rbind] in Hshape'.
        * rewrite Hshape'. reflexivity.
        * inversion Hshape'; subst. reflexivity.
    - (* get_place_details *)
      split.
      + intros (inner & Hbody & ->). exists inner. split; [ | reflexivity].
        apply bind_raises in Hbody.
        destruct Hbody as [H | (details & l1 & Hdetails & Hbody)];
          [left; exact H | ].
        apply lift_raises in Hbody. destruct Hbody as [Hbody ->].
        right. exists details. split; assumption.
      + intros (inner & Hstage & ->). exists inner. split; [ | reflexivity].
        apply bind_raises.
        destruct Hstage as [H | (details & Hdetails & Hshape')];
          [left; exact H | ].
        right. exists details, l. split; [exact Hdetails | ].
        apply lift_raises. split; [exact Hshape' | reflexivity].
    - (* maps_directions *)
      split.
      + intros (inner & Hbody & ->). exists inner. split; [ | reflexivity].
        apply bind_raises in Hbody.
        destruct Hbody as [H | (dept_time & l1 & Hdept & Hbody)].
        { apply lift_raises in H. left. exact H. }
        apply lift_raises_ok in Hdept. destruct Hdept as [Hdept ->].
        right. exists dept_time. split; [exact Hdept | ].
        apply bind_raises in Hbody.
        destruct Hbody as [H | (arr_time & l2 & Harr & Hbody)].
        { apply lift_raises in H. left. exact H. }
        apply lift_raises_ok in Harr. destruct Harr as [Harr ->].
        right. exists arr_time. split; assumption.
      + intros (inner & Hstage & ->). exists inner. split; [ | reflexivity].
        apply bind_raises.
        destruct Hstage as [[H ->] | (dept_time & Hdept & Hstage)].
        { left. apply lift_raises. split; [exact H | reflexivity]. }
        right. exists dept_time, log.
        split; [apply lift_raises_ok; split; [exact Hdept | reflexivity] | ].
        apply bind_raises.
        destruct Hstage as [[H ->] | (arr_time & Harr & Hstage)].
        { left. apply lift_raises. split; [exact H | reflexivity]. }
        right. exists arr_time, log.
        split; [apply lift_raises_ok; split; [exact Harr | reflexivity] | ].
        exact Hstage. }
  rewrite Hstages. split.
  - intros (inner & Hstage & He). exists inner. split; [exact Hstage | ].
    apply Hshape. exact He.
  - intros (inner & Hstage & He & _). exists inner. split; assumption.
Qed.

(** With a provider that is down, [maps_geocode] raises, and with a time
    text that cannot be read [maps_directions] raises before it asks. *)
Lemma tool_failures_are_uniform_witness :
  (exists inner l,
      invoke utc iso_example (Some tools_down) (MapsGeocode "Eindhoven") []
      = (Err (exception_handling RuntimeError
                (fstr "Geocoding failed: " (exc_str inner)) inner), l)
      /\ geocode tools_down (VStr "Eindhoven") [] = (Err inner, l))
  /\ invoke utc iso_example (Some tools_example)
       (MapsDirections "Eindhoven" "Utrecht" "transit"
          (Some "2024-13-01T00:00:00") None) []
     = (Err (exception_handling RuntimeError
               [Lit "Failed to get directions: month must be in 1..12"]
               (Exn ValueError [Lit "month must be in 1..12"] None
                  (Some (exception ValueError
                           [Lit "month must be in 1..12"])))), []).
Proof.
  split.
  - destruct (geocode tools_down (VStr "Eindhoven") []) as [[v | inner] l]
      eqn:Hgeocode; [discriminate Hgeocode | ].
    exists inner, l. split; [ | reflexivity].
    apply (proj2 (tool_failures_are_uniform utc iso_example tools_down
                    (MapsGeocode "Eindhoven") [] l _)).
    exists inner. split; [exact Hgeocode | ]. repeat split.
  - apply (proj2 (tool_failures_are_uniform utc iso_example tools_example
                    (MapsDirections "Eindhoven" "Utrecht" "transit"
                       (Some "2024-13-01T00:00:00") None) [] [] _)).
    eexists. split; [left; split; reflexivity | ]. repeat split.
Defined.

(** ** Directions: which time is sent *)

(** Nothing after the request of [get_directions] sends another one: the
    log grows by exactly that request, whatever the provider answers. *)
Lemma get_directions_log :
  forall utcoffset self origin destination mode departure_time arrival_time
         (log : list call),
    snd (get_directions utcoffset self origin destination mode
           departure_time arrival_time log)
    = (log ++ [(directions_ep,
                directions_params self origin destination mode
                  departure_time arrival_time)])%list.
Proof.
  intros. unfold get_directions, try_except, bind, request, lift, raise, ret.
  repeat (case_inner; cbn beta iota); reflexivity.
Qed.

(** C1, the claim as stated, fails: with both times supplied the one
    request carries the arrival time, and no departure time at all. *)
Lemma directions_departure_time_not_sent :
  let params :=
    [("origin", VStr "Eindhoven");
     ("destination", VStr "Utrecht");
     ("mode", VStr "transit");
     ("language", VStr "zh-TW");
     ("arrival_time", VDatetime arrival_example)] in
  snd (get_directions utc tools_example
         (VStr "Eindhoven") (VStr "Utrecht") (VStr "transit")
         (VDatetime departure_example) (VDatetime arrival_example) [])
  = [(directions_ep, params)]
  /\ dict_get params "departure_time" <> Some (VDatetime departure_example)
  /\ dict_get params "arrival_time" = Some (VDatetime arrival_example).
Proof.
  cbv zeta. repeat split. cbn. discriminate.
Qed.

(** C1 (amended). When both a departure time and an arrival time are
    supplied, the parameters of the one provider request contain the
    arrival time, and the departure time is ignored: arrival time wins. *)
Theorem directions_arrival_time_wins :
  forall utcoffset self origin destination mode
         (departure arrival : datetime) (log : list call),
    let params :=
      directions_params self origin destination mode
        (VDatetime departure) (VDatetime arrival) in
    snd (get_directions utcoffset self origin destination mode
           (VDatetime departure) (VDatetime arrival) log)
    = (log ++ [(directions_ep, params)])%list
    /\ dict_get params "arrival_time" = Some (VDatetime arrival)
    /\ dict_get params "departure_time" = None.
Proof.
  intros. split.
  - apply get_directions_log.
  - split; reflexivity.
Qed.

(** The same through the tool: both ISO texts are parsed, and only the
    arrival time reaches the provider. *)
Example maps_directions_both_times :
  snd (maps_directions utc iso_example (Some tools_example)
         "Eindhoven" "Utrecht" "transit"
         (Some "2024-03-01T08:00:00") (Some "2024-03-01T09:30:00Z") [])
  = [(directions_ep,
      [("origin", VStr "Eindhoven");
       ("destination", VStr "Utrecht");
       ("mode", VStr "transit");
       ("language", VStr "zh-TW");
       ("arrival_time", VDatetime arrival_example)])].
Proof. reflexivity. Qed.

(** When only a departure time is given it is sent, and when neither is
    given the request carries [departure_time=None]. *)
Lemma directions_params_departure :
  forall self origin destination mode departure_time,
    dict_get
      (directions_params self origin destination mode departure_time VNone)
      "departure_time" = Some departure_time
    /\ dict_get
         (directions_params self origin destination mode departure_time VNone)
         "arrival_time" = None.
Proof.
  intros. unfold directions_params. cbn [truthy].
  destruct (truthy departure_time); split; reflexivity.
Qed.

(** ** Comprehensions *)

Lemma map_result_Forall2 {A B} (f : A -> result B) (l : list A) (ys : list B) :
  map_result f l = Ok ys <-> Forall2 (fun x y => f x = Ok y) l ys.
Proof.
  revert ys. induction l as [ | x l IH]; intros ys; cbn.
  - split.
    + intros H. inversion H. constructor.
    + intros H. inversion H. reflexivity.
  - split.
    + destruct (f x) as [y | e] eqn:Hx; cbn; [ | discriminate].
      destruct (map_result f l) as [ys' | e] eqn:Hl; cbn; [ | discriminate].
      intros H. inversion H; subst. constructor; [exact Hx | ].
      apply IH. reflexivity.
    + intros H. inversion H as [ | x' y l' ys' Hx Hl]; subst.
      rewrite Hx. cbn. apply IH in Hl. rewrite Hl. reflexivity.
Qed.

Lemma map_result_length {A B} (f : A -> result B) (l : list A) (ys : list B) :
  map_result f l = Ok ys -> List.length ys = List.length l.
Proof.
  intros H. apply map_result_Forall2 in H.
  symmetry. eapply Forall2_length. exact H.
Qed.

(** ** Resolving a coordinate descriptor *)

(** Parsing the tokens either yields one float per token, or stops at a
    token that [float] refuses, with a [ValueError]. *)
Lemma parse_tokens (tokens : list string) :
  (exists coords,
      map_result (fun c => py_float (strip c)) tokens = Ok coords
      /\ List.length coords = List.length tokens
      /\ Forall (fun c => float_of_string (strip c) <> None) tokens)
  \/ (exists e,
        map_result (fun c => py_float (strip c)) tokens = Err e
        /\ exc_cls e = ValueError).
Proof.
  induction tokens as [ | c tokens IH]; cbn.
  - left. exists []. repeat split. constructor.
  - unfold py_float at 1 3.
    destruct (float_of_string (strip c)) as [x | ] eqn:Hc; cbn.
    + destruct IH as [(coords & -> & Hlen & Hall) | (e & -> & He)]; cbn.
      * left. exists (x :: coords). repeat split.
        -- cbn. rewrite Hlen. reflexivity.
        -- constructor; [congruence | exact Hall].
      * right. exists e. split; [reflexivity | exact He].
    + right. eexists. split; reflexivity.
Qed.

Lemma parse_coordinates_two (s a b : string) (x y : pyfloat) :
  split "," s = [a; b] ->
  float_of_string (strip a) = Some x ->
  float_of_string (strip b) = Some y ->
  parse_coordinates (VStr s)
  = Ok (VDict [("lat", VFloat x); ("lng", VFloat y)]).
Proof.
  intros Hs Ha Hb. unfold parse_coordinates. rewrite Hs. cbn.
  unfold py_float. rewrite Ha, Hb. reflexivity.
Qed.

Lemma parse_coordinates_invalid (s : string) :
  List.length (split "," s) <> 2%nat
  \/ (exists c, In c (split "," s) /\ float_of_string (strip c) = None) ->
  exists cause,
    parse_coordinates (VStr s)
    = Err (exception_from ValueError invalid_coordinate_format cause).
Proof.
  intros H. unfold parse_coordinates.
  destruct (parse_tokens (split "," s))
    as [(coords & -> & Hlen & Hall) | (e & -> & He)]; cbn.
  - destruct H as [Hcount | (c & Hin & Hc)].
    + destruct (Z.of_nat (List.length coords) =? 2) eqn:Htwo; cbn.
      * apply Z.eqb_eq in Htwo. exfalso. apply Hcount. lia.
      * eexists. reflexivity.
    + exfalso. rewrite Forall_forall in Hall. exact (Hall c Hin Hc).
  - rewrite He. cbn. eexists. reflexivity.
Qed.

(** C2. A descriptor flagged as coordinates resolves without any request.
    When the comma-split of its text is exactly two tokens that [float]
    accepts once stripped, the result is the coordinate made of those two
    values, whatever they are (no range check).  When the split has another
    number of tokens, or a token that [float] refuses, the resolution
    fails with the [ValueError] for an invalid coordinate format. *)
Theorem resolve_coordinates :
  forall self (center : pydict) (is_coordinates : pyval) (s : string)
         (log : list call),
    dict_get center "isCoordinates" = Some is_coordinates ->
    truthy is_coordinates = true ->
    dict_get center "value" = Some (VStr s) ->
    (forall a b x y,
        split "," s = [a; b] ->
        float_of_string (strip a) = Some x ->
        float_of_string (strip b) = Some y ->
        get_location self (VDict center) log
        = (Ok (VDict [("lat", VFloat x); ("lng", VFloat y)]), log))
    /\ (List.length (split "," s) <> 2%nat
        \/ (exists c, In c (split "," s) /\ float_of_string (strip c) = None)
        -> exists cause,
             get_location self (VDict center) log
             = (Err (exception_from ValueError invalid_coordinate_format cause),
                log)).
Proof.
  intros self center is_coordinates s log Hflag Htrue Hvalue.
  assert (get_location self (VDict center) log
          = (parse_coordinates (VStr s), log)) as Hloc.
  { unfold get_location, bind, lift. cbn [py_get getitem].
    rewrite Hflag, Htrue, Hvalue. reflexivity. }
  rewrite Hloc. split.
  - intros a b x y Hs Ha Hb.
    rewrite (parse_coordinates_two s a b x y Hs Ha Hb). reflexivity.
  - intros H. destruct (parse_coordinates_invalid s H) as [cause ->].
    exists cause. reflexivity.
Qed.

(** "91, 181.5" is outside every latitude and longitude range and
    resolves all the same; "52.1,4.3,7" has three tokens and fails. *)
Lemma resolve_coordinates_witness :
  get_location tools_example (VDict (coordinates_center " 91 , 181.5")) []
  = (Ok (VDict [("lat", VFloat (FNum (inject_Z 91)));
                ("lng", VFloat (FNum (Qmake 1815 10)))]), [])
  /\ exists cause,
       get_location tools_example (VDict (coordinates_center "52.1,4.3,7")) []
       = (Err (exception_from ValueError invalid_coordinate_format cause), []).
Proof.
  split.
  - apply (proj1 (resolve_coordinates tools_example
                    (coordinates_center " 91 , 181.5") (VBool true)
                    " 91 , 181.5" [] eq_refl eq_refl eq_refl)
             " 91 " " 181.5"); reflexivity.
  - apply (proj2 (resolve_coordinates tools_example
                    (coordinates_center "52.1,4.3,7") (VBool true)
                    "52.1,4.3,7" [] eq_refl eq_refl eq_refl)).
    left. cbn. lia.
Defined.

(** ** Nearby search: the rating filter *)

(** A log that has grown is not the log it grew from. *)
Lemma not_sent_yet {A} (l : list A) (x : A) : l <> (l ++ [x])%list.
Proof.
  intros H. apply (f_equal (@List.length A)) in H.
  rewrite length_app in H. cbn in H. lia.
Qed.

Lemma filter_result_filter {A} (p : A -> result bool) (g : A -> bool)
    (l kept : list A) :
  (forall x b, p x = Ok b -> b = g x) ->
  filter_result p l = Ok kept ->
  kept = filter g l.
Proof.
  intros Hp. revert kept. induction l as [ | x l IH]; intros kept; cbn.
  - intros H. inversion H. reflexivity.
  - destruct (p x) as [b | e] eqn:Hx; cbn; [ | discriminate].
    destruct (filter_result p l) as [ys | e] eqn:Hl; cbn; [ | discriminate].
    intros H. inversion H; subst.
    rewrite <- (Hp x b Hx). rewrite (IH ys eq_refl). reflexivity.
Qed.

(** Against a [float] threshold the test of the filter either raises or
    answers [meets]. *)
Lemma rating_at_least_meets (q : pyfloat) (place : pyval) (b : bool) :
  rating_at_least (VFloat q) place = Ok b -> b = meets q place.
Proof.
  unfold rating_at_least, meets, rating_or_zero.
  destruct (py_get place "rating" (VInt 0)) as [rating | e]; cbn;
    [ | discriminate].
  unfold py_ge. cbn [as_number].
  destruct (as_number rating) as [r | ] eqn:Hr.
  - intros H. inversion H. reflexivity.
  - destruct rating; cbn; discriminate.
Qed.

Lemma meets_not_below (q : pyfloat) (place : pyval) :
  meets q place = true ->
  exists r, rating_or_zero place = Some r
            /\ float_le q r = true /\ float_lt r q = false.
Proof.
  unfold meets. destruct (rating_or_zero place) as [r | ]; [ | discriminate].
  intros H. exists r. repeat split; [exact H | ].
  unfold float_lt. rewrite H. destruct r, q; reflexivity.
Qed.

(** On places whose rating is a number, or missing, the comprehension
    does not raise: it is the filter by [meets]. *)
Lemma rating_filter_total (q : pyfloat) (candidates : list pyval) :
  Forall (fun place => exists r, rating_or_zero place = Some r) candidates ->
  filter_result (rating_at_least (VFloat q)) candidates
  = Ok (filter (meets q) candidates).
Proof.
  induction 1 as [ | place candidates (r & Hr) _ IH]; [reflexivity | ].
  cbn [filter_result filter]. rewrite IH.
  unfold rating_at_least, meets. unfold rating_or_zero in Hr |- *.
  destruct (py_get place "rating" (VInt 0)) as [rating | ]; [ | discriminate].
  cbn [rbind]. unfold py_ge. rewrite Hr. reflexivity.
Qed.

(** A place without a rating field is compared as if rated 0. *)
Lemma unrated_counts_as_zero (place : pydict) (q : pyfloat) :
  dict_get place "rating" = None ->
  rating_or_zero (VDict place) = Some (float_of_Z 0)
  /\ meets q (VDict place) = float_le q (float_of_Z 0).
Proof.
  intros H. unfold meets, rating_or_zero. cbn [py_get]. rewrite H.
  split; reflexivity.
Qed.

(** What a successful [search_nearby_places] did: one request, then the
    provider's [results], filtered when [minRating] is truthy. *)
Lemma search_nearby_places_ok self params log v log' :
  search_nearby_places self params log = (Ok v, log') ->
  exists args response places supplied,
    log' = (log ++ [(places_nearby_ep, args)])%list
    /\ client self places_nearby_ep args = Ok response
    /\ py_get response "results" (VList []) = Ok places
    /\ py_get params "minRating" VNone = Ok supplied
    /\ (truthy supplied = false -> v = places)
    /\ (truthy supplied = true ->
        exists min_rating candidates kept,
          getitem params "minRating" = Ok min_rating
          /\ py_iter places = Ok candidates
          /\ filter_result (rating_at_least min_rating) candidates = Ok kept
          /\ v = VList kept).
Proof.
  unfold search_nearby_places, try_except, bind, request, lift, raise, ret.
  repeat (case_inner; cbn beta iota; try discriminate).
  all: intros H; inversion H; subst.
  all: do 4 eexists.
  all: split; [reflexivity | ].
  all: split; [eassumption | ].
  all: split; [eassumption | ].
  all: split; [reflexivity | ].
  all: split; [intros Hfalse; first [reflexivity | congruence] | ].
  all: intros Htrue; try congruence.
  all: do 3 eexists; repeat split; first [eassumption | reflexivity].
Qed.

Lemma filter_all {A} (g : A -> bool) (l : list A) :
  Forall (fun x => g x = true) l -> filter g l = l.
Proof.
  induction 1 as [ | x l Hx _ IH]; cbn; [reflexivity | ].
  rewrite Hx, IH. reflexivity.
Qed.

(** A threshold that counts as not supplied is 0, which every rating of
    the provider meets. *)
Lemma rated_meets_zero (q : pyfloat) (place : pyval) :
  float_truthy q = false -> rated place -> meets q place = true.
Proof.
  intros Hq (r & Hr & Hle). unfold meets. rewrite Hr.
  destruct q as [q | | ]; cbn in Hq; try discriminate Hq.
  apply negb_false_iff in Hq. apply Qeq_bool_iff in Hq.
  destruct r as [r | [ | ] | ]; cbn in Hle |- *; try discriminate Hle;
    [ | reflexivity].
  apply Qle_bool_iff in Hle. apply Qle_bool_iff.
  rewrite Hq. exact Hle.
Qed.

(** C3. For every answer of the provider to a nearby search and every
    supplied [minRating], the list returned is the provider's list
    filtered to the places whose rating is at least [minRating], so it
    holds no place whose rating is below it; a place whose rating field is
    missing is compared as rated 0, and so it is left out whenever
    [minRating] is above 0.  When [minRating] is not supplied, the
    provider's list is returned as it is.  The places are the provider's:
    a list of places whose rating, when there is one, is not negative. *)
Theorem nearby_min_rating_filter :
  forall self (params args : pydict) (log : list call)
         (response : pyval) (candidates : list pyval),
    snd (search_nearby_places self (VDict params) log)
    = (log ++ [(places_nearby_ep, args)])%list ->
    client self places_nearby_ep args = Ok response ->
    py_get response "results" (VList []) = Ok (VList candidates) ->
    Forall rated candidates ->
    (forall q,
        dict_get params "minRating" = Some (VFloat q) ->
        fst (search_nearby_places self (VDict params) log)
        = Ok (VList (filter (meets q) candidates))
        /\ Forall (fun place =>
                     exists r, rating_or_zero place = Some r
                               /\ float_le q r = true
                               /\ float_lt r q = false)
                  (filter (meets q) candidates)
        /\ (forall place,
               dict_get place "rating" = None ->
               float_lt (float_of_Z 0) q = true ->
               ~ In (VDict place) (filter (meets q) candidates)))
    /\ (dict_get params "minRating" = None
        \/ dict_get params "minRating" = Some VNone ->
        fst (search_nearby_places self (VDict params) log)
        = Ok (VList candidates)).
Proof.
  intros self params args log response candidates
    Hsent Hclient Hresults Hrated.
  assert (fst (search_nearby_places self (VDict params) log)
          = match dict_get params "minRating" with
            | Some min_rating =>
                if truthy min_rating
                then match filter_result (rating_at_least min_rating)
                             candidates with
                     | Ok kept => Ok (VList kept)
                     | Err e =>
                         Err (exception_from ValueError
                                (fstr "Error searching nearby places: "
                                   (exc_str e)) e)
                     end
                else Ok (VList candidates)
            | None => Ok (VList candidates)
            end) as Hrun.
  { revert Hsent Hclient Hresults.
    unfold search_nearby_places, try_except, bind, request, lift, raise, ret.
    cbn [getitem py_get].
    repeat (case_inner; cbn beta iota); cbn [fst snd]; intros Hsent.
    all: try (exfalso; apply (not_sent_yet _ _ Hsent)).
    all: apply app_inv_head in Hsent; inversion Hsent; subst args;
      clear Hsent.
    all: intros Hclient Hresults.
    all: match goal with
         | E : client _ _ _ = _ |- _ =>
             tryif constr_eq E Hclient then fail
             else (pose proof (eq_trans (eq_sym E) Hclient) as Hsame;
                   inversion Hsame; subst)
         end.
    all: try match goal with
             | E : py_get _ "results" _ = _ |- _ =>
                 tryif constr_eq E Hresults then fail
                 else (pose proof (eq_trans (eq_sym E) Hresults) as Hplaces;
                       inversion Hplaces; subst)
             end.
    all: repeat match goal with
                | E : py_iter (VList _) = _ |- _ =>
                    cbn [py_iter] in E; inversion E; subst; clear E
                | E : Ok _ = Ok _ |- _ => inversion E; subst; clear E
                end.
    all: repeat match goal with
                | E : filter_result _ _ = _ |- _ => rewrite E
                | E : truthy _ = _ |- _ => rewrite E
                end.
    all: try match goal with
             | E : truthy VNone = true |- _ => discriminate E
             end.
    all: try reflexivity.
    all: congruence. }
  split.
  - intros q Hq. rewrite Hq in Hrun.
    assert (fst (search_nearby_places self (VDict params) log)
            = Ok (VList (filter (meets q) candidates))) as Hfiltered.
    { rewrite Hrun. destruct (truthy (VFloat q)) eqn:Htruthy.
      - rewrite (rating_filter_total q candidates); [reflexivity | ].
        apply Forall_forall. intros place Hin.
        destruct (proj1 (Forall_forall _ _) Hrated place Hin) as (r & Hr & _).
        exists r. exact Hr.
      - f_equal. f_equal. symmetry. apply filter_all.
        apply Forall_forall. intros place Hin.
        apply rated_meets_zero; [exact Htruthy | ].
        apply (proj1 (Forall_forall _ _) Hrated). exact Hin. }
    split; [exact Hfiltered | ]. split.
    + apply Forall_forall. intros place Hin.
      apply filter_In in Hin. apply meets_not_below. apply Hin.
    + intros place Hnone Habove Hin.
      apply filter_In in Hin. destruct Hin as [_ Hmeets].
      rewrite (proj2 (unrated_counts_as_zero place q Hnone)) in Hmeets.
      unfold float_lt in Habove. rewrite Hmeets in Habove.
      destruct q; discriminate Habove.
  - intros [Hnone | Hnone]; rewrite Hnone in Hrun; exact Hrun.
Qed.

(** With the threshold 4.5 only the place rated 4.7 is returned: the
    places rated 1.2 and 3 are dropped, and so is the unrated one.  With
    the threshold 0 the four places are returned. *)
Lemma nearby_min_rating_filter_witness :
  let location := VDict [("lat", VInt 1); ("lng", VInt 2)] in
  let candidates := [place_low; place_unrated; place_good; place_fair] in
  fst (search_nearby_places tools_example
         (VDict [("location", location);
                 ("minRating", VFloat (FNum (Qmake 45 10)))]) [])
  = Ok (VList [place_good])
  /\ ~ In place_unrated (filter (meets (FNum (Qmake 45 10))) candidates)
  /\ fst (search_nearby_places tools_example
            (VDict [("location", location);
                    ("minRating", VFloat (FNum (inject_Z 0)))]) [])
     = Ok (VList candidates)
  /\ fst (search_nearby_places tools_example
            (VDict [("location", location)]) [])
     = Ok (VList candidates).
Proof.
  intros location candidates.
  assert (Forall rated candidates) as Hrated
    by (repeat constructor; eexists; split; reflexivity).
  pose (args := [("location", VTuple [VInt 1; VInt 2]);
                 ("radius", VInt 1000);
                 ("language", VStr "zh-TW")]).
  pose (response := VDict [("results", VList candidates)]).
  split; [ | split; [ | split]].
  - apply (proj1 (nearby_min_rating_filter tools_example
                    [("location", location);
                     ("minRating", VFloat (FNum (Qmake 45 10)))]
                    args [] response candidates
                    eq_refl eq_refl eq_refl Hrated)
             (FNum (Qmake 45 10)) eq_refl).
  - apply (proj1 (nearby_min_rating_filter tools_example
                    [("location", location);
                     ("minRating", VFloat (FNum (Qmake 45 10)))]
                    args [] response candidates
                    eq_refl eq_refl eq_refl Hrated)
             (FNum (Qmake 45 10)) eq_refl); reflexivity.
  - apply (proj1 (nearby_min_rating_filter tools_example
                    [("location", location);
                     ("minRating", VFloat (FNum (inject_Z 0)))]
                    args [] response candidates
                    eq_refl eq_refl eq_refl Hrated)
             (FNum (inject_Z 0)) eq_refl).
  - apply (proj2 (nearby_min_rating_filter tools_example
                    [("location", location)]
                    args [] response candidates
                    eq_refl eq_refl eq_refl Hrated)).
    left. reflexivity.
Defined.

(** ** Empty result sets *)

(** C4. When the provider answers a geocode or a reverse-geocode request
    with an empty result set, the operation fails with the [ValueError]
    that says nothing was found, and never succeeds; when it answers the
    request of a nearby search with an empty result set, the operation
    succeeds with the empty list. *)
Theorem empty_result_sets :
  forall self,
    (forall address response log,
        client self geocode_ep
          [("address", address); ("language", VStr (default_language self))]
        = Ok response ->
        truthy response = false ->
        fst (geocode_address self address log)
        = Err (exception_from ValueError
                 [Lit "Error geocoding address: Address not found"]
                 (exception ValueError [Lit "Address not found"]))
        /\ exists cause,
             fst (geocode self address log)
             = Err (exception_from ValueError
                      [Lit "Error geocoding: Error geocoding address: Address not found"]
                      cause))
    /\ (forall latitude longitude response log,
           client self reverse_geocode_ep
             [("latlng", VTuple [latitude; longitude]);
              ("language", VStr (default_language self))]
           = Ok response ->
           truthy response = false ->
           fst (reverse_geocode self latitude longitude log)
           = Err (exception_from ValueError
                    [Lit "Error reverse geocoding: No address found for coordinates"]
                    (exception ValueError
                       [Lit "No address found for coordinates"])))
    /\ (forall params args response log,
           snd (search_nearby_places self params log)
           = (log ++ [(places_nearby_ep, args)])%list ->
           client self places_nearby_ep args = Ok response ->
           py_get response "results" (VList []) = Ok (VList []) ->
           fst (search_nearby_places self params log) = Ok (VList [])).
Proof.
  intros self. split; [ | split].
  - intros address response log Hclient Hempty.
    assert (fst (geocode_address self address log)
            = Err (exception_from ValueError
                     [Lit "Error geocoding address: Address not found"]
                     (exception ValueError [Lit "Address not found"]))) as Ha.
    { unfold geocode_address, try_except, bind, request, raise.
      rewrite Hclient, Hempty. reflexivity. }
    split; [exact Ha | ].
    unfold geocode, try_except, bind, raise.
    destruct (geocode_address self address log) as [r l]. cbn [fst] in Ha.
    subst r. eexists. reflexivity.
  - intros latitude longitude response log Hclient Hempty.
    unfold reverse_geocode, try_except, bind, request, raise.
    rewrite Hclient, Hempty. reflexivity.
  - intros params args response log Hsent Hclient Hres.
    revert Hsent.
    unfold search_nearby_places, try_except, bind, request, lift, raise, ret.
    destruct params; cbn [getitem py_get not_subscriptable];
      repeat (case_inner; cbn beta iota); cbn [fst snd]; intros Hsent.
    all: try (exfalso; apply (not_sent_yet _ _ Hsent)).
    all: apply app_inv_head in Hsent; inversion Hsent; subst args.
    all: repeat match goal with
                | E : (_, _) = (_, _) |- _ => inversion E; subst; clear E
                end.
    all: match goal with
         | E : client _ _ _ = _ |- _ =>
             tryif constr_eq E Hclient then fail
             else (pose proof (eq_trans (eq_sym E) Hclient) as Hr;
                   inversion Hr; subst; clear E Hr)
         end.
    all: repeat (cbn [py_iter filter_result rbind] in *;
                 match goal with
                 | E : Ok _ = Ok _ |- _ => inversion E; subst; clear E
                 | E : Ok _ = Err _ |- _ => discriminate E
                 | E : truthy VNone = true |- _ => discriminate E
                 | E : py_get _ "results" _ = _ |- _ =>
                     rewrite Hres in E
                 end).
    all: reflexivity.
Qed.

(** The provider with nothing to report: geocoding "Atlantis" and reverse
    geocoding a point fail as not found, the nearby search succeeds with
    no place. *)
Lemma empty_result_sets_witness :
  (fst (geocode_address tools_empty (VStr "Atlantis") [])
   = Err (exception_from ValueError
            [Lit "Error geocoding address: Address not found"]
            (exception ValueError [Lit "Address not found"]))
   /\ exists cause,
        fst (geocode tools_empty (VStr "Atlantis") [])
        = Err (exception_from ValueError
                 [Lit "Error geocoding: Error geocoding address: Address not found"]
                 cause))
  /\ fst (reverse_geocode tools_empty (VInt 0) (VInt 0) [])
     = Err (exception_from ValueError
              [Lit "Error reverse geocoding: No address found for coordinates"]
              (exception ValueError [Lit "No address found for coordinates"]))
  /\ fst (search_nearby_places tools_empty
            (VDict [("location", VDict [("lat", VInt 1); ("lng", VInt 2)]);
                    ("minRating", VFloat (FNum (Qmake 45 10)))]) [])
     = Ok (VList []).
Proof.
  destruct (empty_result_sets tools_empty) as (Hgeo & Hrev & Hnear).
  split; [ | split].
  - apply (Hgeo (VStr "Atlantis") (VList []) []); reflexivity.
  - apply (Hrev (VInt 0) (VInt 0) (VList []) []); reflexivity.
  - apply (Hnear
             (VDict [("location", VDict [("lat", VInt 1); ("lng", VInt 2)]);
                     ("minRating", VFloat (FNum (Qmake 45 10)))])
             [("location", VTuple [VInt 1; VInt 2]);
              ("radius", VInt 1000);
              ("language", VStr "zh-TW")]
             (VDict [("results", VList []); ("status", VStr "ZERO_RESULTS")])
             []); reflexivity.
Defined.

(** ** Place details without a result *)

(** C10. When the provider's place-detail response has no [result] field,
    the adapter operation succeeds with the empty dictionary, in which
    every field is absent; the tool then succeeds too, and answers the
    requested place id, [None] for every scalar field and an empty list for
    every list field.  Neither fails. *)
Theorem place_details_without_result :
  forall self (placeId : string) (response : pydict) (log : list call),
    client self place_ep (snd (place_request self (VStr placeId)))
    = Ok (VDict response) ->
    dict_get response "result" = None ->
    maps_tools.get_place_details self (VStr placeId) log
    = (Ok (VDict []), (log ++ [place_request self (VStr placeId)])%list)
    /\ server.get_place_details (Some self) placeId log
       = (Ok (empty_details placeId),
          (log ++ [place_request self (VStr placeId)])%list).
Proof.
  intros self placeId response log Hclient Hnone.
  assert (maps_tools.get_place_details self (VStr placeId) log
          = (Ok (VDict []), (log ++ [place_request self (VStr placeId)])%list))
    as Hadapter.
  { unfold maps_tools.get_place_details, try_except, bind, request, lift.
    cbn [place_request snd] in Hclient. rewrite Hclient.
    cbn [py_get]. rewrite Hnone. reflexivity. }
  split; [exact Hadapter | ].
  unfold server.get_place_details, try_except, bind.
  rewrite Hadapter. reflexivity.
Qed.

Lemma place_details_without_result_witness :
  maps_tools.get_place_details tools_example (VStr "ChIJ") []
  = (Ok (VDict []), [place_request tools_example (VStr "ChIJ")])
  /\ server.get_place_details (Some tools_example) "ChIJ" []
     = (Ok (empty_details "ChIJ"), [place_request tools_example (VStr "ChIJ")]).
Proof.
  apply (place_details_without_result tools_example "ChIJ"
           [("status", VStr "OK")] []); reflexivity.
Defined.

(** ** The distance matrix *)

Lemma Forall2_impl {A B} (P Q : A -> B -> Prop) (l : list A) (l' : list B) :
  (forall x y, P x y -> Q x y) -> Forall2 P l l' -> Forall2 Q l l'.
Proof.
  intros HPQ H. induction H; constructor; auto.
Qed.

Lemma map_result_relation {A B} (f : A -> result B) (R : A -> B -> Prop)
    (l : list A) (ys : list B) :
  (forall x y, f x = Ok y <-> R x y) ->
  map_result f l = Ok ys <-> Forall2 R l ys.
Proof.
  intros HR. rewrite map_result_Forall2.
  split; apply Forall2_impl; intros x y; apply HR.
Qed.

Lemma matrix_cells_cell_of (element : pyval) (cells : pyval * pyval) :
  matrix_cells element = Ok cells <-> cell_of element cells.
Proof.
  unfold matrix_cells, cell_of. split.
  - destruct (getitem element "status") as [status | e]; cbn;
      [ | discriminate].
    intros H. exists status. split; [reflexivity | ].
    destruct (is_str "OK" status).
    + left. split; [reflexivity | ].
      destruct (getitem2 element "distance" "value") as [dv | ]; cbn in H;
        [ | discriminate].
      destruct (getitem2 element "distance" "text") as [dt | ]; cbn in H;
        [ | discriminate].
      destruct (getitem2 element "duration" "value") as [uv | ]; cbn in H;
        [ | discriminate].
      destruct (getitem2 element "duration" "text") as [ut | ]; cbn in H;
        [ | discriminate].
      inversion H; subst. exists dv, dt, uv, ut. repeat split.
    + right. inversion H. split; reflexivity.
  - intros (status & Hs & [(Hok & dv & dt & uv & ut
                            & Hdv & Hdt & Huv & Hut & ->)
                          | (Hno & ->)]);
      rewrite Hs; cbn [rbind].
    + rewrite Hok, Hdv. cbn [rbind]. rewrite Hdt. cbn [rbind].
      rewrite Huv. cbn [rbind]. rewrite Hut. reflexivity.
    + rewrite Hno. reflexivity.
Qed.

Lemma matrix_row_row_of (row : pyval) (rows : pyval * pyval) :
  matrix_row row = Ok rows <-> row_of row rows.
Proof.
  unfold matrix_row, row_of. split.
  - destruct (getitem row "elements") as [elements | e]; cbn;
      [ | discriminate].
    destruct (py_iter elements) as [es | e]; cbn; [ | discriminate].
    destruct (map_result matrix_cells es) as [cells | e] eqn:Hcells; cbn;
      [ | discriminate].
    intros H. inversion H; subst. exists es, cells. repeat split.
    apply (map_result_relation _ _ _ _ matrix_cells_cell_of). exact Hcells.
  - intros (es & cells & Hes & Hcells & ->).
    apply (map_result_relation _ _ _ _ matrix_cells_cell_of) in Hcells.
    destruct (getitem row "elements") as [elements | e]; cbn in Hes |- *;
      [ | discriminate].
    rewrite Hes. cbn. rewrite Hcells. reflexivity.
Qed.

(** Each output row is as wide as the provider's row it was made from. *)
Lemma row_of_width (row : pyval) (rows : pyval * pyval) (m : nat) :
  row_of row rows -> row_width m row ->
  (exists cells, fst rows = VList cells /\ List.length cells = m)
  /\ (exists cells, snd rows = VList cells /\ List.length cells = m).
Proof.
  intros (elements & cells & Hel & Hcells & ->) (elements' & Hel' & Hm).
  rewrite Hel in Hel'. inversion Hel'; subst elements'.
  apply Forall2_length in Hcells.
  split; eexists; (split; [reflexivity | ]);
    rewrite length_map; congruence.
Qed.

Lemma rows_widths (rows : list pyval) (out : list (pyval * pyval)) (m : nat) :
  Forall2 row_of rows out ->
  Forall (row_width m) rows ->
  Forall (fun r => exists cells,
              fst r = VList cells /\ List.length cells = m) out
  /\ Forall (fun r => exists cells,
                 snd r = VList cells /\ List.length cells = m) out.
Proof.
  intros Hrows. induction Hrows as [ | row r rows out Hrow Hrows IH];
    intros Hwidth.
  - split; constructor.
  - inversion Hwidth as [ | ? ? Hw Hws]; subst.
    destruct (row_of_width row r m Hrow Hw) as [H1 H2].
    destruct (IH Hws) as [IH1 IH2].
    split; constructor; assumption.
Qed.

Lemma rows_dimensions (rows : list pyval) (out : list (pyval * pyval))
    (n m : nat) :
  Forall2 row_of rows out ->
  List.length rows = n ->
  Forall (row_width m) rows ->
  has_dimensions n m (VList (map fst out))
  /\ has_dimensions n m (VList (map snd out)).
Proof.
  intros Hrows Hn Hwidth.
  destruct (rows_widths rows out m Hrows Hwidth) as [Hfst Hsnd].
  apply Forall2_length in Hrows.
  split; (eexists; split; [reflexivity | ]; split;
          [rewrite length_map; congruence | ]).
  - apply Forall_map. exact Hfst.
  - apply Forall_map. exact Hsnd.
Qed.

(** When [calculate_distance_matrix] succeeds, and with what. *)
Lemma calculate_distance_matrix_ok self origins destinations mode log v log' :
  calculate_distance_matrix self origins destinations mode log = (Ok v, log')
  <-> exists response rows out origin_addresses destination_addresses,
        log' = (log ++ [matrix_request self origins destinations mode])%list
        /\ client self distance_matrix_ep
             (snd (matrix_request self origins destinations mode))
           = Ok response
        /\ getitem response "status" = Ok (VStr "OK")
        /\ rbind (getitem response "rows") py_iter = Ok rows
        /\ map_result matrix_row rows = Ok out
        /\ getitem response "origin_addresses" = Ok origin_addresses
        /\ getitem response "destination_addresses" = Ok destination_addresses
        /\ v = VDict [("distances", VList (map fst out));
                      ("durations", VList (map snd out));
                      ("origin_addresses", origin_addresses);
                      ("destination_addresses", destination_addresses)].
Proof.
  unfold calculate_distance_matrix, try_except, bind, request, lift, raise, ret.
  cbn [matrix_request snd]. split.
  - repeat (case_inner; cbn beta iota; try discriminate).
    intros H; inversion H; subst. clear H.
    match goal with
    | E : negb (is_str "OK" ?status) = false |- _ =>
        apply negb_false_iff in E; destruct status; try discriminate E;
        cbn [is_str] in E; apply String.eqb_eq in E; subst
    end.
    match goal with
    | E1 : getitem ?a "rows" = Ok _, E2 : py_iter _ = Ok ?rows,
      E3 : map_result _ _ = Ok ?out,
      E4 : getitem _ "origin_addresses" = Ok ?oa,
      E5 : getitem _ "destination_addresses" = Ok ?da |- _ =>
        exists a, rows, out, oa, da; rewrite E1; cbn [rbind]
    end.
    repeat split; assumption.
  - intros (response & rows & out & oa & da
            & -> & Hclient & Hstatus & Hrows & Hout & Hoa & Hda & ->).
    rewrite Hclient. cbn beta iota. rewrite Hstatus. cbn beta iota.
    change (negb (is_str "OK" (VStr "OK"))) with false. cbn beta iota.
    destruct (getitem response "rows") as [r | e]; cbn [rbind] in Hrows;
      [ | discriminate].
    rewrite Hrows. cbn beta iota. rewrite Hout. cbn beta iota.
    rewrite Hoa, Hda. reflexivity.
Qed.

(** C6. For a distance-matrix call to which the provider answers with a
    matrix for the request, one row per origin and one element per
    destination: the call succeeds exactly when the top-level status is OK
    and the cells can be read, and then the distances and durations arrays
    both have the dimensions len(origins) x len(destinations), however
    many cells the provider marks as failed.  A cell is the {value, text}
    pair of the element in both arrays when the element's status is OK,
    and [None] in both arrays otherwise.  A top-level status other than OK
    fails the whole call. *)
Theorem distance_matrix_dimensions :
  forall self (origins destinations : list pyval) (mode : pyval)
         (log : list call),
    (forall response rows v log',
        client self distance_matrix_ep
          (snd (matrix_request self (VList origins) (VList destinations)
                  mode))
        = Ok response ->
        matrix_of (List.length origins) (List.length destinations)
          response rows ->
        (calculate_distance_matrix self (VList origins) (VList destinations)
           mode log = (Ok v, log')
         <-> exists out origin_addresses destination_addresses,
               log' = (log ++ [matrix_request self (VList origins)
                                 (VList destinations) mode])%list
               /\ getitem response "status" = Ok (VStr "OK")
               /\ Forall2 row_of rows out
               /\ getitem response "origin_addresses" = Ok origin_addresses
               /\ getitem response "destination_addresses"
                  = Ok destination_addresses
               /\ v = VDict [("distances", VList (map fst out));
                             ("durations", VList (map snd out));
                             ("origin_addresses", origin_addresses);
                             ("destination_addresses",
                              destination_addresses)]
               /\ has_dimensions (List.length origins)
                    (List.length destinations) (VList (map fst out))
               /\ has_dimensions (List.length origins)
                    (List.length destinations) (VList (map snd out))))
    /\ (forall response status,
           client self distance_matrix_ep
             (snd (matrix_request self (VList origins) (VList destinations)
                     mode))
           = Ok response ->
           getitem response "status" = Ok status ->
           is_str "OK" status = false ->
           fst (calculate_distance_matrix self (VList origins)
                  (VList destinations) mode log)
           = Err (exception_from ValueError
                    (fstr "Error calculating distance matrix: "
                       (fstr "Distance matrix calculation failed: "
                          (py_str status)))
                    (exception ValueError
                       (fstr "Distance matrix calculation failed: "
                          (py_str status))))).
Proof.
  intros self origins destinations mode log. split.
  - intros response rows v log' Hclient (Hrows & Hn & Hm).
    rewrite calculate_distance_matrix_ok. split.
    + intros (response' & rows' & out & oa & da
              & Hlog & Hclient' & Hstatus & Hrows' & Hout & Hoa & Hda & Hv).
      rewrite Hclient in Hclient'. inversion Hclient'; subst response'.
      rewrite Hrows in Hrows'. inversion Hrows'; subst rows'.
      apply (map_result_relation _ _ _ _ matrix_row_row_of) in Hout.
      exists out, oa, da.
      repeat (split; [assumption | ]).
      apply (rows_dimensions rows out _ _ Hout Hn Hm).
    + intros (out & oa & da
              & Hlog & Hstatus & Hout & Hoa & Hda & Hv & _).
      apply (map_result_relation _ _ _ _ matrix_row_row_of) in Hout.
      exists response, rows, out, oa, da.
      repeat (split; [assumption | ]). exact Hv.
  - intros response status Hclient Hstatus Hnot.
    unfold calculate_distance_matrix, try_except, bind, request, lift, raise.
    cbn [matrix_request snd] in Hclient. rewrite Hclient.
    cbn beta iota. rewrite !Hstatus. cbn beta iota. rewrite Hnot.
    reflexivity.
Qed.

(** One origin, two destinations, the second unreachable: both arrays are
    1 x 2 and the failed cell is [None] in both.  And a REQUEST_DENIED
    answer fails the call. *)
Lemma distance_matrix_dimensions_witness :
  let origins := [VStr "Eindhoven"] in
  let destinations := [VStr "Utrecht"; VStr "Atlantis"] in
  let distances :=
    VList [VList [VDict [("value", VInt 1200); ("text", VStr "1.2 km")];
                  VNone]] in
  let durations :=
    VList [VList [VDict [("value", VInt 300); ("text", VStr "5 mins")];
                  VNone]] in
  let v :=
    VDict [("distances", distances);
           ("durations", durations);
           ("origin_addresses", VList [VStr "A"]);
           ("destination_addresses", VList [VStr "B"; VStr "C"])] in
  let log' :=
    [matrix_request tools_example (VList origins) (VList destinations)
       (VStr "driving")] in
  calculate_distance_matrix tools_example (VList origins)
    (VList destinations) (VStr "driving") [] = (Ok v, log')
  /\ has_dimensions 1 2 distances
  /\ has_dimensions 1 2 durations
  /\ fst (calculate_distance_matrix tools_denied (VList origins)
            (VList destinations) (VStr "driving") [])
     = Err (exception_from ValueError
              [Lit "Error calculating distance matrix: Distance matrix calculation failed: REQUEST_DENIED"]
              (exception ValueError
                 [Lit "Distance matrix calculation failed: REQUEST_DENIED"])).
Proof.
  intros origins destinations distances durations v log'.
  assert (matrix_of 1 2
            (VDict [("status", VStr "OK");
                    ("rows",
                     VList [VDict [("elements",
                                    VList [element_ok; element_failed])]]);
                    ("origin_addresses", VList [VStr "A"]);
                    ("destination_addresses", VList [VStr "B"; VStr "C"])])
            [VDict [("elements", VList [element_ok; element_failed])]])
    as Hmatrix.
  { split; [reflexivity | ]. split; [reflexivity | ].
    constructor; [ | constructor]. eexists. split; reflexivity. }
  destruct (proj1 (proj1 (distance_matrix_dimensions tools_example origins
                            destinations (VStr "driving") [])
                     _ _ v log' eq_refl Hmatrix) eq_refl)
    as (out & oa & da & _ & _ & _ & _ & _ & Hv & Hdistances & Hdurations).
  inversion Hv as [[Hfst Hsnd Hoa Hda]].
  rewrite <- Hfst in Hdistances. rewrite <- Hsnd in Hdurations.
  split; [reflexivity | ]. split; [exact Hdistances | ].
  split; [exact Hdurations | ].
  apply (proj2 (distance_matrix_dimensions tools_denied origins destinations
                  (VStr "driving") [])
           (VDict [("status", VStr "REQUEST_DENIED");
                   ("rows", VList []);
                   ("results", VList [])])
           (VStr "REQUEST_DENIED")); reflexivity.
Defined.

(** ** Elevation *)

Lemma formatted_location_point_of (loc point : pyval) :
  formatted_location loc = Ok point <-> point_of loc point.
Proof.
  unfold formatted_location, point_of. split.
  - destruct (getitem loc "latitude") as [latitude | ]; cbn;
      [ | discriminate].
    destruct (getitem loc "longitude") as [longitude | ]; cbn;
      [ | discriminate].
    intros H. inversion H. exists latitude, longitude. repeat split.
  - intros (latitude & longitude & Hlat & Hlng & ->).
    rewrite Hlat. cbn [rbind]. rewrite Hlng. reflexivity.
Qed.

Lemma elevation_sample_sample_of (item sample : pyval) :
  elevation_sample item = Ok sample <-> sample_of item sample.
Proof.
  unfold elevation_sample, sample_of. split.
  - destruct (getitem item "elevation") as [elevation | ]; cbn;
      [ | discriminate].
    destruct (getitem2 item "location" "lat") as [lat | ]; cbn;
      [ | discriminate].
    destruct (getitem2 item "location" "lng") as [lng | ]; cbn;
      [ | discriminate].
    intros H. inversion H. exists elevation, lat, lng. repeat split.
  - intros (elevation & lat & lng & He & Hlat & Hlng & ->).
    rewrite He. cbn [rbind]. rewrite Hlat. cbn [rbind]. rewrite Hlng.
    reflexivity.
Qed.

(** When [get_elevation] succeeds, and with what. *)
Lemma get_elevation_ok self locations log v log' :
  get_elevation self locations log = (Ok v, log')
  <-> exists locs points response items samples,
        py_iter locations = Ok locs
        /\ map_result formatted_location locs = Ok points
        /\ log' = (log ++ [(elevation_ep, [("locations", VList points)])])%list
        /\ client self elevation_ep [("locations", VList points)] = Ok response
        /\ py_iter response = Ok items
        /\ map_result elevation_sample items = Ok samples
        /\ v = VList samples.
Proof.
  unfold get_elevation, try_except, bind, request, lift, raise, ret. split.
  - repeat (case_inner; cbn beta iota; try discriminate).
    intros H; inversion H; subst. clear H.
    do 5 eexists. repeat split; try eassumption; reflexivity.
  - intros (locs & points & response & items & samples
            & Hlocs & Hpoints & -> & Hclient & Hitems & Hsamples & ->).
    rewrite Hlocs. cbn beta iota. rewrite Hpoints. cbn beta iota.
    rewrite Hclient. cbn beta iota. rewrite Hitems. cbn beta iota.
    rewrite Hsamples. reflexivity.
Qed.

Lemma Forall2_compose {A B C D} (P : A -> B -> Prop) (Q : B -> C -> Prop)
    (R : C -> D -> Prop) (la : list A) (lb : list B) (lc : list C)
    (ld : list D) :
  Forall2 P la lb -> Forall2 Q lb lc -> Forall2 R lc ld ->
  Forall2 (fun a d => exists b c, P a b /\ Q b c /\ R c d) la ld.
Proof.
  intros HP. revert lc ld.
  induction HP as [ | a b la lb Hab _ IH]; intros lc ld HQ HR.
  - inversion HQ; subst. inversion HR; subst. constructor.
  - inversion HQ as [ | b' c lb' lc' Hbc HQ']; subst.
    inversion HR as [ | c' d lc'' ld' Hcd HR']; subst.
    constructor.
    + exists b, c. repeat split; assumption.
    + apply (IH lc' ld' HQ' HR').
Qed.

(** C9. For every list of requested points to which the provider answers
    as asked, with one item per point, in the order of the request: the
    elevation operation succeeds exactly when the items can be read, it
    has then asked once, for the requested points in the order of the
    input list, and it returns exactly one ElevationSample ({elevation,
    location}) per requested point, in the order of the input list: the
    sample at a place of the result is made from the item that answers
    the point at that place of the input.  What it means that an item
    answers a point is left to the provider. *)
Theorem elevation_one_sample_per_point :
  forall (answers : pyval -> pyval -> Prop) self
         (locations points : list pyval) (log : list call)
         (response : pyval) (items : list pyval),
    Forall2 point_of locations points ->
    client self elevation_ep [("locations", VList points)] = Ok response ->
    py_iter response = Ok items ->
    Forall2 answers points items ->
    forall v log',
      get_elevation self (VList locations) log = (Ok v, log')
      <-> exists samples,
            log'
            = (log ++ [(elevation_ep, [("locations", VList points)])])%list
            /\ v = VList samples
            /\ Forall2 sample_of items samples
            /\ List.length samples = List.length locations
            /\ Forall2 (fun loc sample =>
                          exists point item,
                            point_of loc point
                            /\ answers point item
                            /\ sample_of item sample)
                 locations samples.
Proof.
  intros answers self locations points log response items
    Hpoints Hclient Hitems Hanswers v log'.
  rewrite get_elevation_ok. split.
  - intros (locs & points' & response' & items' & samples
            & Hlocs & Hpoints' & Hlog & Hclient' & Hitems' & Hsamples & Hv).
    cbn [py_iter] in Hlocs. inversion Hlocs; subst locs.
    apply (map_result_relation _ _ _ _ formatted_location_point_of)
      in Hpoints.
    rewrite Hpoints in Hpoints'. inversion Hpoints'; subst points'.
    rewrite Hclient in Hclient'. inversion Hclient'; subst response'.
    rewrite Hitems in Hitems'. inversion Hitems'; subst items'.
    apply (map_result_relation _ _ _ _ formatted_location_point_of)
      in Hpoints.
    apply (map_result_relation _ _ _ _ elevation_sample_sample_of)
      in Hsamples.
    exists samples.
    split; [exact Hlog | ]. split; [exact Hv | ].
    split; [exact Hsamples | ]. split.
    + rewrite <- (Forall2_length Hsamples), <- (Forall2_length Hanswers).
      symmetry. apply (Forall2_length Hpoints).
    + apply (Forall2_compose _ _ _ _ _ _ _ Hpoints Hanswers Hsamples).
  - intros (samples & Hlog & Hv & Hsamples & _).
    apply (map_result_relation _ _ _ _ formatted_location_point_of)
      in Hpoints.
    apply (map_result_relation _ _ _ _ elevation_sample_sample_of)
      in Hsamples.
    exists locations, points, response, items, samples.
    repeat (split; [assumption || reflexivity | ]). exact Hv.
Qed.

(** Two requested points, two items answered, each at its point: two
    samples in the order of the points. *)
Lemma elevation_one_sample_per_point_witness :
  let locations :=
    [VDict [("latitude", VInt 1); ("longitude", VInt 2)];
     VDict [("latitude", VInt 3); ("longitude", VInt 4)]] in
  let points := [VTuple [VInt 1; VInt 2]; VTuple [VInt 3; VInt 4]] in
  exists samples,
    get_elevation tools_example (VList locations) []
    = (Ok (VList samples),
       ([] ++ [(elevation_ep, [("locations", VList points)])])%list)
    /\ List.length samples = List.length locations
    /\ Forall2 (fun loc sample =>
                  exists point item,
                    point_of loc point
                    /\ located_at point item
                    /\ sample_of item sample)
         locations samples.
Proof.
  intros locations points.
  pose (items :=
          [VDict [("elevation", VFloat (FNum (Qmake 175 10)));
                  ("location", VDict [("lat", VInt 1); ("lng", VInt 2)])];
           VDict [("elevation", VInt 3);
                  ("location", VDict [("lat", VInt 3); ("lng", VInt 4)])]]).
  assert (Forall2 point_of locations points) as Hpoints.
  { repeat constructor; do 2 eexists; repeat split; reflexivity. }
  assert (Forall2 located_at points items) as Hanswers.
  { repeat constructor; do 2 eexists; repeat split; reflexivity. }
  destruct (proj1 (elevation_one_sample_per_point located_at tools_example
                     locations points [] (VList items) items
                     Hpoints eq_refl eq_refl Hanswers
                     (VList items)
                     ([] ++ [(elevation_ep, [("locations", VList points)])])%list)
              eq_refl)
    as (samples & _ & Hv & _ & Hlength & Hsamples).
  exists samples. inversion Hv; subst samples.
  split; [reflexivity | ]. split; [exact Hlength | exact Hsamples].
Defined.

(** ** Local time and its text *)

Example strftime_short_years :
  map (fun t => strftime (civil t)) [-31000000000; -62135510400]
  = ["987-08-25 16:53:20"; "1-01-02 00:00:00"].
Proof. reflexivity. Qed.

(** The limits of [fromtimestamp] in UTC: the first day of year 1 is
    refused because of the day before it, year 10000 is refused, the [int]
    that holds the year overflows after year 2147485547, and beyond that
    the C library gives up. *)
Example fromtimestamp_limits :
  map (fun t => match fromtimestamp utc (VInt t) with
                | Ok d => inl (strftime d)
                | Err e => inr (exc_cls e, exc_str e)
                end)
    [-62135510401; -62135510400; 253402300799; 253402300800;
     67768036191676799; 67768036191676800; 9223372036854775808]
  = [inr (ValueError,
          [Lit "year "; StrOf (VInt 0); Lit " is out of range"]);
     inl "1-01-02 00:00:00";
     inl "9999-12-31 23:59:59";
     inr (ValueError,
          [Lit "year "; StrOf (VInt 10000); Lit " is out of range"]);
     inr (ValueError,
          [Lit "year "; StrOf (VInt (-2147481749)); Lit " is out of range"]);
     inr (OSError, [Lit "[Errno 75] Value too large for defined data type"]);
     inr (OverflowError,
          [Lit "timestamp out of range for platform time_t"])].
Proof. vm_compute. reflexivity. Qed.

Example seconds_of_text_examples :
  map seconds_of_text
    ["1970-01-01 00:00:00"; "2024-02-29 23:59:59"; "2023-02-29 23:59:59";
     "2024-03-01 24:00:00"; "2024-3-1 08:00:00"]
  = [Some 0; Some 1709251199; None; None; None].
Proof. reflexivity. Qed.

(** The years of a cycle of 400: the days before the year and whether it
    is a leap year, from its place in the cycle. *)
Lemma year_in_cycle (n400 n100 n4 n1 : Z) :
  0 <= n100 <= 3 -> 0 <= n4 <= 24 -> 0 <= n1 <= 3 ->
  let year := n400 * 400 + 1 + n100 * 100 + n4 * 4 + n1 in
  days_before_year year
  = 146097 * n400 + 36524 * n100 + 1461 * n4 + 365 * n1
  /\ is_leap year = (n1 =? 3) && (negb (n4 =? 24) || (n100 =? 3)).
Proof.
  intros H100 H4 H1 year. subst year. split.
  - unfold days_before_year. cbv zeta.
    replace (n400 * 400 + 1 + n100 * 100 + n4 * 4 + n1 - 1)
      with (n400 * 400 + n100 * 100 + n4 * 4 + n1) by lia.
    replace ((n400 * 400 + n100 * 100 + n4 * 4 + n1) / 4)
      with (n400 * 100 + n100 * 25 + n4)
      by (apply Z.div_unique with (r := n1); lia).
    replace ((n400 * 400 + n100 * 100 + n4 * 4 + n1) / 100)
      with (n400 * 4 + n100)
      by (apply Z.div_unique with (r := n4 * 4 + n1); lia).
    replace ((n400 * 400 + n100 * 100 + n4 * 4 + n1) / 400)
      with n400
      by (apply Z.div_unique with (r := n100 * 100 + n4 * 4 + n1); lia).
    lia.
  - unfold is_leap.
    destruct (Z.eqb_spec n1 3); destruct (Z.eqb_spec n4 24);
      destruct (Z.eqb_spec n100 3);
      destruct (Z.eqb_spec
                  ((n400 * 400 + 1 + n100 * 100 + n4 * 4 + n1) mod 4) 0);
      destruct (Z.eqb_spec
                  ((n400 * 400 + 1 + n100 * 100 + n4 * 4 + n1) mod 100) 0);
      destruct (Z.eqb_spec
                  ((n400 * 400 + 1 + n100 * 100 + n4 * 4 + n1) mod 400) 0);
      cbn [andb orb negb]; try reflexivity; exfalso;
      Z.to_euclidean_division_equations; lia.
Qed.

Ltac calendar_tables :=
  cbn [days_before_month days_in_month Z.eqb Z.ltb Z.compare Pos.compare
       Pos.compare_cont Pos.eqb andb orb negb].

Lemma month_and_day_correct (leapyear : bool) (n : Z) :
  0 <= n < 365 ->
  let '(m, d) := month_and_day leapyear n in
  1 <= m <= 12
  /\ 1 <= d <= (if (m =? 2) && leapyear then 29 else days_in_month m)
  /\ days_before_month m + (if (2 <? m) && leapyear then 1 else 0) + d
     = n + 1.
Proof.
  intros Hn. unfold month_and_day.
  rewrite Z.shiftr_div_pow2 by lia. change (2 ^ 5) with 32.
  set (month := (n + 50) / 32).
  assert (32 * month <= n + 50 < 32 * month + 32) as Bm
    by (subst month; pose proof (Z.div_mod (n + 50) 32 ltac:(lia));
        pose proof (Z.mod_pos_bound (n + 50) 32 ltac:(lia)); lia).
  clearbody month.
  assert (month = 1 \/ month = 2 \/ month = 3 \/ month = 4 \/ month = 5
          \/ month = 6 \/ month = 7 \/ month = 8 \/ month = 9 \/ month = 10
          \/ month = 11 \/ month = 12) as Hm by lia.
  destruct leapyear;
    repeat (destruct Hm as [Hm | Hm]); subst month; cbn;
    match goal with
    | |- context [if ?a <? ?b then _ else _] => destruct (Z.ltb_spec a b)
    end;
    calendar_tables; lia.
Qed.

Lemma ord2ymd_steps (ordinal : Z) :
  ord2ymd ordinal
  = let n := ordinal - 1 in
    let n400 := n / 146097 in
    let n := n mod 146097 in
    let n100 := n / 36524 in
    let n := n mod 36524 in
    let n4 := n / 1461 in
    let n := n mod 1461 in
    let n1 := n / 365 in
    let n := n mod 365 in
    let year := n400 * 400 + 1 + n100 * 100 + n4 * 4 + n1 in
    if (n1 =? 4) || (n100 =? 4) then (year - 1, 12, 31)
    else
      let '(m, d) :=
        month_and_day ((n1 =? 3) && (negb (n4 =? 24) || (n100 =? 3))) n in
      (year, m, d).
Proof.
  unfold ord2ymd, month_and_day. cbv zeta.
  destruct ((_ =? 4) || (_ =? 4)); [reflexivity | ].
  match goal with
  | |- context [if ?a <? ?b then _ else _] => destruct (a <? b)
  end; reflexivity.
Qed.

(** [ord2ymd] gives a day of the calendar, and the one whose number is
    the ordinal. *)
Lemma ord2ymd_correct (ordinal : Z) :
  let '(y, m, d) := ord2ymd ordinal in
  1 <= m <= 12
  /\ 1 <= d <= month_length y m
  /\ ymd_to_ord y m d = ordinal
  /\ (1 <= ordinal -> 1 <= y)
  /\ (364878 <= ordinal -> 1000 <= y)
  /\ (ordinal < 364878 -> y < 1000)
  /\ (ordinal <= 3652059 -> y <= 9999).
Proof.
  rewrite ord2ymd_steps. cbv zeta.
  set (n0 := ordinal - 1).
  set (n400 := n0 / 146097). set (r400 := n0 mod 146097).
  set (n100 := r400 / 36524). set (r100 := r400 mod 36524).
  set (n4 := r100 / 1461). set (r4 := r100 mod 1461).
  set (n1 := r4 / 365). set (r1 := r4 mod 365).
  assert (n0 = 146097 * n400 + r400 /\ 0 <= r400 < 146097) as [E400 B400]
    by (subst n400 r400; split;
        [apply Z.div_mod; lia | apply Z.mod_pos_bound; lia]).
  assert (r400 = 36524 * n100 + r100 /\ 0 <= r100 < 36524) as [E100 B100]
    by (subst n100 r100; split;
        [apply Z.div_mod; lia | apply Z.mod_pos_bound; lia]).
  assert (r100 = 1461 * n4 + r4 /\ 0 <= r4 < 1461) as [E4 B4]
    by (subst n4 r4; split;
        [apply Z.div_mod; lia | apply Z.mod_pos_bound; lia]).
  assert (r4 = 365 * n1 + r1 /\ 0 <= r1 < 365) as [E1 B1]
    by (subst n1 r1; split;
        [apply Z.div_mod; lia | apply Z.mod_pos_bound; lia]).
  assert (n0 = ordinal - 1) as En0 by reflexivity.
  clearbody n0 n400 r400 n100 r100 n4 r4 n1 r1.
  assert (0 <= n100 <= 4 /\ 0 <= n4 <= 24 /\ 0 <= n1 <= 4) as (R100 & R4 & R1)
    by lia.
  unfold month_length, ymd_to_ord.
  destruct (Z.eqb_spec n1 4) as [H14 | H14];
    destruct (Z.eqb_spec n100 4) as [H1004 | H1004]; cbn [orb].
  - exfalso. lia.
  - (* the last day of the fourth year of a cycle of four *)
    destruct (year_in_cycle n400 n100 n4 3) as [Hdays Hleap]; try lia.
    cbv zeta in Hdays, Hleap.
    replace (n400 * 400 + 1 + n100 * 100 + n4 * 4 + n1 - 1)
      with (n400 * 400 + 1 + n100 * 100 + n4 * 4 + 3) by lia.
    rewrite Hdays, Hleap.
    replace (n4 =? 24) with false by (symmetry; apply Z.eqb_neq; lia).
    calendar_tables. lia.
  - (* the last day of a cycle of 400 years *)
    destruct (year_in_cycle n400 3 24 3) as [Hdays Hleap]; try lia.
    cbv zeta in Hdays, Hleap.
    replace (n400 * 400 + 1 + n100 * 100 + n4 * 4 + n1 - 1)
      with (n400 * 400 + 1 + 3 * 100 + 24 * 4 + 3) by lia.
    rewrite Hdays, Hleap. calendar_tables. lia.
  - destruct (year_in_cycle n400 n100 n4 n1) as [Hdays Hleap]; try lia.
    cbv zeta in Hdays, Hleap.
    rewrite <- Hleap.
    pose proof (month_and_day_correct
                  (is_leap (n400 * 400 + 1 + n100 * 100 + n4 * 4 + n1))
                  r1 B1) as Hmd.
    destruct (month_and_day _ r1) as [m d].
    destruct Hmd as (Hm & Hd & Hsum).
    rewrite Hdays. repeat split; try lia.
Qed.

(** [civil] gives a day of the calendar and a time of the day, and the ones
    that are [local] seconds after 1970-01-01 00:00:00. *)
Lemma civil_correct (local : Z) :
  let d := civil local in
  1 <= dt_month d <= 12
  /\ 1 <= dt_day d <= month_length (dt_year d) (dt_month d)
  /\ 0 <= dt_hour d < 24
  /\ 0 <= dt_minute d < 60
  /\ 0 <= dt_second d < 60
  /\ (ymd_to_ord (dt_year d) (dt_month d) (dt_day d) - epoch_ordinal) * 86400
     + dt_hour d * 3600 + dt_minute d * 60 + dt_second d
     = local
  /\ (first_local_seconds <= local -> 1 <= dt_year d)
  /\ (min_local_seconds <= local -> 1000 <= dt_year d)
  /\ (local < min_local_seconds -> dt_year d < 1000)
  /\ (local <= last_local_seconds -> dt_year d <= 9999).
Proof.
  unfold civil, first_local_seconds, min_local_seconds, last_local_seconds.
  pose proof (ord2ymd_correct (local / 86400 + epoch_ordinal)) as Hymd.
  destruct (ord2ymd (local / 86400 + epoch_ordinal)) as [[y m] d].
  cbv zeta. cbn [dt_year dt_month dt_day dt_hour dt_minute dt_second].
  destruct Hymd as (Hm & Hd & Hord & Hy1 & Hy1000 & Hy999 & Hy9999).
  rewrite Hord. unfold epoch_ordinal in *.
  repeat split; try lia; Z.to_euclidean_division_equations; lia.
Qed.

Lemma is_digit_digit_char (d : Z) :
  0 <= d <= 9 -> is_digit (digit_char d) = true.
Proof.
  intros Hd.
  assert (d = 0 \/ d = 1 \/ d = 2 \/ d = 3 \/ d = 4 \/ d = 5 \/ d = 6
          \/ d = 7 \/ d = 8 \/ d = 9) as H by lia.
  repeat (destruct H as [H | H]); subst d; reflexivity.
Qed.

Lemma digit_val_digit_char (d : Z) :
  0 <= d <= 9 -> digit_val (digit_char d) = d.
Proof.
  intros Hd.
  assert (d = 0 \/ d = 1 \/ d = 2 \/ d = 3 \/ d = 4 \/ d = 5 \/ d = 6
          \/ d = 7 \/ d = 8 \/ d = 9) as H by lia.
  repeat (destruct H as [H | H]); subst d; reflexivity.
Qed.

Lemma two_digits_pad2 (n : Z) :
  0 <= n <= 99 ->
  two_digits (digit_char (n / 10)) (digit_char (n mod 10)) = n.
Proof.
  intros Hn. unfold two_digits.
  rewrite !digit_val_digit_char by (Z.to_euclidean_division_equations; lia).
  Z.to_euclidean_division_equations; lia.
Qed.

Lemma matches_digit (template s : string) (c : ascii) :
  is_digit c = true -> matches template s = true ->
  matches (String "d" template) (String c s) = true.
Proof.
  intros Hc Hs. cbn [matches]. rewrite Ascii.eqb_refl, Hc, Hs. reflexivity.
Qed.

Lemma year_digits_four (year : Z) :
  1000 <= year -> year_digits year = pad4 year.
Proof.
  intros Hy. unfold year_digits.
  destruct (Z.ltb_spec year 10); [lia | ].
  destruct (Z.ltb_spec year 100); [lia | ].
  destruct (Z.ltb_spec year 1000); [lia | reflexivity].
Qed.

(** The text of a date and time with a year of four digits has the form
    YYYY-MM-DD HH:MM:SS. *)
Lemma strftime_shape (d : datetime) :
  1000 <= dt_year d <= 9999 ->
  0 <= dt_month d <= 99 ->
  0 <= dt_day d <= 99 ->
  0 <= dt_hour d <= 99 ->
  0 <= dt_minute d <= 99 ->
  0 <= dt_second d <= 99 ->
  is_timestamp_text (strftime d) = true.
Proof.
  intros Hy Hm Hd Hh Hmin Hs.
  unfold is_timestamp_text, strftime.
  rewrite year_digits_four by lia. unfold pad4, pad2. cbn [append].
  repeat first
    [ apply matches_digit;
      [ apply is_digit_digit_char; Z.to_euclidean_division_equations; lia | ]
    | reflexivity
    | (cbn [matches]; rewrite Ascii.eqb_refl;
       match goal with |- (if ?b then _ else _) && _ = true =>
         change b with false end; cbn [andb]) ].
Qed.

(** Such a text reads back as the fields it was made from. *)
Lemma fields_of_strftime (d : datetime) :
  1000 <= dt_year d <= 9999 ->
  0 <= dt_month d <= 99 ->
  0 <= dt_day d <= 99 ->
  0 <= dt_hour d <= 99 ->
  0 <= dt_minute d <= 99 ->
  0 <= dt_second d <= 99 ->
  fields_of_text (strftime d)
  = Some (dt_year d, dt_month d, dt_day d,
          dt_hour d, dt_minute d, dt_second d).
Proof.
  intros Hy Hm Hd Hh Hmin Hs. unfold fields_of_text.
  rewrite strftime_shape by assumption.
  unfold strftime. rewrite year_digits_four by lia.
  unfold pad4, pad2. cbn [append list_ascii_of_string].
  rewrite !two_digits_pad2 by (Z.to_euclidean_division_equations; lia).
  replace (two_digits (digit_char (dt_year d / 1000))
             (digit_char (dt_year d / 100 mod 10)))
    with (dt_year d / 100).
  - do 6 f_equal. Z.to_euclidean_division_equations; lia.
  - unfold two_digits.
    rewrite !digit_val_digit_char by (Z.to_euclidean_division_equations; lia).
    Z.to_euclidean_division_equations; lia.
Qed.

(** The text of a local time from year 1000 to year 9999 has the form
    YYYY-MM-DD HH:MM:SS and reads back as that local time. *)
Lemma seconds_of_text_strftime (local : Z) :
  min_local_seconds <= local <= last_local_seconds ->
  is_timestamp_text (strftime (civil local)) = true
  /\ seconds_of_text (strftime (civil local)) = Some local.
Proof.
  intros Hlocal.
  destruct (civil_correct local)
    as (Hm & Hd & Hh & Hmin & Hs & Hback & _ & Hy1000 & _ & Hy9999).
  assert (1000 <= dt_year (civil local) <= 9999) as Hy
    by (split; [apply Hy1000 | apply Hy9999]; lia).
  assert (month_length (dt_year (civil local)) (dt_month (civil local)) <= 31)
    as Hlength.
  { unfold month_length.
    assert (dt_month (civil local) = 1 \/ dt_month (civil local) = 2
            \/ dt_month (civil local) = 3 \/ dt_month (civil local) = 4
            \/ dt_month (civil local) = 5 \/ dt_month (civil local) = 6
            \/ dt_month (civil local) = 7 \/ dt_month (civil local) = 8
            \/ dt_month (civil local) = 9 \/ dt_month (civil local) = 10
            \/ dt_month (civil local) = 11 \/ dt_month (civil local) = 12)
      as H by lia.
    repeat (destruct H as [H | H]); rewrite H;
      destruct (is_leap _); calendar_tables; lia. }
  split; [apply strftime_shape; lia | ].
  unfold seconds_of_text. rewrite fields_of_strftime by lia.
  replace (1 <=? dt_year (civil local)) with true
    by (symmetry; apply Z.leb_le; lia).
  replace (1 <=? dt_month (civil local)) with true
    by (symmetry; apply Z.leb_le; lia).
  replace (dt_month (civil local) <=? 12) with true
    by (symmetry; apply Z.leb_le; lia).
  replace (1 <=? dt_day (civil local)) with true
    by (symmetry; apply Z.leb_le; lia).
  replace (dt_day (civil local)
           <=? month_length (dt_year (civil local)) (dt_month (civil local)))
    with true by (symmetry; apply Z.leb_le; lia).
  replace (dt_hour (civil local) <? 24) with true
    by (symmetry; apply Z.ltb_lt; lia).
  replace (dt_minute (civil local) <? 60) with true
    by (symmetry; apply Z.ltb_lt; lia).
  replace (dt_second (civil local) <? 60) with true
    by (symmetry; apply Z.ltb_lt; lia).
  cbn [andb]. rewrite Hback. reflexivity.
Qed.

Lemma int_wrap_small (z : Z) : -2147483648 <= z <= 2147483647 -> int_wrap z = z.
Proof.
  intros Hz. unfold int_wrap. Z.to_euclidean_division_equations; lia.
Qed.

(** The local time at an instant, when it lies in the years 1..9999. *)
Lemma local_seconds_ok (utcoffset : Z -> Z) (u : Z) :
  first_local_seconds <= u + utcoffset u <= last_local_seconds ->
  local_seconds utcoffset u
  = Ok (u + utcoffset u + epoch_ordinal * 86400)
  /\ localtime utcoffset u = Ok (civil (u + utcoffset u))
  /\ utc_to_seconds (civil (u + utcoffset u))
     = Ok (u + utcoffset u + epoch_ordinal * 86400).
Proof.
  intros Hu.
  destruct (civil_correct (u + utcoffset u))
    as (_ & _ & _ & _ & _ & Hback & Hy1 & _ & _ & Hy9999).
  assert (1 <= dt_year (civil (u + utcoffset u)) <= 9999) as Hy
    by (split; [apply Hy1 | apply Hy9999]; lia).
  assert (localtime utcoffset u = Ok (civil (u + utcoffset u))) as Hlocaltime.
  { unfold localtime, fits_int.
    replace (-2147483648 <=? dt_year (civil (u + utcoffset u)) - 1900)
      with true by (symmetry; apply Z.leb_le; lia).
    replace (dt_year (civil (u + utcoffset u)) - 1900 <=? 2147483647)
      with true by (symmetry; apply Z.leb_le; lia).
    reflexivity. }
  assert (utc_to_seconds (civil (u + utcoffset u))
          = Ok (u + utcoffset u + epoch_ordinal * 86400)) as Hseconds.
  { unfold utc_to_seconds, tm_year_1900. rewrite int_wrap_small by lia.
    replace (dt_year (civil (u + utcoffset u)) <? 1) with false
      by (symmetry; apply Z.ltb_ge; lia).
    replace (9999 <? dt_year (civil (u + utcoffset u))) with false
      by (symmetry; apply Z.ltb_ge; lia).
    cbn [orb]. f_equal. lia. }
  split; [ | split; assumption].
  unfold local_seconds. rewrite Hlocaltime. cbn [rbind]. exact Hseconds.
Qed.

Lemma timestamp_seconds_whole (value : pyval) (t : Z) :
  whole_number value t ->
  -9223372036854775808 <= t <= 9223372036854775807 ->
  timestamp_seconds value = Ok t.
Proof.
  intros [-> | ->] Ht; cbn [timestamp_seconds float_of_Z].
  - unfold fits_time_t.
    replace (-9223372036854775808 <=? t) with true
      by (symmetry; apply Z.leb_le; lia).
    replace (t <=? 9223372036854775807) with true
      by (symmetry; apply Z.leb_le; lia).
    reflexivity.
  - assert (round_half_even (Qmult (inject_Z t) (inject_Z 1000000))
            = t * 1000000) as ->.
    { unfold round_half_even, Qfloor, Qcompare, Qminus, Qplus, Qopp, Qmult,
        inject_Z.
      cbn [Qnum Qden Pos.mul].
      rewrite Z.div_1_r.
      replace (((t * 1000000 * 1 + - (t * 1000000) * 1) * 2 ?= 1 * 1))
        with Lt; [reflexivity | ].
      symmetry. apply Z.compare_lt_iff. lia. }
    rewrite Z.div_mul by lia. unfold fits_time_t.
    replace (-9223372036854775808 <=? t) with true
      by (symmetry; apply Z.leb_le; lia).
    replace (t <=? 9223372036854775807) with true
      by (symmetry; apply Z.leb_le; lia).
    reflexivity.
Qed.

(** [fromtimestamp] of whole epoch seconds whose local time lies between
    0001-01-05 and 9999-12-29. *)
Lemma fromtimestamp_ok (utcoffset : Z -> Z) (value : pyval) (t : Z) :
  zone utcoffset ->
  whole_number value t ->
  early_local_seconds <= t + utcoffset t <= max_local_seconds ->
  fromtimestamp utcoffset value = Ok (civil (t + utcoffset t)).
Proof.
  unfold zone, early_local_seconds, max_local_seconds.
  intros Hzone Hvalue Hlocal.
  pose proof (Hzone t) as Ht.
  unfold fromtimestamp.
  rewrite (timestamp_seconds_whole value t Hvalue) by lia. cbn [rbind].
  destruct (local_seconds_ok utcoffset t) as (_ & Hlocaltime & Hseconds);
    [unfold first_local_seconds, last_local_seconds; lia | ].
  rewrite Hlocaltime. cbn [rbind]. rewrite Hseconds. cbn [rbind].
  unfold max_fold_seconds.
  pose proof (Hzone (t - 86400)) as Hprobe.
  destruct (local_seconds_ok utcoffset (t - 86400)) as (-> & _);
    [unfold first_local_seconds, last_local_seconds; lia | ].
  cbn [rbind].
  match goal with
  | |- context [if ?a <? 0 then _ else _] => destruct (Z.ltb_spec a 0) as [Hdown | Hup]
  end; [ | reflexivity].
  match goal with
  | |- context [local_seconds utcoffset ?u] =>
      pose proof (Hzone u) as Hsecond;
      destruct (local_seconds_ok utcoffset u) as (-> & _);
      [unfold first_local_seconds, last_local_seconds, epoch_ordinal in *; lia | ]
  end.
  reflexivity.
Qed.

(** ** Directions: the shape of the result *)

Lemma seq_index_head {A} (x : A) (l : list A) : seq_index (x :: l) 0 = Some x.
Proof. reflexivity. Qed.

Lemma dict_get_truthy (d : pydict) (k : string) (v : pyval) :
  dict_get d k = Some v -> truthy (VDict d) = true.
Proof.
  destruct d; [discriminate | reflexivity].
Qed.

(** Whole epoch seconds under [value]: the text is that of their local
    time. *)
Lemma format_time_epoch (utcoffset : Z -> Z) (info : pydict)
    (value : pyval) (t : Z) :
  zone utcoffset ->
  dict_get info "value" = Some value ->
  whole_number value t ->
  early_local_seconds <= t + utcoffset t <= max_local_seconds ->
  format_time utcoffset (VDict info)
  = Ok (VStr (strftime (civil (t + utcoffset t)))).
Proof.
  intros Hzone Hvalue Hwhole Hrange. unfold format_time.
  rewrite (dict_get_truthy info "value" _ Hvalue). cbn [negb py_in rbind].
  rewrite Hvalue. cbn [negb getitem rbind]. rewrite Hvalue. cbn [rbind].
  rewrite (fromtimestamp_ok utcoffset value t Hzone Hwhole Hrange).
  reflexivity.
Qed.

Lemma time_text_format (utcoffset : Z -> Z) (leg : pydict) (key : string) :
  zone utcoffset ->
  epoch_field utcoffset leg key ->
  exists out,
    rbind (py_get (VDict leg) key VNone) (format_time utcoffset)
    = Ok (VStr out)
    /\ time_text utcoffset leg key out.
Proof.
  intros Hzone [Hnone | (info & value & t & Hinfo & Hvalue & Hwhole & Hrange)];
    unfold time_text; cbn [py_get].
  - rewrite Hnone. exists "". split; reflexivity.
  - rewrite Hinfo. cbn [rbind].
    rewrite (format_time_epoch utcoffset info value t Hzone Hvalue Hwhole)
      by (unfold early_local_seconds, min_local_seconds in *; lia).
    exists (strftime (civil (t + utcoffset t))). split; [reflexivity | ].
    exists value, t. cbn [getitem]. rewrite Hvalue.
    split; [reflexivity | ]. split; [exact Hwhole | ].
    apply seconds_of_text_strftime.
    unfold min_local_seconds, max_local_seconds, last_local_seconds in *. lia.
Qed.

(** C7. The summary, the total distance and the total duration of the
    result are those of the first route and of its first leg: the other
    routes and legs of the answer only appear in the raw [routes] field.
    The arrival and departure texts are made from the epoch seconds of the
    first leg: each has the form YYYY-MM-DD HH:MM:SS and names the local
    time of those seconds, so that reading the text back as a date and a
    time of day gives the seconds again, shifted by the offset of the
    zone.  A timestamp field that is absent gives the empty text, with no
    error.  The form has four year digits: the statement is about local
    times from year 1000 on, up to 9999-12-29. *)
Theorem directions_first_route_first_leg :
  forall utcoffset self origin destination mode departure_time arrival_time
         (log : list call)
         (route : pydict) (others : list pyval)
         (leg : pydict) (legs : list pyval)
         (dv dt uv ut : pyval),
    zone utcoffset ->
    client self directions_ep
      (directions_params self origin destination mode
         departure_time arrival_time)
    = Ok (VList (VDict route :: others)) ->
    dict_get route "legs" = Some (VList (VDict leg :: legs)) ->
    getitem2 (VDict leg) "distance" "value" = Ok dv ->
    getitem2 (VDict leg) "distance" "text" = Ok dt ->
    getitem2 (VDict leg) "duration" "value" = Ok uv ->
    getitem2 (VDict leg) "duration" "text" = Ok ut ->
    epoch_field utcoffset leg "arrival_time" ->
    epoch_field utcoffset leg "departure_time" ->
    exists arrival departure,
      fst (get_directions utcoffset self origin destination mode
             departure_time arrival_time log)
      = Ok (VDict
              [("routes", VList (VDict route :: others));
               ("summary",
                match dict_get route "summary" with
                | Some summary => summary
                | None => VStr ""
                end);
               ("total_distance", VDict [("value", dv); ("text", dt)]);
               ("total_duration", VDict [("value", uv); ("text", ut)]);
               ("arrival_time", VStr arrival);
               ("departure_time", VStr departure)])
      /\ time_text utcoffset leg "arrival_time" arrival
      /\ time_text utcoffset leg "departure_time" departure.
Proof.
  intros utcoffset self origin destination mode departure_time arrival_time
         log route others leg legs dv dt uv ut
         Hzone Hclient Hlegs Hdv Hdt Huv Hut Harrival Hdeparture.
  destruct (time_text_format _ _ _ Hzone Harrival) as (arrival & Ha & Hatext).
  destruct (time_text_format _ _ _ Hzone Hdeparture)
    as (departure & Hd & Hdtext).
  exists arrival, departure.
  split; [ | split; assumption].
  unfold get_directions, try_except, bind, request, lift, raise, ret.
  rewrite Hclient. cbn [truthy negb getitem_int].
  rewrite seq_index_head. cbn [getitem]. rewrite Hlegs.
  cbn [getitem_int]. rewrite seq_index_head.
  rewrite Hdv, Hdt, Huv, Hut.
  destruct (py_get (VDict leg) "arrival_time" VNone) as [ainfo | ];
    [ | discriminate Ha].
  destruct (py_get (VDict leg) "departure_time" VNone) as [dinfo | ];
    [ | discriminate Hd].
  cbn [rbind] in Ha, Hd. cbn [py_get].
  destruct (dict_get route "summary") as [summary | ];
    rewrite Ha at 1; rewrite Hd; reflexivity.
Qed.

(** The provider answers two routes, the first with two legs.  The result
    describes the first leg of the first route; its arrival time, 1709164800
    seconds after the epoch, reads 2024-02-29 00:00:00 in UTC, and its
    departure time, absent, reads as the empty text. *)
Lemma directions_first_route_first_leg_witness :
  exists arrival departure,
    fst (get_directions utc tools_example
           (VStr "Eindhoven") (VStr "Utrecht") (VStr "transit") VNone VNone [])
    = Ok (VDict
            [("routes",
              VList [VDict [("summary", VStr "A2");
                            ("legs", VList [leg_example; leg_other])];
                     VDict [("summary", VStr "N69");
                            ("legs", VList [leg_other])]]);
             ("summary", VStr "A2");
             ("total_distance",
              VDict [("value", VInt 1200); ("text", VStr "1.2 km")]);
             ("total_duration",
              VDict [("value", VInt 300); ("text", VStr "5 mins")]);
             ("arrival_time", VStr arrival);
             ("departure_time", VStr departure)])
    /\ time_text utc leg_example_fields "arrival_time" arrival
    /\ time_text utc leg_example_fields "departure_time" departure.
Proof.
  apply (directions_first_route_first_leg utc tools_example
           (VStr "Eindhoven") (VStr "Utrecht") (VStr "transit") VNone VNone []
           [("summary", VStr "A2");
            ("legs", VList [leg_example; leg_other])]
           [VDict [("summary", VStr "N69"); ("legs", VList [leg_other])]]
           leg_example_fields [leg_other]
           (VInt 1200) (VStr "1.2 km") (VInt 300) (VStr "5 mins"));
    try reflexivity.
  - intros t. unfold utc. lia.
  - right. exists [("value", VInt 1709164800); ("text", VStr "8:00")].
    exists (VInt 1709164800), 1709164800. repeat split; try reflexivity.
    + left. reflexivity.
    + unfold utc, min_local_seconds. lia.
    + unfold utc, max_local_seconds. lia.
  - left. reflexivity.
Defined.

Example directions_times_example :
  fst (get_directions utc tools_example
         (VStr "Eindhoven") (VStr "Utrecht") (VStr "transit") VNone VNone [])
  = Ok (VDict
          [("routes",
            VList [VDict [("summary", VStr "A2");
                          ("legs", VList [leg_example; leg_other])];
                   VDict [("summary", VStr "N69");
                          ("legs", VList [leg_other])]]);
           ("summary", VStr "A2");
           ("total_distance",
            VDict [("value", VInt 1200); ("text", VStr "1.2 km")]);
           ("total_duration",
            VDict [("value", VInt 300); ("text", VStr "5 mins")]);
           ("arrival_time", VStr "2024-02-29 00:00:00");
           ("departure_time", VStr "")]).
Proof. reflexivity. Qed.

(** * Further properties of the adapter and of the gateway *)

(** ** Construction *)

Lemma truthy_str (k : string) : truthy (VStr k) = true <-> k <> "".
Proof.
  cbn [truthy]. destruct (String.eqb_spec k ""); cbn; split; congruence.
Qed.

(** X1. [GoogleMapsTools(api_key, language)] succeeds exactly when a
    non-empty key is found and the client accepts it; the key is the
    argument when that is non-empty, and the environment variable only when
    the argument is [None] or empty.  A refusal of the client is raised as
    it is, and with no key at all the [ValueError] that asks for one is
    raised. *)
Theorem init_key_selection :
  forall getenv Client (api_key : option string) (language : string),
    (forall tools,
        init getenv Client api_key language = Ok tools
        <-> exists k c,
              k <> ""
              /\ Client k = Ok c
              /\ tools = mkGoogleMapsTools c language
              /\ (api_key = Some k
                  \/ ((api_key = None \/ api_key = Some "")
                      /\ getenv "GOOGLE_MAPS_API_KEY" = Some k)))
    /\ (forall k e,
           k <> "" ->
           api_key = Some k
           \/ ((api_key = None \/ api_key = Some "")
               /\ getenv "GOOGLE_MAPS_API_KEY" = Some k) ->
           Client k = Err e ->
           init getenv Client api_key language = Err e)
    /\ (api_key = None \/ api_key = Some "" ->
        getenv "GOOGLE_MAPS_API_KEY" = None
        \/ getenv "GOOGLE_MAPS_API_KEY" = Some "" ->
        init getenv Client api_key language = Err api_key_required).
Proof.
  intros getenv Client api_key language.
  assert (forall k, k <> "" ->
            api_key = Some k
            \/ ((api_key = None \/ api_key = Some "")
                /\ getenv "GOOGLE_MAPS_API_KEY" = Some k) ->
            init getenv Client api_key language
            = rbind (Client k) (fun c => Ok (mkGoogleMapsTools c language)))
    as Hkey.
  { intros k Hk Hsel. unfold init, effective_api_key.
    pose proof (proj2 (truthy_str k) Hk) as Ht.
    destruct Hsel as [-> | [[-> | ->] ->]]; cbn [truthy String.eqb negb];
      try rewrite Ht; cbn [truthy] in Ht; rewrite ?Ht; reflexivity. }
  split; [ | split].
  - intros tools. split.
    + unfold init, effective_api_key.
      destruct api_key as [a | ].
      * destruct (truthy (VStr a)) eqn:Ha.
        -- rewrite Ha. cbn [negb].
           destruct (Client a) as [c | e] eqn:Hc; cbn [rbind];
             [ | discriminate].
           intros H. inversion H. exists a, c.
           apply truthy_str in Ha. repeat split; auto.
        -- assert (a = "") as ->.
           { destruct (String.eqb_spec a ""); [assumption | ].
             cbn [truthy] in Ha. destruct (String.eqb_spec a "");
               [contradiction | discriminate Ha]. }
           destruct (getenv "GOOGLE_MAPS_API_KEY") as [k | ] eqn:Hg;
             [ | discriminate].
           destruct (truthy (VStr k)) eqn:Hk; cbn [negb]; [ | discriminate].
           destruct (Client k) as [c | e] eqn:Hc; cbn [rbind];
             [ | discriminate].
           intros H. inversion H. exists k, c.
           apply truthy_str in Hk. repeat split; auto.
      * destruct (getenv "GOOGLE_MAPS_API_KEY") as [k | ] eqn:Hg;
          [ | discriminate].
        destruct (truthy (VStr k)) eqn:Hk; cbn [negb]; [ | discriminate].
        destruct (Client k) as [c | e] eqn:Hc; cbn [rbind];
          [ | discriminate].
        intros H. inversion H. exists k, c.
        apply truthy_str in Hk. repeat split; auto.
    + intros (k & c & Hk & Hc & -> & Hsel).
      rewrite (Hkey k Hk Hsel), Hc. reflexivity.
  - intros k e Hk Hsel Hc. rewrite (Hkey k Hk Hsel), Hc. reflexivity.
  - intros Harg Henv. unfold init, effective_api_key.
    destruct Harg as [-> | ->], Henv as [-> | ->]; reflexivity.
Qed.

(** An explicit key is used although the environment has another one; an
    empty argument falls back on the environment; a key the client refuses
    raises the client's error; no key anywhere raises the request for
    one. *)
Lemma init_key_selection_witness :
  init getenv_example Client_example (Some "AIza-arg") "en"
  = Ok (mkGoogleMapsTools provider "en")
  /\ init getenv_example Client_example (Some "") "zh-TW"
     = Ok (mkGoogleMapsTools provider "zh-TW")
  /\ init getenv_example Client_example (Some "secret") "zh-TW"
     = Err (exception ValueError [Lit "Invalid API key provided."])
  /\ init getenv_unset Client_example None "zh-TW" = Err api_key_required.
Proof.
  destruct (init_key_selection getenv_example Client_example
              (Some "AIza-arg") "en") as (Harg & _ & _).
  destruct (init_key_selection getenv_example Client_example
              (Some "") "zh-TW") as (Henv & _ & _).
  destruct (init_key_selection getenv_example Client_example
              (Some "secret") "zh-TW") as (_ & Hrefused & _).
  destruct (init_key_selection getenv_unset Client_example
              None "zh-TW") as (_ & _ & Hnone).
  split; [ | split; [ | split]].
  - apply Harg. exists "AIza-arg", provider.
    repeat split; [discriminate | left; reflexivity].
  - apply Henv. exists "AIza-env", provider.
    repeat split; [discriminate | right; split; [right | ]; reflexivity].
  - apply (Hrefused "secret"); [discriminate | left; reflexivity | reflexivity].
  - apply Hnone; left; reflexivity.
Defined.

(** ** Geocoding *)

(** X2. [geocode_address] sends one request and uses the first match
    only: the result holds the [lat] and [lng] of its location, and its
    [formatted_address] and [place_id], each the empty text when the match
    has none.  The other matches play no part. *)
Theorem geocode_address_first_result :
  forall self address (log : list call)
         (first : pydict) (others : list pyval) (location lat lng : pyval),
    client self geocode_ep (snd (geocode_request self address))
    = Ok (VList (VDict first :: others)) ->
    getitem2 (VDict first) "geometry" "location" = Ok location ->
    getitem location "lat" = Ok lat ->
    getitem location "lng" = Ok lng ->
    geocode_address self address log
    = (Ok (VDict [("lat", lat);
                  ("lng", lng);
                  ("formatted_address",
                   get_or first "formatted_address" (VStr ""));
                  ("place_id", get_or first "place_id" (VStr ""))]),
       (log ++ [geocode_request self address])%list).
Proof.
  intros self address log first others location lat lng
         Hclient Hlocation Hlat Hlng.
  unfold geocode_address, try_except, bind, request, lift, raise, ret.
  cbn [geocode_request snd] in Hclient. rewrite Hclient.
  cbn [truthy negb getitem_int]. rewrite seq_index_head.
  rewrite Hlocation, Hlat, Hlng. cbn [py_get]. unfold get_or.
  destruct (dict_get first "formatted_address");
    destruct (dict_get first "place_id"); reflexivity.
Qed.

Lemma geocode_address_first_result_witness :
  geocode_address tools_example (VStr "Eindhoven") []
  = (Ok (VDict [("lat", VFloat (FNum (Qmake 514 10)));
                ("lng", VFloat (FNum (Qmake 55 10)));
                ("formatted_address", VStr "Eindhoven");
                ("place_id", VStr "abc")]),
     [geocode_request tools_example (VStr "Eindhoven")]).
Proof.
  apply (geocode_address_first_result tools_example (VStr "Eindhoven") []
           [("geometry",
             VDict [("location",
                     VDict [("lat", VFloat (FNum (Qmake 514 10)));
                            ("lng", VFloat (FNum (Qmake 55 10)))])]);
            ("formatted_address", VStr "Eindhoven");
            ("place_id", VStr "abc")]
           []
           (VDict [("lat", VFloat (FNum (Qmake 514 10)));
                   ("lng", VFloat (FNum (Qmake 55 10)))]));
    reflexivity.
Defined.

(** A successful [geocode_address] returns the four fields, in this
    order. *)
Lemma geocode_address_ok_shape self address log r l :
  geocode_address self address log = (Ok r, l) ->
  exists lat lng formatted_address place_id,
    r = VDict [("lat", lat); ("lng", lng);
               ("formatted_address", formatted_address);
               ("place_id", place_id)].
Proof.
  unfold geocode_address, try_except, bind, request, lift, raise, ret.
  repeat (case_inner; cbn beta iota; try discriminate).
  intros H. inversion H. do 4 eexists. reflexivity.
Qed.

(** X3. The public [geocode] fails only when [geocode_address] fails:
    reshaping its result never raises.  A success is reshaped into
    [location], [formatted_address] and [place_id]; a failure is raised
    again as a [ValueError] from it, with a second prefix in front of its
    message.  [geocode] sends no request of its own. *)
Theorem geocode_reshapes :
  forall self address (log : list call),
    match geocode_address self address log with
    | (Ok r, l) =>
        exists lat lng formatted_address place_id,
          r = VDict [("lat", lat); ("lng", lng);
                     ("formatted_address", formatted_address);
                     ("place_id", place_id)]
          /\ geocode self address log
             = (Ok (VDict [("location", VDict [("lat", lat); ("lng", lng)]);
                           ("formatted_address", formatted_address);
                           ("place_id", place_id)]), l)
    | (Err e, l) =>
        geocode self address log
        = (Err (exception_from ValueError
                  (fstr "Error geocoding: " (exc_str e)) e), l)
    end.
Proof.
  intros self address log.
  destruct (geocode_address self address log) as [[r | e] l] eqn:H.
  - destruct (geocode_address_ok_shape _ _ _ _ _ H)
      as (lat & lng & fa & pid & ->).
    exists lat, lng, fa, pid. split; [reflexivity | ].
    unfold geocode, try_except, bind. rewrite H. reflexivity.
  - unfold geocode, try_except, bind. rewrite H. reflexivity.
Qed.

(** X4. [reverse_geocode] sends one request and uses the first match
    only: its [formatted_address] and [place_id], the empty text when
    missing, and its [address_components], the empty list when missing. *)
Theorem reverse_geocode_first_result :
  forall self latitude longitude (log : list call)
         (first : pydict) (others : list pyval),
    client self reverse_geocode_ep
      (snd (reverse_geocode_request self latitude longitude))
    = Ok (VList (VDict first :: others)) ->
    reverse_geocode self latitude longitude log
    = (Ok (VDict [("formatted_address",
                   get_or first "formatted_address" (VStr ""));
                  ("place_id", get_or first "place_id" (VStr ""));
                  ("address_components",
                   get_or first "address_components" (VList []))]),
       (log ++ [reverse_geocode_request self latitude longitude])%list).
Proof.
  intros self latitude longitude log first others Hclient.
  unfold reverse_geocode, try_except, bind, request, lift, raise, ret.
  cbn [reverse_geocode_request snd] in Hclient. rewrite Hclient.
  cbn [truthy negb getitem_int]. rewrite seq_index_head.
  cbn [py_get]. unfold get_or.
  destruct (dict_get first "formatted_address");
    destruct (dict_get first "place_id");
    destruct (dict_get first "address_components"); reflexivity.
Qed.

Lemma reverse_geocode_first_result_witness :
  reverse_geocode tools_example (VInt 51) (VInt 5) []
  = (Ok (VDict [("formatted_address", VStr "Eindhoven");
                ("place_id", VStr "abc");
                ("address_components", VList [])]),
     [reverse_geocode_request tools_example (VInt 51) (VInt 5)]).
Proof.
  apply (reverse_geocode_first_result tools_example (VInt 51) (VInt 5) []
           [("formatted_address", VStr "Eindhoven"); ("place_id", VStr "abc")]
           []).
  reflexivity.
Defined.

(** ** Failures of the adapter *)

Lemma try_except_wrapped {A} (body : M A) (prefix : string) (log : list call) :
  wrapped prefix
    (try_except body
       (fun e =>
          raise (exception_from ValueError (fstr prefix (exc_str e)) e))
       log).
Proof.
  unfold wrapped, try_except, raise.
  destruct (body log) as [[v | inner] l0]; intros e l H; inversion H; subst.
  exists inner. reflexivity.
Qed.

Ltac provider_raises Hclient :=
  unfold try_except, bind, request, lift, raise, ret;
  cbn [snd geocode_request reverse_geocode_request place_request
       matrix_request] in Hclient;
  rewrite Hclient; reflexivity.

(** X5. When the provider raises on the request of one of the eight
    operations of the adapter that have a handler, the operation raises a
    [ValueError] from that very exception: the provider's exception is its
    [__cause__], and its message is the operation's own prefix followed by
    the text of the provider's exception.  Through [geocode] the
    [ValueError] of [geocode_address] comes in between.  Nothing is sent
    after the request that failed.  And whatever else goes wrong inside
    them, what these operations raise is a [ValueError] of that shape. *)
Theorem adapter_failures_are_value_errors :
  forall utcoffset self (log : list call) (e : exn),
    (forall address,
        client self geocode_ep (snd (geocode_request self address)) = Err e ->
        geocode_address self address log
        = (Err (exception_from ValueError
                  (fstr "Error geocoding address: " (exc_str e)) e),
           (log ++ [geocode_request self address])%list))
    /\ (forall (params args : pydict),
           snd (search_nearby_places self (VDict params) log)
           = (log ++ [(places_nearby_ep, args)])%list ->
           client self places_nearby_ep args = Err e ->
           fst (search_nearby_places self (VDict params) log)
           = Err (exception_from ValueError
                    (fstr "Error searching nearby places: " (exc_str e)) e))
    /\ (forall place_id,
           client self place_ep (snd (place_request self place_id)) = Err e ->
           maps_tools.get_place_details self place_id log
           = (Err (exception_from ValueError
                     (fstr "Error getting place details: " (exc_str e)) e),
              (log ++ [place_request self place_id])%list))
    /\ (forall address,
           client self geocode_ep (snd (geocode_request self address))
           = Err e ->
           geocode self address log
           = (Err (exception_from ValueError
                     (fstr "Error geocoding: "
                        (fstr "Error geocoding address: " (exc_str e)))
                     (exception_from ValueError
                        (fstr "Error geocoding address: " (exc_str e)) e)),
              (log ++ [geocode_request self address])%list))
    /\ (forall latitude longitude,
           client self reverse_geocode_ep
             (snd (reverse_geocode_request self latitude longitude))
           = Err e ->
           reverse_geocode self latitude longitude log
           = (Err (exception_from ValueError
                     (fstr "Error reverse geocoding: " (exc_str e)) e),
              (log ++ [reverse_geocode_request self latitude longitude])%list))
    /\ (forall origins destinations mode,
           client self distance_matrix_ep
             (snd (matrix_request self origins destinations mode))
           = Err e ->
           calculate_distance_matrix self origins destinations mode log
           = (Err (exception_from ValueError
                     (fstr "Error calculating distance matrix: " (exc_str e))
                     e),
              (log ++ [matrix_request self origins destinations mode])%list))
    /\ (forall origin destination mode departure_time arrival_time,
           client self directions_ep
             (directions_params self origin destination mode
                departure_time arrival_time)
           = Err e ->
           get_directions utcoffset self origin destination mode
             departure_time arrival_time log
           = (Err (exception_from ValueError
                     (fstr "Error getting directions: " (exc_str e)) e),
              (log ++ [(directions_ep,
                        directions_params self origin destination mode
                          departure_time arrival_time)])%list))
    /\ (forall (locations points : list pyval),
           Forall2 point_of locations points ->
           client self elevation_ep [("locations", VList points)] = Err e ->
           get_elevation self (VList locations) log
           = (Err (exception_from ValueError
                     (fstr "Error getting elevation data: " (exc_str e)) e),
              (log ++ [(elevation_ep, [("locations", VList points)])])%list))
    /\ (forall address,
           wrapped "Error geocoding address: "
             (geocode_address self address log))
    /\ (forall params,
           wrapped "Error searching nearby places: "
             (search_nearby_places self params log))
    /\ (forall place_id,
           wrapped "Error getting place details: "
             (maps_tools.get_place_details self place_id log))
    /\ (forall address,
           wrapped "Error geocoding: " (geocode self address log))
    /\ (forall latitude longitude,
           wrapped "Error reverse geocoding: "
             (reverse_geocode self latitude longitude log))
    /\ (forall origins destinations mode,
           wrapped "Error calculating distance matrix: "
             (calculate_distance_matrix self origins destinations mode log))
    /\ (forall origin destination mode departure_time arrival_time,
           wrapped "Error getting directions: "
             (get_directions utcoffset self origin destination mode
                departure_time arrival_time log))
    /\ (forall locations,
           wrapped "Error getting elevation data: "
             (get_elevation self locations log)).
Proof.
  intros utcoffset self log e.
  split; [ | split; [ | split; [ | split; [ | split; [ | split;
    [ | split; [ | split]]]]]]].
  - intros address Hclient. unfold geocode_address.
    provider_raises Hclient.
  - intros params args. unfold search_nearby_places.
    unfold try_except, bind, request, lift, raise, ret.
    cbn [getitem py_get].
    repeat (case_inner; cbn beta iota); cbn [fst snd]; intros Hsent.
    all: try (exfalso; apply (not_sent_yet _ _ Hsent)).
    all: apply app_inv_head in Hsent; inversion Hsent; subst args;
      clear Hsent.
    all: intros Hclient.
    all: match goal with
         | E : client _ _ _ = _ |- _ =>
             tryif constr_eq E Hclient then fail
             else (pose proof (eq_trans (eq_sym E) Hclient) as Hsame;
                   inversion Hsame; subst)
         end.
    all: reflexivity.
  - intros place_id Hclient. unfold maps_tools.get_place_details.
    provider_raises Hclient.
  - intros address Hclient. unfold geocode, geocode_address.
    provider_raises Hclient.
  - intros latitude longitude Hclient. unfold reverse_geocode.
    provider_raises Hclient.
  - intros origins destinations mode Hclient.
    unfold calculate_distance_matrix. provider_raises Hclient.
  - intros origin destination mode departure_time arrival_time Hclient.
    unfold get_directions. provider_raises Hclient.
  - intros locations points Hpoints Hclient.
    apply (map_result_relation _ _ _ _ formatted_location_point_of)
      in Hpoints.
    unfold get_elevation, try_except, bind, request, lift, raise, ret.
    cbn [py_iter]. rewrite Hpoints. rewrite Hclient. reflexivity.
  - repeat split; intros; apply try_except_wrapped.
Qed.

(** A provider that refuses every request: its [ApiError] is the cause of
    the [ValueError] each of the eight operations raises. *)
Lemma adapter_failures_are_value_errors_witness :
  let refused (prefix : string) :=
    exception_from ValueError (fstr prefix (exc_str api_error)) api_error in
  fst (geocode_address tools_down (VStr "Eindhoven") [])
  = Err (refused "Error geocoding address: ")
  /\ fst (search_nearby_places tools_down
            (VDict [("location", VDict [("lat", VInt 1); ("lng", VInt 2)])])
            [])
     = Err (refused "Error searching nearby places: ")
  /\ fst (maps_tools.get_place_details tools_down (VStr "abc") [])
     = Err (refused "Error getting place details: ")
  /\ fst (geocode tools_down (VStr "Eindhoven") [])
     = Err (exception_from ValueError
              (fstr "Error geocoding: "
                 (exc_str (refused "Error geocoding address: ")))
              (refused "Error geocoding address: "))
  /\ fst (reverse_geocode tools_down (VInt 51) (VInt 5) [])
     = Err (refused "Error reverse geocoding: ")
  /\ fst (calculate_distance_matrix tools_down (VList [VStr "Eindhoven"])
            (VList [VStr "Utrecht"]) (VStr "driving") [])
     = Err (refused "Error calculating distance matrix: ")
  /\ fst (get_directions utc tools_down (VStr "Eindhoven") (VStr "Utrecht")
            (VStr "driving") VNone VNone [])
     = Err (refused "Error getting directions: ")
  /\ fst (get_elevation tools_down
            (VList [VDict [("latitude", VInt 1); ("longitude", VInt 2)]]) [])
     = Err (refused "Error getting elevation data: ").
Proof.
  intros refused.
  destruct (adapter_failures_are_value_errors utc tools_down [] api_error)
    as (Hgeocode_address & Hnearby & Hdetails & Hgeocode & Hreverse
        & Hmatrix & Hdirections & Helevation & _).
  split; [rewrite Hgeocode_address; reflexivity | ].
  split.
  { apply (Hnearby [("location", VDict [("lat", VInt 1); ("lng", VInt 2)])]
             [("location", VTuple [VInt 1; VInt 2]);
              ("radius", VInt 1000);
              ("language", VStr "zh-TW")]); reflexivity. }
  split; [rewrite Hdetails; reflexivity | ].
  split; [rewrite Hgeocode; reflexivity | ].
  split; [rewrite Hreverse; reflexivity | ].
  split; [rewrite Hmatrix; reflexivity | ].
  split; [rewrite Hdirections; reflexivity | ].
  rewrite (Helevation
             [VDict [("latitude", VInt 1); ("longitude", VInt 2)]]
             [VTuple [VInt 1; VInt 2]]); [reflexivity | | reflexivity].
  constructor; [ | constructor].
  exists (VInt 1), (VInt 2). repeat split.
Defined.

(** ** Resolving a location *)

(** X6. [get_location] has no handler of its own.  A descriptor without
    [value] raises [KeyError], and a descriptor flagged as coordinates whose
    [value] is not a string raises [AttributeError]: neither is the
    [ValueError] of an invalid format, and neither sends a request. *)
Theorem get_location_unwrapped_failures :
  forall self (center : pydict) (log : list call),
    (dict_get center "value" = None ->
     get_location self (VDict center) log
     = (Err (exception KeyError [ReprOf (VStr "value")]), log))
    /\ (forall flag value,
           dict_get center "isCoordinates" = Some flag ->
           truthy flag = true ->
           dict_get center "value" = Some value ->
           (forall s, value <> VStr s) ->
           get_location self (VDict center) log
           = (Err (no_attribute value "split"), log)).
Proof.
  intros self center log. split.
  - intros Hvalue. unfold get_location, bind, lift. cbn [py_get getitem].
    rewrite Hvalue.
    destruct (dict_get center "isCoordinates") as [flag | ];
      [destruct (truthy flag) | ]; reflexivity.
  - intros flag value Hflag Htrue Hvalue Hnot.
    unfold get_location, bind, lift. cbn [py_get getitem].
    rewrite Hflag, Htrue, Hvalue.
    destruct value; try reflexivity. exfalso. apply (Hnot s). reflexivity.
Qed.

Lemma get_location_unwrapped_failures_witness :
  get_location tools_example (VDict [("isCoordinates", VBool true)]) []
  = (Err (exception KeyError [ReprOf (VStr "value")]), [])
  /\ get_location tools_example
       (VDict [("value", VList [VInt 51; VInt 5]);
               ("isCoordinates", VBool true)]) []
     = (Err (exception AttributeError
               [Lit "'list' object has no attribute 'split'"]), []).
Proof.
  split.
  - apply (proj1 (get_location_unwrapped_failures tools_example
                    [("isCoordinates", VBool true)] [])).
    reflexivity.
  - apply (proj2 (get_location_unwrapped_failures tools_example
                    [("value", VList [VInt 51; VInt 5]);
                     ("isCoordinates", VBool true)] [])
             (VBool true) (VList [VInt 51; VInt 5]));
      try reflexivity.
    intros s. discriminate.
Defined.

Lemma parse_coordinates_ok_shape (value r : pyval) :
  parse_coordinates value = Ok r ->
  exists x y, r = VDict [("lat", VFloat x); ("lng", VFloat y)].
Proof.
  unfold parse_coordinates, catch_in.
  destruct value; try (cbn; discriminate).
  destruct (map_result (fun c => py_float (strip c)) (split "," s))
    as [coords | e]; cbn [rbind].
  - destruct (negb (Z.of_nat (List.length coords) =? 2)).
    + cbn. discriminate.
    + destruct (list_index coords 0) as [x | e0]; cbn [rbind].
      * destruct (list_index coords 1) as [y | e1]; cbn [rbind].
        -- intros H. inversion H. exists x, y. reflexivity.
        -- destruct (existsb _ _); discriminate.
      * destruct (existsb _ _); discriminate.
  - destruct (existsb _ _); discriminate.
Qed.

(** X7. A location that was resolved is never partial: it is a
    dictionary that starts with [lat] and [lng], alone for a coordinate
    text, followed by [formatted_address] and [place_id] for an address. *)
Theorem resolved_location_has_lat_lng :
  forall self center (log log' : list call) (location : pyval),
    get_location self center log = (Ok location, log') ->
    exists lat lng rest,
      location = VDict (("lat", lat) :: ("lng", lng) :: rest)
      /\ (map fst rest = [] \/ map fst rest = ["formatted_address"; "place_id"])
      /\ getitem location "lat" = Ok lat
      /\ getitem location "lng" = Ok lng.
Proof.
  intros self center log log' location.
  unfold get_location, bind, lift.
  destruct (py_get center "isCoordinates" (VBool false)) as [flag | e];
    [ | discriminate].
  destruct (truthy flag).
  - destruct (getitem center "value") as [value | e]; [ | discriminate].
    destruct (parse_coordinates value) as [r | e] eqn:Hparse;
      [ | discriminate].
    intros H. inversion H; subst.
    destruct (parse_coordinates_ok_shape _ _ Hparse) as (x & y & ->).
    exists (VFloat x), (VFloat y), []. repeat split. left. reflexivity.
  - destruct (getitem center "value") as [value | e]; [ | discriminate].
    intros H.
    destruct (geocode_address_ok_shape _ _ _ _ _ H)
      as (lat & lng & fa & pid & ->).
    exists lat, lng, [("formatted_address", fa); ("place_id", pid)].
    repeat split. right. reflexivity.
Qed.

Lemma resolved_location_has_lat_lng_witness :
  exists lat lng rest,
    VDict [("lat", VFloat (FNum (Qmake 514 10)));
           ("lng", VFloat (FNum (Qmake 55 10)));
           ("formatted_address", VStr "Eindhoven");
           ("place_id", VStr "abc")]
    = VDict (("lat", lat) :: ("lng", lng) :: rest)
    /\ (map fst rest = [] \/ map fst rest = ["formatted_address"; "place_id"])
    /\ getitem
         (VDict [("lat", VFloat (FNum (Qmake 514 10)));
                 ("lng", VFloat (FNum (Qmake 55 10)));
                 ("formatted_address", VStr "Eindhoven");
                 ("place_id", VStr "abc")]) "lat" = Ok lat
    /\ getitem
         (VDict [("lat", VFloat (FNum (Qmake 514 10)));
                 ("lng", VFloat (FNum (Qmake 55 10)));
                 ("formatted_address", VStr "Eindhoven");
                 ("place_id", VStr "abc")]) "lng" = Ok lng.
Proof.
  apply (resolved_location_has_lat_lng tools_example
           (VDict [("value", VStr "Eindhoven Central")]) []
           [geocode_request tools_example (VStr "Eindhoven Central")]).
  reflexivity.
Defined.

(** ** Requests: one attempt, never a second *)

Ltac log_cases :=
  unfold try_except, bind, request, lift, raise, ret;
  repeat (case_inner; cbn beta iota); cbn [snd].

Lemma geocode_address_log self address log :
  snd (geocode_address self address log)
  = (log ++ [geocode_request self address])%list.
Proof. unfold geocode_address. log_cases; reflexivity. Qed.

Lemma geocode_log self address log :
  snd (geocode self address log)
  = (log ++ [geocode_request self address])%list.
Proof.
  pose proof (geocode_address_log self address log) as Hlog.
  unfold geocode, try_except, bind, lift, raise, ret.
  destruct (geocode_address self address log) as [[r | e] l];
    cbn [snd] in Hlog; subst l.
  - repeat (case_inner; cbn beta iota); reflexivity.
  - reflexivity.
Qed.

Lemma reverse_geocode_log self latitude longitude log :
  snd (reverse_geocode self latitude longitude log)
  = (log ++ [reverse_geocode_request self latitude longitude])%list.
Proof. unfold reverse_geocode. log_cases; reflexivity. Qed.

Lemma get_place_details_log self place_id log :
  snd (maps_tools.get_place_details self place_id log)
  = (log ++ [place_request self place_id])%list.
Proof. unfold maps_tools.get_place_details. log_cases; reflexivity. Qed.

Lemma calculate_distance_matrix_log self origins destinations mode log :
  snd (calculate_distance_matrix self origins destinations mode log)
  = (log ++ [matrix_request self origins destinations mode])%list.
Proof. unfold calculate_distance_matrix. log_cases; reflexivity. Qed.

Lemma get_elevation_log self locations log :
  snd (get_elevation self locations log) = log
  \/ exists args,
       snd (get_elevation self locations log)
       = (log ++ [(elevation_ep, args)])%list.
Proof.
  unfold get_elevation. log_cases; auto; right; eexists; reflexivity.
Qed.

Lemma search_nearby_places_log self params log :
  snd (search_nearby_places self params log) = log
  \/ exists args,
       snd (search_nearby_places self params log)
       = (log ++ [(places_nearby_ep, args)])%list.
Proof.
  unfold search_nearby_places. log_cases; auto; right; eexists; reflexivity.
Qed.

Lemma get_location_log self center log :
  snd (get_location self center log) = log
  \/ exists value,
       snd (get_location self center log)
       = (log ++ [geocode_request self value])%list.
Proof.
  unfold get_location, bind, lift.
  destruct (py_get center "isCoordinates" (VBool false)) as [flag | e];
    [ | left; reflexivity].
  destruct (truthy flag);
    (destruct (getitem center "value") as [value | e];
     [ | left; reflexivity]).
  - left. reflexivity.
  - right. exists value. apply geocode_address_log.
Qed.

(** A tool reports what its body raised; it sends nothing more. *)
Lemma tool_log {A} (body : M A) (prefix : string) (log : list call) :
  snd (try_except body (tool_failure prefix) log) = snd (body log).
Proof.
  unfold try_except, tool_failure, raise.
  destruct (body log) as [[v | e] l]; reflexivity.
Qed.

Lemma bind_lift_log {A B C} (m : M A) (f : A -> result B) (g : B -> M C)
    (log : list call) :
  (forall b l, snd (g b l) = l) ->
  snd (bind m (fun a => bind (lift (f a)) g) log) = snd (m log).
Proof.
  intros Hg. unfold bind, lift.
  destruct (m log) as [[a | e] l]; [ | reflexivity].
  destruct (f a); [apply Hg | reflexivity].
Qed.

(** After resolving the location, [search_nearby] sends the nearby search
    or nothing. *)
Lemma search_nearby_after_location tools center keyword radius openNow
    minRating log :
  exists rest,
    snd (search_nearby (Some tools) center keyword radius openNow minRating
           log)
    = (snd (get_location tools (VDict center) log) ++ rest)%list
    /\ In (map fst rest) [[]; [places_nearby_ep]].
Proof.
  unfold search_nearby. rewrite tool_log. unfold bind at 1.
  destruct (get_location tools (VDict center) log) as [[location | e] l1];
    cbn [snd].
  - match goal with
    | |- context [bind (search_nearby_places tools ?p) ?k l1] =>
        assert (snd (bind (search_nearby_places tools p) k l1)
                = snd (search_nearby_places tools p l1)) as Hrest;
        [ | pose proof (search_nearby_places_log tools p l1) as Hnear ]
    end.
    { unfold bind, lift, ret.
      destruct (search_nearby_places tools _ l1) as [[places | e] l2];
        [ | reflexivity].
      destruct (py_iter places); [ | reflexivity].
      destruct (map_result formatted_place _); reflexivity. }
    rewrite Hrest. clear Hrest.
    destruct Hnear as [-> | (args & ->)].
    + exists []. rewrite app_nil_r. split; [reflexivity | cbn; auto].
    + exists [(places_nearby_ep, args)]. split; [reflexivity | cbn; auto].
  - exists []. rewrite app_nil_r. split; [reflexivity | cbn; auto].
Qed.

Lemma search_nearby_log tools center keyword radius openNow minRating log :
  exists sent,
    snd (search_nearby (Some tools) center keyword radius openNow minRating
           log) = (log ++ sent)%list
    /\ In (map fst sent)
         [[]; [geocode_ep]; [places_nearby_ep]; [geocode_ep; places_nearby_ep]].
Proof.
  destruct (search_nearby_after_location tools center keyword radius openNow
              minRating log) as (rest & -> & Hrest).
  destruct (get_location_log tools (VDict center) log)
    as [-> | (value & ->)].
  - exists rest. split; [reflexivity | ].
    cbn in Hrest |- *. intuition.
  - exists (geocode_request tools value :: rest).
    rewrite <- app_assoc. split; [reflexivity | ].
    cbn in Hrest |- *.
    destruct Hrest as [<- | [<- | []]]; auto.
Qed.

(** X8. No tool retries and no tool asks twice.  Whatever the arguments
    and whatever the provider answers, an invocation only adds requests to
    the log, at most one to the endpoint of its operation; only
    [search_nearby] may send two, a geocoding request followed by the
    nearby search. *)
Theorem tools_send_at_most_their_requests :
  forall utcoffset fromisoformat (maps_tools : option GoogleMapsTools)
         (c : tool_call) (log : list call),
  exists eps,
    requests_of (invoke utcoffset fromisoformat maps_tools c) log eps
    /\ In eps (allowed_requests c).
Proof.
  intros utcoffset fromisoformat maps_tools c log.
  destruct maps_tools as [tools | ].
  - destruct c; cbn [invoke allowed_requests].
    + destruct (search_nearby_log tools center keyword radius openNow
                  minRating log) as (sent & Hsent & Hin).
      exists (map fst sent). split; [ | exact Hin].
      exists sent. split; [exact Hsent | reflexivity].
    + exists [place_ep]. split; [ | cbn; auto].
      exists [place_request tools (VStr placeId)]. split; [ | reflexivity].
      unfold server.get_place_details. rewrite tool_log.
      unfold bind, lift.
      pose proof (get_place_details_log tools (VStr placeId) log) as H.
      destruct (maps_tools.get_place_details tools (VStr placeId) log)
        as [[details | e] l]; cbn [snd] in H |- *; subst l;
        [destruct (formatted_details placeId details) | ]; reflexivity.
    + exists [geocode_ep]. split; [ | cbn; auto].
      exists [geocode_request tools (VStr address)]. split; [ | reflexivity].
      unfold maps_geocode. rewrite tool_log. apply geocode_log.
    + exists [reverse_geocode_ep]. split; [ | cbn; auto].
      exists [reverse_geocode_request tools (VFloat latitude)
                (VFloat longitude)].
      split; [ | reflexivity].
      unfold maps_reverse_geocode. rewrite tool_log.
      apply reverse_geocode_log.
    + exists [distance_matrix_ep]. split; [ | cbn; auto].
      exists [matrix_request tools (VList (map VStr origins))
                (VList (map VStr destinations)) (VStr mode)].
      split; [ | reflexivity].
      unfold maps_distance_matrix. rewrite tool_log.
      apply calculate_distance_matrix_log.
    + unfold maps_directions. 
      destruct (parse_time fromisoformat departure_time) as [dept | e] eqn:Hd.
      * destruct (parse_time fromisoformat arrival_time) as [arr | e] eqn:Ha.
        -- exists [directions_ep]. split; [ | cbn; auto].
           exists [(directions_ep,
                    directions_params tools (VStr origin) (VStr destination)
                      (VStr mode) dept arr)].
           split; [ | reflexivity].
           rewrite tool_log. unfold bind, lift. cbn beta iota.
           apply get_directions_log.
        -- exists []. split; [ | cbn; auto].
           exists []. split; [ | reflexivity].
           rewrite tool_log. unfold bind, lift. cbn beta iota.
           rewrite app_nil_r. reflexivity.
      * exists []. split; [ | cbn; auto].
        exists []. split; [ | reflexivity].
        rewrite tool_log. unfold bind, lift. cbn beta iota.
        rewrite app_nil_r. reflexivity.
    + unfold maps_elevation.
      destruct (get_elevation_log tools
                  (VList (map of_float_dict locations)) log)
        as [H | (args & H)].
      * exists []. split; [ | cbn; auto].
        exists []. split; [ | reflexivity].
        rewrite tool_log, H, app_nil_r. reflexivity.
      * exists [elevation_ep]. split; [ | cbn; auto].
        exists [(elevation_ep, args)]. split; [ | reflexivity].
        rewrite tool_log. exact H.
  - exists []. split.
    + exists []. rewrite invoke_uninitialized, app_nil_r. split; reflexivity.
    + destruct c; cbn; auto.
Qed.

(** X9. [search_nearby] geocodes addresses only.  A centre flagged as
    coordinates never reaches the geocoding endpoint: the only request it
    may cause is the nearby search.  A centre that is not flagged is
    geocoded first, with its [value] as the address, before any nearby
    search. *)
Theorem search_nearby_geocodes_only_addresses :
  forall tools (center : pydict) keyword radius openNow minRating
         (log : list call),
    (forall flag,
        dict_get center "isCoordinates" = Some flag ->
        truthy flag = true ->
        exists sent,
          snd (search_nearby (Some tools) center keyword radius openNow
                 minRating log) = (log ++ sent)%list
          /\ In (map fst sent) [[]; [places_nearby_ep]])
    /\ (forall value,
           truthy (get_or center "isCoordinates" (VBool false)) = false ->
           dict_get center "value" = Some value ->
           exists rest,
             snd (search_nearby (Some tools) center keyword radius openNow
                    minRating log)
             = (log ++ geocode_request tools value :: rest)%list
             /\ In (map fst rest) [[]; [places_nearby_ep]]).
Proof.
  intros tools center keyword radius openNow minRating log.
  destruct (search_nearby_after_location tools center keyword radius openNow
              minRating log) as (rest & Hlog & Hrest).
  split.
  - intros flag Hflag Htrue. exists rest. split; [ | exact Hrest].
    rewrite Hlog. f_equal.
    unfold get_location, bind, lift. cbn [py_get getitem].
    rewrite Hflag, Htrue. destruct (dict_get center "value"); reflexivity.
  - intros value Hfalse Hvalue. exists rest. split; [ | exact Hrest].
    rewrite Hlog.
    change (geocode_request tools value :: rest)
      with ([geocode_request tools value] ++ rest)%list.
    rewrite app_assoc. f_equal.
    unfold get_location, bind, lift. cbn [py_get getitem].
    unfold get_or in Hfalse.
    destruct (dict_get center "isCoordinates") as [flag | ];
      rewrite Hfalse, Hvalue; apply geocode_address_log.
Qed.

Lemma search_nearby_geocodes_only_addresses_witness :
  (exists sent,
      snd (search_nearby (Some tools_example)
             (coordinates_center "51.4, 5.5") (Some "pizza") 1000 false None
             []) = ([] ++ sent)%list
      /\ In (map fst sent) [[]; [places_nearby_ep]])
  /\ (exists rest,
         snd (search_nearby (Some tools_example)
                [("value", VStr "Eindhoven Central")] (Some "pizza") 1000
                false None [])
         = ([] ++ geocode_request tools_example (VStr "Eindhoven Central")
                  :: rest)%list
         /\ In (map fst rest) [[]; [places_nearby_ep]]).
Proof.
  split.
  - apply (proj1 (search_nearby_geocodes_only_addresses tools_example
                    (coordinates_center "51.4, 5.5") (Some "pizza") 1000
                    false None []) (VBool true)); reflexivity.
  - apply (proj2 (search_nearby_geocodes_only_addresses tools_example
                    [("value", VStr "Eindhoven Central")] (Some "pizza") 1000
                    false None []) (VStr "Eindhoven Central")); reflexivity.
Defined.

(** ** What the nearby search sends *)

(** X10. The request of a nearby search carries the location as a
    (lat, lng) pair, the radius, 1000 when none is given, and the
    language; the keyword only when it is non-empty, and [openNow=True]
    only when the flag is set.  Nothing else is sent: the minimum rating
    never reaches the provider. *)
Theorem nearby_request_parameters :
  forall self (params args : pydict) (log : list call),
    snd (search_nearby_places self (VDict params) log)
    = (log ++ [(places_nearby_ep, args)])%list ->
    map fst args
    = (["location"; "radius"; "language"]
       ++ (if truthy (get_or params "keyword" VNone) then ["keyword"] else [])
       ++ (if truthy (get_or params "openNow" VNone) then ["openNow"] else []))%list
    /\ dict_get args "radius" = Some (get_or params "radius" (VInt 1000))
    /\ dict_get args "language" = Some (VStr (default_language self))
    /\ dict_get args "keyword"
       = (if truthy (get_or params "keyword" VNone)
          then Some (get_or params "keyword" VNone) else None)
    /\ dict_get args "openNow"
       = (if truthy (get_or params "openNow" VNone)
          then Some (VBool true) else None)
    /\ dict_get args "minRating" = None
    /\ exists location lat lng,
         dict_get params "location" = Some location
         /\ getitem location "lat" = Ok lat
         /\ getitem location "lng" = Ok lng
         /\ dict_get args "location" = Some (VTuple [lat; lng]).
Proof.
  intros self params args log. unfold get_or.
  unfold search_nearby_places, try_except, bind, request, lift, raise, ret.
  cbn [getitem py_get].
  repeat (case_inner; cbn beta iota); cbn [snd]; intros Hsent.
  all: try (exfalso; apply (not_sent_yet _ _ Hsent)).
  all: apply app_inv_head in Hsent; inversion Hsent; subst args; clear Hsent.
  all: try match goal with
           | E : truthy VNone = true |- _ => discriminate E
           end.
  all: repeat match goal with
              | E : Ok _ = Ok _ |- _ => inversion E; subst; clear E
              | E : (_, _) = (_, _) |- _ => inversion E; subst; clear E
              end.
  all: repeat match goal with
              | E : truthy _ = _ |- _ => rewrite E
              end.
  all: repeat (split; [reflexivity | ]).
  all: do 3 eexists; repeat split; try eassumption; reflexivity.
Qed.

(** A search with an empty keyword, the open-now flag and a minimum
    rating: the request has the location, the default radius, the language
    and [openNow], and neither keyword nor rating. *)
Lemma nearby_request_parameters_witness :
  let params :=
    [("location", VDict [("lat", VInt 1); ("lng", VInt 2)]);
     ("keyword", VStr "");
     ("openNow", VBool true);
     ("minRating", VFloat (FNum (Qmake 45 10)))] in
  let args :=
    [("location", VTuple [VInt 1; VInt 2]);
     ("radius", VInt 1000);
     ("language", VStr "zh-TW");
     ("openNow", VBool true)] in
  map fst args
  = (["location"; "radius"; "language"]
     ++ (if truthy (get_or params "keyword" VNone) then ["keyword"] else [])
     ++ (if truthy (get_or params "openNow" VNone) then ["openNow"] else []))%list
  /\ dict_get args "radius" = Some (get_or params "radius" (VInt 1000))
  /\ dict_get args "language" = Some (VStr (default_language tools_example))
  /\ dict_get args "keyword"
     = (if truthy (get_or params "keyword" VNone)
        then Some (get_or params "keyword" VNone) else None)
  /\ dict_get args "openNow"
     = (if truthy (get_or params "openNow" VNone)
        then Some (VBool true) else None)
  /\ dict_get args "minRating" = None
  /\ exists location lat lng,
       dict_get params "location" = Some location
       /\ getitem location "lat" = Ok lat
       /\ getitem location "lng" = Ok lng
       /\ dict_get args "location" = Some (VTuple [lat; lng]).
Proof.
  intros params args.
  apply (nearby_request_parameters tools_example params args []).
  reflexivity.
Defined.

(** ** The shape of what the tools answer *)

Lemma Forall2_Forall_r {A B} (R : A -> B -> Prop) (P : B -> Prop)
    (l : list A) (l' : list B) :
  (forall x y, R x y -> P y) -> Forall2 R l l' -> Forall P l'.
Proof.
  intros HRP H. induction H; constructor; eauto.
Qed.

Ltac shape_cases :=
  unfold rbind; repeat (case_inner; cbn beta iota; try discriminate).

Lemma formatted_place_shape (place r : pyval) :
  formatted_place place = Ok r -> has_keys place_keys r.
Proof.
  unfold formatted_place. shape_cases.
  intros H. inversion H. eexists. split; reflexivity.
Qed.

Lemma formatted_photo_shape (photo r : pyval) :
  formatted_photo photo = Ok r -> has_keys photo_keys r.
Proof.
  unfold formatted_photo. shape_cases.
  intros H. inversion H. eexists. split; reflexivity.
Qed.

Lemma formatted_review_shape (review r : pyval) :
  formatted_review review = Ok r -> has_keys review_keys r.
Proof.
  unfold formatted_review. shape_cases.
  intros H. inversion H. eexists. split; reflexivity.
Qed.

(** X11. A successful [search_nearby] answers the resolved location, the
    list of places and their count: [total_results] is always the length
    of [places], and every place is a dictionary with the same ten keys,
    whatever fields the provider gave. *)
Theorem search_nearby_result_shape :
  forall maps_tools center keyword radius openNow minRating
         (log log' : list call) (v : pyval),
    search_nearby maps_tools center keyword radius openNow minRating log
    = (Ok v, log') ->
    exists tools location l places,
      maps_tools = Some tools
      /\ get_location tools (VDict center) log = (Ok location, l)
      /\ v = VDict [("location", location);
                    ("places", VList places);
                    ("total_results", VInt (Z.of_nat (List.length places)))]
      /\ Forall (has_keys place_keys) places.
Proof.
  intros maps_tools center keyword radius openNow minRating log log' v.
  unfold search_nearby. destruct maps_tools as [tools | ]; [ | discriminate].
  unfold try_except, tool_failure, bind, lift, raise, ret.
  destruct (get_location tools (VDict center) log) as [[location | e] l]
    eqn:Hloc; [ | discriminate].
  destruct (search_nearby_places tools _ l) as [[found | e] l2];
    [ | discriminate].
  destruct (py_iter found) as [candidates | e]; [ | discriminate].
  destruct (map_result formatted_place candidates) as [places | e] eqn:Hmap;
    [ | discriminate].
  intros H. inversion H; subst.
  exists tools, location, l, places.
  split; [reflexivity | split; [exact Hloc | split; [reflexivity | ]]].
  apply map_result_Forall2 in Hmap.
  eapply Forall2_Forall_r; [ | exact Hmap].
  intros x y. apply formatted_place_shape.
Qed.

Lemma search_nearby_result_shape_witness :
  let summaries :=
    [place_summary (VStr "Low") (VFloat (FNum (Qmake 12 10)));
     place_summary (VStr "Unrated") VNone;
     place_summary (VStr "Good") (VFloat (FNum (Qmake 47 10)));
     place_summary (VStr "Fair") (VInt 3)] in
  exists tools location l places,
    Some tools_example = Some tools
    /\ get_location tools (VDict (coordinates_center "1,2")) []
       = (Ok location, l)
    /\ VDict [("location", VDict [("lat", VFloat (FNum (inject_Z 1)));
                                  ("lng", VFloat (FNum (inject_Z 2)))]);
              ("places", VList summaries);
              ("total_results", VInt 4)]
       = VDict [("location", location);
                ("places", VList places);
                ("total_results", VInt (Z.of_nat (List.length places)))]
    /\ Forall (has_keys place_keys) places.
Proof.
  apply (search_nearby_result_shape (Some tools_example)
           (coordinates_center "1,2") None 500 false None []
           [(places_nearby_ep,
             [("location", VTuple [VFloat (FNum (inject_Z 1));
                                   VFloat (FNum (inject_Z 2))]);
              ("radius", VInt 500);
              ("language", VStr "zh-TW")])]).
  reflexivity.
Defined.

Lemma formatted_details_shape (placeId : string) (details v : pyval) :
  formatted_details placeId details = Ok v ->
  exists name address location rating total_ratings open_now opening_hours
         phone international_phone website url price_level types
         provider_photos photos provider_reviews reviews,
    rbind (py_get details "photos" (VList [])) py_iter = Ok provider_photos
    /\ map_result formatted_photo provider_photos = Ok photos
    /\ rbind (py_get details "reviews" (VList [])) py_iter
       = Ok provider_reviews
    /\ map_result formatted_review provider_reviews = Ok reviews
    /\ v = VDict [("name", name);
                  ("place_id", VStr placeId);
                  ("address", address);
                  ("location", location);
                  ("rating", rating);
                  ("total_ratings", total_ratings);
                  ("open_now", open_now);
                  ("opening_hours", opening_hours);
                  ("phone", phone);
                  ("international_phone", international_phone);
                  ("website", website);
                  ("url", url);
                  ("price_level", price_level);
                  ("types", types);
                  ("photos", VList photos);
                  ("reviews", VList reviews)].
Proof.
  unfold formatted_details, get_in. shape_cases.
  intros H. inversion H. do 17 eexists.
  repeat split; eassumption.
Qed.

(** X12. A successful [get_place_details] tool answers a dictionary with
    the same sixteen keys whatever the provider gave.  Its [place_id] is
    the id that was asked for, not one taken from the provider; its photos
    and reviews are one per photo and review of the provider, reduced to
    three and eight fixed keys. *)
Theorem place_details_result_shape :
  forall maps_tools (placeId : string) (log log' : list call) (v : pyval),
    server.get_place_details maps_tools placeId log = (Ok v, log') ->
    has_keys detail_keys v
    /\ getitem v "place_id" = Ok (VStr placeId)
    /\ exists tools details provider_photos photos provider_reviews reviews,
         maps_tools = Some tools
         /\ maps_tools.get_place_details tools (VStr placeId) log
            = (Ok details, log')
         /\ rbind (py_get details "photos" (VList [])) py_iter
            = Ok provider_photos
         /\ rbind (py_get details "reviews" (VList [])) py_iter
            = Ok provider_reviews
         /\ getitem v "photos" = Ok (VList photos)
         /\ getitem v "reviews" = Ok (VList reviews)
         /\ List.length photos = List.length provider_photos
         /\ List.length reviews = List.length provider_reviews
         /\ Forall (has_keys photo_keys) photos
         /\ Forall (has_keys review_keys) reviews.
Proof.
  intros maps_tools placeId log log' v.
  unfold server.get_place_details.
  destruct maps_tools as [tools | ]; [ | discriminate].
  unfold try_except, tool_failure, bind, lift, raise.
  destruct (maps_tools.get_place_details tools (VStr placeId) log)
    as [[details | e] l] eqn:Hdetails; [ | discriminate].
  destruct (formatted_details placeId details) as [r | e] eqn:Hformat;
    [ | discriminate].
  intros H. inversion H; subst r l. clear H.
  destruct (formatted_details_shape _ _ _ Hformat)
    as (name & address & location & rating & total_ratings & open_now
        & opening_hours & phone & international_phone & website & url
        & price_level & types & provider_photos & photos
        & provider_reviews & reviews
        & Hpp & Hphotos & Hpr & Hreviews & ->).
  split; [eexists; split; reflexivity | ].
  split; [reflexivity | ].
  exists tools, details, provider_photos, photos, provider_reviews, reviews.
  split; [reflexivity | ]. split; [exact Hdetails | ].
  split; [exact Hpp | ]. split; [exact Hpr | ].
  split; [reflexivity | ]. split; [reflexivity | ].
  split; [apply (map_result_length _ _ _ Hphotos) | ].
  split; [apply (map_result_length _ _ _ Hreviews) | ].
  split.
  - apply map_result_Forall2 in Hphotos.
    eapply Forall2_Forall_r; [ | exact Hphotos].
    intros x y. apply formatted_photo_shape.
  - apply map_result_Forall2 in Hreviews.
    eapply Forall2_Forall_r; [ | exact Hreviews].
    intros x y. apply formatted_review_shape.
Qed.

Lemma place_details_result_shape_witness :
  server.get_place_details (Some tools_detail) "asked-for" []
  = (Ok details_example, [place_request tools_detail (VStr "asked-for")])
  /\ has_keys detail_keys details_example
  /\ getitem details_example "place_id" = Ok (VStr "asked-for")
  /\ exists tools details provider_photos photos provider_reviews reviews,
       Some tools_detail = Some tools
       /\ maps_tools.get_place_details tools (VStr "asked-for") []
          = (Ok details, [place_request tools_detail (VStr "asked-for")])
       /\ rbind (py_get details "photos" (VList [])) py_iter
          = Ok provider_photos
       /\ rbind (py_get details "reviews" (VList [])) py_iter
          = Ok provider_reviews
       /\ getitem details_example "photos" = Ok (VList photos)
       /\ getitem details_example "reviews" = Ok (VList reviews)
       /\ List.length photos = List.length provider_photos
       /\ List.length reviews = List.length provider_reviews
       /\ Forall (has_keys photo_keys) photos
       /\ Forall (has_keys review_keys) reviews.
Proof.
  split; [reflexivity | ].
  apply (place_details_result_shape (Some tools_detail) "asked-for" []
           [place_request tools_detail (VStr "asked-for")] details_example).
  reflexivity.
Defined.

(** ** Times of a route *)

Lemma matches_length (template s : string) :
  matches template s = true -> String.length s = String.length template.
Proof.
  revert s. induction template as [ | t template IH]; intros [ | c s]; cbn;
    try discriminate; [reflexivity | ].
  intros H. apply andb_prop in H. destruct H as [_ H].
  rewrite (IH s H). reflexivity.
Qed.

Lemma length_append (s1 s2 : string) :
  String.length (s1 ++ s2) = (String.length s1 + String.length s2)%nat.
Proof.
  induction s1 as [ | c s1 IH]; cbn; [reflexivity | ].
  rewrite IH. reflexivity.
Qed.

Lemma strftime_length (d : datetime) :
  String.length (strftime d)
  = (String.length (year_digits (dt_year d)) + 15)%nat.
Proof.
  unfold strftime. rewrite length_append. reflexivity.
Qed.

Lemma year_digits_length (year : Z) :
  (1 <= String.length (year_digits year) <= 4)%nat
  /\ (year < 1000 -> (String.length (year_digits year) <= 3)%nat).
Proof.
  unfold year_digits.
  destruct (Z.ltb_spec year 10); [cbn; lia | ].
  destruct (Z.ltb_spec year 100); [cbn; lia | ].
  destruct (Z.ltb_spec year 1000); cbn; lia.
Qed.

(** X13. For a dictionary, [format_time] gives the empty text exactly
    when the key [value] is missing: a time that is present is never shown
    as absent.  With whole epoch seconds whose local time lies from year
    1000 to 9999-12-29 the text has the form YYYY-MM-DD HH:MM:SS and
    names that local time.  Before year 1000, from 0001-01-05 on, the year
    is written without padding, so that the text is shorter than that
    form. *)
Theorem format_time_of_dictionary :
  forall utcoffset (info : pydict),
    (format_time utcoffset (VDict info) = Ok (VStr "")
     <-> dict_get info "value" = None)
    /\ (forall value t,
           zone utcoffset ->
           dict_get info "value" = Some value ->
           whole_number value t ->
           min_local_seconds <= t + utcoffset t <= max_local_seconds ->
           exists out,
             format_time utcoffset (VDict info) = Ok (VStr out)
             /\ is_timestamp_text out = true
             /\ seconds_of_text out = Some (t + utcoffset t))
    /\ (forall value t,
           zone utcoffset ->
           dict_get info "value" = Some value ->
           whole_number value t ->
           early_local_seconds <= t + utcoffset t < min_local_seconds ->
           exists out,
             format_time utcoffset (VDict info) = Ok (VStr out)
             /\ (16 <= String.length out <= 18)%nat
             /\ is_timestamp_text out = false).
Proof.
  intros utcoffset info. split; [ | split].
  - split.
    + intros Hempty.
      destruct (dict_get info "value") as [value | ] eqn:Hvalue;
        [exfalso | reflexivity].
      revert Hempty. unfold format_time.
      rewrite (dict_get_truthy info "value" _ Hvalue).
      cbn [negb py_in rbind]. rewrite Hvalue. cbn [negb getitem rbind].
      rewrite Hvalue. cbn [rbind].
      destruct (fromtimestamp utcoffset value) as [d | e]; cbn [rbind];
        [ | discriminate].
      intros H. inversion H as [Htext].
      apply (f_equal String.length) in Htext.
      rewrite strftime_length in Htext. cbn in Htext. lia.
    + intros Hnone. unfold format_time.
      destruct (truthy (VDict info)); [ | reflexivity].
      cbn [negb py_in rbind]. rewrite Hnone. reflexivity.
  - intros value t Hzone Hvalue Hwhole Hrange.
    exists (strftime (civil (t + utcoffset t))). split.
    + apply (format_time_epoch utcoffset info value t Hzone Hvalue Hwhole).
      unfold early_local_seconds, min_local_seconds in *. lia.
    + apply seconds_of_text_strftime.
      unfold min_local_seconds, max_local_seconds, last_local_seconds in *.
      lia.
  - intros value t Hzone Hvalue Hwhole Hrange.
    exists (strftime (civil (t + utcoffset t))). split.
    + apply (format_time_epoch utcoffset info value t Hzone Hvalue Hwhole).
      unfold early_local_seconds, min_local_seconds, max_local_seconds in *.
      lia.
    + destruct (civil_correct (t + utcoffset t))
        as (_ & _ & _ & _ & _ & _ & _ & _ & Hshort & _).
      assert (16 <= String.length (strftime (civil (t + utcoffset t))) <= 18)%nat
        as Hlength.
      { rewrite strftime_length.
        destruct (year_digits_length (dt_year (civil (t + utcoffset t))))
          as [Hany Hthree].
        specialize (Hthree (Hshort ltac:(lia))). lia. }
      split; [exact Hlength | ].
      destruct (is_timestamp_text (strftime (civil (t + utcoffset t))))
        eqn:Hshape; [exfalso | reflexivity].
      apply matches_length in Hshape. cbn in Hshape. lia.
Qed.

(** A field without [value] reads as the empty text; 1709164800 reads as
    2024-02-29 00:00:00 in UTC, and -31000000000 as 987-08-25 16:53:20. *)
Lemma format_time_of_dictionary_witness :
  (format_time utc (VDict [("text", VStr "8:00")]) = Ok (VStr ""))
  /\ (exists out,
         format_time utc (VDict [("value", VInt 1709164800)])
         = Ok (VStr out)
         /\ is_timestamp_text out = true
         /\ seconds_of_text out = Some (1709164800 + utc 1709164800))
  /\ (exists out,
         format_time utc (VDict [("value", VInt (-31000000000))])
         = Ok (VStr out)
         /\ (16 <= String.length out <= 18)%nat
         /\ is_timestamp_text out = false).
Proof.
  split; [ | split].
  - apply (proj2 (proj1 (format_time_of_dictionary utc
                           [("text", VStr "8:00")]))).
    reflexivity.
  - apply (proj1 (proj2 (format_time_of_dictionary utc
                           [("value", VInt 1709164800)]))
             (VInt 1709164800) 1709164800).
    + intros t. unfold utc. lia.
    + reflexivity.
    + left. reflexivity.
    + unfold utc, min_local_seconds, max_local_seconds. lia.
  - apply (proj2 (proj2 (format_time_of_dictionary utc
                           [("value", VInt (-31000000000))]))
             (VInt (-31000000000)) (-31000000000)).
    + intros t. unfold utc. lia.
    + reflexivity.
    + left. reflexivity.
    + unfold utc, early_local_seconds, min_local_seconds. lia.
Defined.

(** X14. The request of [get_directions] always carries exactly one of
    [arrival_time] and [departure_time], never both and never neither:
    the arrival time when one is supplied, the departure time otherwise,
    which is then [None] when no departure time was supplied either. *)
Theorem directions_request_has_one_time :
  forall utcoffset self origin destination mode departure_time arrival_time
         (log : list call),
  exists params,
    snd (get_directions utcoffset self origin destination mode
           departure_time arrival_time log)
    = (log ++ [(directions_ep, params)])%list
    /\ ((truthy arrival_time = true
         /\ dict_get params "arrival_time" = Some arrival_time
         /\ dict_get params "departure_time" = None)
        \/ (truthy arrival_time = false
            /\ dict_get params "arrival_time" = None
            /\ dict_get params "departure_time" = Some departure_time)).
Proof.
  intros. eexists. split; [apply get_directions_log | ].
  unfold directions_params.
  destruct (truthy arrival_time); [left | right];
    [ | destruct (truthy departure_time)]; repeat split.
Qed.

(** ** Time texts of the directions tool *)

Lemma parse_time_unparseable fromisoformat (s : string) (first second : text) :
  s <> "" ->
  fromisoformat (replace "Z" "+00:00" s) = inr first ->
  fromisoformat s = inr second ->
  parse_time fromisoformat (Some s)
  = Err (Exn ValueError second None (Some (exception ValueError first))).
Proof.
  intros Hs Hreplaced Horiginal. unfold parse_time.
  rewrite (proj2 (truthy_str s) Hs).
  unfold py_fromisoformat, catch_in. rewrite Hreplaced, Horiginal.
  reflexivity.
Qed.

(** X15. A time text that [fromisoformat] refuses, both with its [Z]
    replaced and as it is, stops [maps_directions] before the adapter is
    called: the tool raises its [RuntimeError] and no request is sent.
    The message is the prefix of the tool followed by what
    [fromisoformat] said of the text as it is, which need not be that the
    text is not in ISO format: a month 13 is refused as such.  This holds
    for the departure time, and for the arrival time once the departure
    time was read.  An empty text counts as no time at all. *)
Theorem unparseable_time_stops_directions :
  forall utcoffset fromisoformat tools origin destination mode
         (log : list call),
    (forall s arrival_time first second,
        s <> "" ->
        fromisoformat (replace "Z" "+00:00" s) = inr first ->
        fromisoformat s = inr second ->
        maps_directions utcoffset fromisoformat (Some tools)
          origin destination mode (Some s) arrival_time log
        = (Err (exception_handling RuntimeError
                  (fstr "Failed to get directions: " second)
                  (Exn ValueError second None
                     (Some (exception ValueError first)))), log))
    /\ (forall s departure_time dept_time first second,
           parse_time fromisoformat departure_time = Ok dept_time ->
           s <> "" ->
           fromisoformat (replace "Z" "+00:00" s) = inr first ->
           fromisoformat s = inr second ->
           maps_directions utcoffset fromisoformat (Some tools)
             origin destination mode departure_time (Some s) log
           = (Err (exception_handling RuntimeError
                     (fstr "Failed to get directions: " second)
                     (Exn ValueError second None
                        (Some (exception ValueError first)))), log))
    /\ (forall arrival_time,
           maps_directions utcoffset fromisoformat (Some tools)
             origin destination mode (Some "") arrival_time log
           = maps_directions utcoffset fromisoformat (Some tools)
               origin destination mode None arrival_time log)
    /\ (forall departure_time,
           maps_directions utcoffset fromisoformat (Some tools)
             origin destination mode departure_time (Some "") log
           = maps_directions utcoffset fromisoformat (Some tools)
               origin destination mode departure_time None log).
Proof.
  intros utcoffset fromisoformat tools origin destination mode log.
  split; [ | split; [ | split]].
  - intros s arrival_time first second Hs Hreplaced Horiginal.
    unfold maps_directions, try_except, tool_failure, bind, lift, raise.
    rewrite (parse_time_unparseable fromisoformat s first second
               Hs Hreplaced Horiginal).
    reflexivity.
  - intros s departure_time dept_time first second
      Hdept Hs Hreplaced Horiginal.
    unfold maps_directions, try_except, tool_failure, bind, lift, raise.
    rewrite Hdept.
    rewrite (parse_time_unparseable fromisoformat s first second
               Hs Hreplaced Horiginal).
    reflexivity.
  - intros arrival_time. reflexivity.
  - intros departure_time. reflexivity.
Qed.

(** A departure time that is no ISO text, and an arrival time with a
    month 13 after a departure time that was read. *)
Lemma unparseable_time_stops_directions_witness :
  maps_directions utc iso_example (Some tools_example)
    "Eindhoven" "Utrecht" "transit" (Some "tomorrow") None []
  = (Err (exception_handling RuntimeError
            [Lit "Failed to get directions: Invalid isoformat string: ";
             ReprOf (VStr "tomorrow")]
            (Exn ValueError
               [Lit "Invalid isoformat string: "; ReprOf (VStr "tomorrow")]
               None
               (Some (exception ValueError
                        [Lit "Invalid isoformat string: ";
                         ReprOf (VStr "tomorrow")])))), [])
  /\ maps_directions utc iso_example (Some tools_example)
       "Eindhoven" "Utrecht" "transit" (Some "2024-03-01T08:00:00")
       (Some "2024-13-01T00:00:00") []
     = (Err (exception_handling RuntimeError
               [Lit "Failed to get directions: month must be in 1..12"]
               (Exn ValueError [Lit "month must be in 1..12"] None
                  (Some (exception ValueError
                           [Lit "month must be in 1..12"])))), []).
Proof.
  destruct (unparseable_time_stops_directions utc iso_example tools_example
              "Eindhoven" "Utrecht" "transit" [])
    as (Hdeparture & Harrival & _ & _).
  split.
  - apply (Hdeparture "tomorrow" None
             [Lit "Invalid isoformat string: "; ReprOf (VStr "tomorrow")]
             [Lit "Invalid isoformat string: "; ReprOf (VStr "tomorrow")]);
      [discriminate | reflexivity | reflexivity].
  - apply (Harrival "2024-13-01T00:00:00" (Some "2024-03-01T08:00:00")
             (VDatetime departure_example)
             [Lit "month must be in 1..12"] [Lit "month must be in 1..12"]);
      [reflexivity | discriminate | reflexivity | reflexivity].
Defined.

(** ** The status resource *)

Lemma get_server_status_probe tools (log : list call) :
  get_server_status (Some tools) log
  = (Ok (match fst (geocode tools (VStr "Google") log) with
         | Ok _ => [Lit "Google Maps API is working correctly"]
         | Err e => fstr "Google Maps API error: " (exc_str e)
         end),
     (log ++ [geocode_request tools (VStr "Google")])%list).
Proof.
  unfold get_server_status, try_except, bind, ret.
  pose proof (geocode_log tools (VStr "Google") log) as Hlog.
  destruct (geocode tools (VStr "Google") log) as [[r | e] l];
    cbn [fst snd] in Hlog |- *; subst l; reflexivity.
Qed.

Lemma status_error_is_not_working (t : text) :
  fstr "Google Maps API error: " t
  <> [Lit "Google Maps API is working correctly"].
Proof.
  unfold fstr, lit_cons. destruct t as [ | [s | v | v] t];
    intros H; inversion H.
Qed.

(** X16. The status resource never raises.  Without tools it answers
    that they are not initialized and sends nothing.  With tools it sends
    exactly one geocoding request, for the address "Google", and answers
    that the API works when that succeeds, and the text of the failure
    after "Google Maps API error: " when it fails. *)
Theorem server_status_never_raises :
  forall (maps_tools : option GoogleMapsTools) (log : list call),
    match maps_tools with
    | None =>
        get_server_status None log
        = (Ok [Lit "Google Maps tools not initialized"], log)
    | Some tools =>
        get_server_status (Some tools) log
        = (Ok (match fst (geocode tools (VStr "Google") log) with
               | Ok _ => [Lit "Google Maps API is working correctly"]
               | Err e => fstr "Google Maps API error: " (exc_str e)
               end),
           (log ++ [geocode_request tools (VStr "Google")])%list)
    end.
Proof.
  intros [tools | ] log; [ | reflexivity].
  apply get_server_status_probe.
Qed.

(** X17. [validate_api_key] never raises either, and it agrees with the
    status resource: it sends what the status resource sends, and it is
    [True] exactly when the status text says that the API works, which is
    exactly when there are tools and geocoding "Google" with them
    succeeds. *)
Theorem validate_api_key_follows_probe :
  forall (maps_tools : option GoogleMapsTools) (log : list call),
  exists valid,
    validate_api_key maps_tools log
    = (Ok valid, snd (get_server_status maps_tools log))
    /\ (valid = true
        <-> fst (get_server_status maps_tools log)
            = Ok [Lit "Google Maps API is working correctly"])
    /\ (valid = true
        <-> exists tools r,
              maps_tools = Some tools
              /\ fst (geocode tools (VStr "Google") log) = Ok r).
Proof.
  intros [tools | ] log.
  - rewrite (get_server_status_probe tools log). cbn [fst snd].
    unfold validate_api_key, try_except, bind, ret.
    pose proof (geocode_log tools (VStr "Google") log) as Hlog.
    destruct (geocode tools (VStr "Google") log) as [[r | e] l] eqn:Hprobe;
      cbn [fst snd] in Hlog |- *; subst l.
    + exists true. split; [reflexivity | ]. split; split; auto.
      intros _. exists tools, r. rewrite Hprobe. split; reflexivity.
    + exists false. split; [reflexivity | ]. split; split.
      * discriminate.
      * intros H. exfalso.
        apply (status_error_is_not_working (exc_str e)).
        congruence.
      * discriminate.
      * intros (tools' & r & Htools & H). inversion Htools; subst tools'.
        rewrite Hprobe in H. discriminate H.
  - exists false. split; [reflexivity | ]. split; split.
    + discriminate.
    + cbn. intros H. inversion H.
    + discriminate.
    + intros (tools' & r & H & _). discriminate H.
Qed.

(** ** All or nothing: one unreadable item fails the whole call *)

Lemma map_result_In_ok {A B} (f : A -> result B) (l : list A) (ys : list B)
    (x : A) :
  map_result f l = Ok ys -> In x l -> exists y, f x = Ok y.
Proof.
  revert ys. induction l as [ | a l IH]; intros ys; cbn; [tauto | ].
  destruct (f a) as [y | e] eqn:Ha; cbn; [ | discriminate].
  destruct (map_result f l) as [ys' | e]; cbn; [ | discriminate].
  intros _ [<- | Hin]; [exists y; exact Ha | ].
  apply (IH ys' eq_refl Hin).
Qed.

Lemma map_result_first_error {A B} (f : A -> result B)
    (before after : list A) (x : A) (e : exn) :
  Forall (fun a => exists y, f a = Ok y) before ->
  f x = Err e ->
  map_result f (before ++ x :: after) = Err e.
Proof.
  intros Hbefore Hx. induction Hbefore as [ | a l [y Ha] _ IH]; cbn.
  - rewrite Hx. reflexivity.
  - rewrite Ha, IH. reflexivity.
Qed.

Lemma filter_result_In_ok {A} (p : A -> result bool) (l kept : list A)
    (x : A) :
  filter_result p l = Ok kept -> In x l -> exists b, p x = Ok b.
Proof.
  revert kept. induction l as [ | a l IH]; intros kept; cbn; [tauto | ].
  destruct (p a) as [b | e] eqn:Ha; cbn; [ | discriminate].
  destruct (filter_result p l) as [ys | e]; cbn; [ | discriminate].
  intros _ [<- | Hin]; [exists b; exact Ha | ].
  apply (IH ys eq_refl Hin).
Qed.

(** X18. A location without its [latitude] or its [longitude] stops
    [get_elevation] before anything is sent: when the locations before it
    are complete, the call raises a [ValueError] from the [KeyError] of
    the first key that is missing, whose message is the prefix followed by
    the quoted key, and the log of requests is unchanged, whatever follows
    in the list. *)
Theorem elevation_needs_both_coordinates :
  forall self (before after : list pyval) (d : pydict) (log : list call),
    Forall (fun loc => exists point, formatted_location loc = Ok point)
      before ->
    dict_get d "latitude" = None \/ dict_get d "longitude" = None ->
    let key :=
      match dict_get d "latitude" with
      | Some _ => "longitude"
      | None => "latitude"
      end in
    get_elevation self (VList (before ++ VDict d :: after)) log
    = (Err (exception_from ValueError
              [Lit "Error getting elevation data: "; ReprOf (VStr key)]
              (exception KeyError [ReprOf (VStr key)])),
       log).
Proof.
  intros self before after d log Hbefore Hmissing key.
  assert (formatted_location (VDict d)
          = Err (exception KeyError [ReprOf (VStr key)])) as Hloc.
  { unfold formatted_location, key, rbind. cbn [getitem].
    destruct (dict_get d "latitude") as [latitude | ]; [ | reflexivity].
    destruct Hmissing as [H | H]; [discriminate H | ].
    rewrite H. reflexivity. }
  unfold get_elevation, try_except, bind, lift, raise. cbn [py_iter].
  rewrite (map_result_first_error formatted_location before after
             (VDict d) _ Hbefore Hloc).
  reflexivity.
Qed.

Lemma elevation_needs_both_coordinates_witness :
  get_elevation tools_example
    (VList [location_complete; location_without_longitude;
            location_complete]) []
  = (Err (exception_from ValueError
            [Lit "Error getting elevation data: ";
             ReprOf (VStr "longitude")]
            (exception KeyError [ReprOf (VStr "longitude")])),
     []).
Proof.
  apply (elevation_needs_both_coordinates tools_example
           [location_complete] [location_complete]
           [("latitude", VFloat (FNum (Qmake 5144 100)))] []).
  - constructor; [ | constructor]. eexists. reflexivity.
  - right. reflexivity.
Defined.

(** X19. The distance matrix is all or nothing.  When one element of one
    row of the provider's answer cannot be read, for instance an element
    marked [OK] that has no [distance], the whole call raises the
    adapter's [ValueError], after its one request: no partial matrix is
    returned. *)
Theorem unreadable_element_fails_the_matrix :
  forall self origins destinations mode (log : list call)
         response rows row elements element e0,
    client self distance_matrix_ep
      (snd (matrix_request self origins destinations mode))
    = Ok response ->
    rbind (getitem response "rows") py_iter = Ok rows ->
    In row rows ->
    rbind (getitem row "elements") py_iter = Ok elements ->
    In element elements ->
    matrix_cells element = Err e0 ->
    exists cause,
      calculate_distance_matrix self origins destinations mode log
      = (Err (exception_from ValueError
                (fstr "Error calculating distance matrix: " (exc_str cause))
                cause),
         (log ++ [matrix_request self origins destinations mode])%list).
Proof.
  intros self origins destinations mode log response rows row elements
    element e0 Hclient Hrows Hrow Helements Helement Hcells.
  pose proof (calculate_distance_matrix_log self origins destinations mode log)
    as Hlog.
  assert (wrapped "Error calculating distance matrix: "
            (calculate_distance_matrix self origins destinations mode log))
    as Hwrapped by apply try_except_wrapped.
  destruct (calculate_distance_matrix self origins destinations mode log)
    as [[v | e] l] eqn:Hrun; cbn [snd] in Hlog; subst l.
  - exfalso.
    apply calculate_distance_matrix_ok in Hrun.
    destruct Hrun as (response' & rows' & out & oa & da
                      & _ & Hclient' & _ & Hrows' & Hout & _).
    rewrite Hclient in Hclient'. inversion Hclient'; subst response'.
    rewrite Hrows in Hrows'. inversion Hrows'; subst rows'.
    destruct (map_result_In_ok matrix_row rows out row Hout Hrow)
      as [cells Hcells_row].
    unfold matrix_row in Hcells_row. unfold rbind in Helements, Hcells_row.
    destruct (getitem row "elements") as [els | ]; [ | discriminate].
    rewrite Helements in Hcells_row.
    destruct (map_result matrix_cells elements) as [cs | ] eqn:Hcs;
      [ | discriminate].
    destruct (map_result_In_ok matrix_cells elements cs element Hcs Helement)
      as [c Hc].
    congruence.
  - destruct (Hwrapped e _ eq_refl) as [cause ->].
    exists cause. reflexivity.
Qed.

Lemma unreadable_element_fails_the_matrix_witness :
  exists cause,
    calculate_distance_matrix tools_partial
      (VList [VStr "Eindhoven"]) (VList [VStr "Utrecht"; VStr "Delft"])
      (VStr "driving") []
    = (Err (exception_from ValueError
              (fstr "Error calculating distance matrix: " (exc_str cause))
              cause),
       ([] ++ [matrix_request tools_partial
                 (VList [VStr "Eindhoven"])
                 (VList [VStr "Utrecht"; VStr "Delft"])
                 (VStr "driving")])%list).
Proof.
  apply (unreadable_element_fails_the_matrix tools_partial
           (VList [VStr "Eindhoven"]) (VList [VStr "Utrecht"; VStr "Delft"])
           (VStr "driving") []
           (VDict [("status", VStr "OK");
                   ("rows",
                    VList [VDict [("elements",
                                   VList [element_ok;
                                          element_without_distance])]]);
                   ("origin_addresses", VList [VStr "Eindhoven"]);
                   ("destination_addresses",
                    VList [VStr "Utrecht"; VStr "Delft"])])
           [VDict [("elements",
                    VList [element_ok; element_without_distance])]]
           (VDict [("elements",
                    VList [element_ok; element_without_distance])])
           [element_ok; element_without_distance]
           element_without_distance
           (exception KeyError [ReprOf (VStr "distance")])).
  - reflexivity.
  - reflexivity.
  - left. reflexivity.
  - reflexivity.
  - right. left. reflexivity.
  - reflexivity.
Defined.

Lemma rating_at_least_not_a_number (q : pyfloat) (place rating : pyval) :
  py_get place "rating" (VInt 0) = Ok rating ->
  as_number rating = None ->
  exists e, rating_at_least (VFloat q) place = Err e.
Proof.
  intros Hrating Hnumber. unfold rating_at_least, rbind. rewrite Hrating.
  unfold py_ge. rewrite Hnumber.
  destruct rating; eexists; reflexivity.
Qed.

(** X20. The rating filter is all or nothing too.  When a minimum rating
    other than 0 is supplied and the request was sent, one candidate whose
    [rating] is present but is not a number, [None] for instance, makes
    the whole search raise the adapter's [ValueError]: the places that
    could be compared are not returned.  The same answer without a
    minimum rating is returned as it is. *)
Theorem rating_filter_needs_numbers :
  forall self (params args : pydict) (log : list call)
         response places,
    snd (search_nearby_places self (VDict params) log)
    = (log ++ [(places_nearby_ep, args)])%list ->
    client self places_nearby_ep args = Ok response ->
    py_get response "results" (VList []) = Ok places ->
    (forall q candidates place rating,
        dict_get params "minRating" = Some (VFloat q) ->
        float_truthy q = true ->
        py_iter places = Ok candidates ->
        In place candidates ->
        py_get place "rating" (VInt 0) = Ok rating ->
        as_number rating = None ->
        exists cause,
          fst (search_nearby_places self (VDict params) log)
          = Err (exception_from ValueError
                   (fstr "Error searching nearby places: " (exc_str cause))
                   cause))
    /\ (truthy (get_or params "minRating" VNone) = false ->
        fst (search_nearby_places self (VDict params) log) = Ok places).
Proof.
  intros self params args log response places Hsent Hclient Hresults.
  split.
  - intros q candidates place rating Hmin Hq Hcandidates Hin Hrating Hnumber.
    assert (wrapped "Error searching nearby places: "
              (search_nearby_places self (VDict params) log))
      as Hwrapped by apply try_except_wrapped.
    destruct (search_nearby_places self (VDict params) log)
      as [[v | e] l] eqn:Hrun; cbn [fst snd] in Hsent |- *; subst l.
    + exfalso.
      apply search_nearby_places_ok in Hrun.
      destruct Hrun as (args' & response' & places' & supplied
                        & Hlog & Hclient' & Hresults' & Hsupplied
                        & _ & Hfilter).
      apply app_inv_head in Hlog. inversion Hlog; subst args'.
      rewrite Hclient in Hclient'. inversion Hclient'; subst response'.
      rewrite Hresults in Hresults'. inversion Hresults'; subst places'.
      cbn [py_get] in Hsupplied. rewrite Hmin in Hsupplied.
      inversion Hsupplied; subst supplied.
      destruct (Hfilter Hq) as (min_rating & candidates' & kept
                                & Hmin' & Hcandidates' & Hkept & _).
      cbn [getitem] in Hmin'. rewrite Hmin in Hmin'.
      inversion Hmin'; subst min_rating.
      rewrite Hcandidates in Hcandidates'.
      inversion Hcandidates'; subst candidates'.
      destruct (filter_result_In_ok _ _ _ _ Hkept Hin) as [b Hb].
      destruct (rating_at_least_not_a_number q place rating Hrating Hnumber)
        as [e He].
      congruence.
    + destruct (Hwrapped e _ eq_refl) as [cause ->].
      exists cause. reflexivity.
  - revert Hsent Hclient Hresults. unfold get_or.
    unfold search_nearby_places, try_except, bind, request, lift, raise, ret.
    cbn [getitem py_get].
    repeat (case_inner; cbn beta iota); cbn [fst snd]; intros Hsent.
    all: try (exfalso; apply (not_sent_yet _ _ Hsent)).
    all: apply app_inv_head in Hsent; inversion Hsent; subst args;
      clear Hsent.
    all: intros Hclient Hresults Hfalsy.
    all: try congruence.
    all: match goal with
         | E : client _ _ _ = _ |- _ =>
             tryif constr_eq E Hclient then fail
             else (pose proof (eq_trans (eq_sym E) Hclient) as Hsame;
                   inversion Hsame; subst)
         end.
    all: congruence.
Qed.

Lemma rating_filter_needs_numbers_witness :
  let location := VDict [("lat", VInt 1); ("lng", VInt 2)] in
  let places :=
    VList [place_good;
           VDict [("name", VStr "Null rating"); ("rating", VNone)]] in
  (exists cause,
      fst (search_nearby_places tools_partial
             (VDict [("location", location);
                     ("minRating", VFloat (FNum (inject_Z 4)))]) [])
      = Err (exception_from ValueError
               (fstr "Error searching nearby places: " (exc_str cause))
               cause))
  /\ fst (search_nearby_places tools_partial
            (VDict [("location", location)]) [])
     = Ok places.
Proof.
  cbv zeta. split.
  - apply (proj1 (rating_filter_needs_numbers tools_partial
                    [("location", VDict [("lat", VInt 1); ("lng", VInt 2)]);
                     ("minRating", VFloat (FNum (inject_Z 4)))]
                    [("location", VTuple [VInt 1; VInt 2]);
                     ("radius", VInt 1000);
                     ("language", VStr "zh-TW")]
                    []
                    (VDict [("results",
                             VList [place_good;
                                    VDict [("name", VStr "Null rating");
                                           ("rating", VNone)]])])
                    (VList [place_good;
                            VDict [("name", VStr "Null rating");
                                   ("rating", VNone)]])
                    eq_refl eq_refl eq_refl)
             (FNum (inject_Z 4))
             [place_good;
              VDict [("name", VStr "Null rating"); ("rating", VNone)]]
             (VDict [("name", VStr "Null rating"); ("rating", VNone)])
             VNone).
    + reflexivity.
    + reflexivity.
    + reflexivity.
    + right. left. reflexivity.
    + reflexivity.
    + reflexivity.
  - apply (proj2 (rating_filter_needs_numbers tools_partial
                    [("location", VDict [("lat", VInt 1); ("lng", VInt 2)])]
                    [("location", VTuple [VInt 1; VInt 2]);
                     ("radius", VInt 1000);
                     ("language", VStr "zh-TW")]
                    []
                    (VDict [("results",
                             VList [place_good;
                                    VDict [("name", VStr "Null rating");
                                           ("rating", VNone)]])])
                    (VList [place_good;
                            VDict [("name", VStr "Null rating");
                                   ("rating", VNone)]])
                    eq_refl eq_refl eq_refl)).
    reflexivity.
Defined.
